(** * Group meeting scheduler: calendar availability and scheduling engine

    A shallow embedding of the scheduling core of the repository
    (ical-parser.ts, recurrence-expander.ts, calendar-processor.ts and
    meeting-scheduler.ts) together with the properties its specification
    states about it.

    Conventions of the embedding.
    - A valid JavaScript [Date] is its time value: milliseconds since the
      epoch, an integer ([Z]).  The parser, which can also build an invalid
      date, works over an abstract date type supplied by the host.
    - The host's local time zone is UTC, so [startOfDay], [setHours],
      [getHours] and [isWeekend] are plain arithmetic on the time value.
    - JavaScript numbers that are not integers (scores, overlap minutes) are
      exact rationals ([Q]); rounding of doubles is not modelled.
    - A function that can throw returns an [Outcome]; loops written with
      [while] take fuel and report [OutOfFuel] when it does not suffice.
    - Library calls (rrule, date-fns) are modelled from their documented
      behaviour or taken as fields of a host record. *)

From Stdlib Require Import ZArith QArith Qminmax Qabs List String Ascii Bool Lia Lqa.
From Stdlib Require Import Sorted Permutation.
Import ListNotations.

Open Scope Z_scope.

(* ================================================================== *)
(** * Part I: definitions                                              *)
(* ================================================================== *)

(** ** Outcomes of computations that may throw *)

Inductive Exn : Type :=
| SchedulingError (message code : string)
| ICalParseError (message : string)
| TypeError (message : string)
| Error (message : string).

Definition exn_message (e : Exn) : string :=
  match e with
  | SchedulingError m _ => m
  | ICalParseError m => m
  | TypeError m => m
  | Error m => m
  end.

Inductive Outcome (A : Type) : Type :=
| Returns (a : A)
| Throws (e : Exn)
| OutOfFuel.

Arguments Returns {A} a.
Arguments Throws {A} e.
Arguments OutOfFuel {A}.

Definition bind {A B : Type} (m : Outcome A) (k : A -> Outcome B) : Outcome B :=
  match m with
  | Returns a => k a
  | Throws e => Throws e
  | OutOfFuel => OutOfFuel
  end.

Notation "'do' x <- m ;; k" := (bind m (fun x => k))
  (at level 10, x name, m at level 100, k at level 200).

(** [try m catch h]: the handler sees every thrown value. *)
Definition try_catch {A : Type} (m : Outcome A) (h : Exn -> Outcome A) : Outcome A :=
  match m with
  | Throws e => h e
  | other => other
  end.

(** ** JavaScript string and array primitives used by the code *)

Module JS.

#[local] Open Scope string_scope.

Definition startsWith (s p : string) : bool := String.prefix p s.

Fixpoint rev_string (s : string) : string :=
  match s with
  | EmptyString => EmptyString
  | String c t => rev_string t ++ String c EmptyString
  end.

Definition endsWith (s p : string) : bool :=
  String.prefix (rev_string p) (rev_string s).

(** [s.indexOf(p)]: [None] stands for -1. *)
Fixpoint indexOf (s p : string) : option nat :=
  if String.prefix p s then Some 0%nat
  else match s with
       | EmptyString => None
       | String _ t => option_map S (indexOf t p)
       end.

Definition includes (s p : string) : bool :=
  match indexOf s p with Some _ => true | None => false end.

(** [s.lastIndexOf(p)]. *)
Fixpoint lastIndexOf (s p : string) : option nat :=
  match s with
  | EmptyString => if String.prefix p s then Some 0%nat else None
  | String _ t =>
      match lastIndexOf t p with
      | Some i => Some (S i)
      | None => if String.prefix p s then Some 0%nat else None
      end
  end.

(** [s.substring(n)] and [s.substring(a, b)] for [a <= b]. *)
Fixpoint drop (n : nat) (s : string) : string :=
  match n, s with
  | O, _ => s
  | S n', String _ t => drop n' t
  | S _, EmptyString => EmptyString
  end.

Fixpoint take (n : nat) (s : string) : string :=
  match n, s with
  | S n', String c t => String c (take n' t)
  | _, _ => EmptyString
  end.

Definition substring (a b : nat) (s : string) : string := take (b - a) (drop a s).

(** [s.split(c)] for a one-character separator. *)
Fixpoint split_aux (sep : ascii) (s : string) (cur : string) : list string :=
  match s with
  | EmptyString => [rev_string cur]
  | String c t =>
      if Ascii.eqb c sep then rev_string cur :: split_aux sep t EmptyString
      else split_aux sep t (String c cur)
  end.

Definition split (sep : ascii) (s : string) : list string := split_aux sep s EmptyString.

Definition LF : ascii := Ascii.ascii_of_nat 10.
Definition CR : ascii := Ascii.ascii_of_nat 13.
Definition TAB : ascii := Ascii.ascii_of_nat 9.

Definition strip_trailing_CR (s : string) : string :=
  match rev_string s with
  | String c t => if Ascii.eqb c CR then rev_string t else s
  | EmptyString => s
  end.

Fixpoint map_but_last {A : Type} (f : A -> A) (l : list A) : list A :=
  match l with
  | [] => []
  | [x] => [x]
  | x :: t => f x :: map_but_last f t
  end.

(** [s.split(/\r?\n/)]: a line feed separates, and takes a carriage return
    standing immediately before it with it. *)
Definition split_lines (s : string) : list string :=
  map_but_last strip_trailing_CR (split LF s).

(** White space, as far as ASCII goes. *)
Definition isSpace (c : ascii) : bool :=
  let n := Ascii.nat_of_ascii c in
  ((9 <=? n) && (n <=? 13))%nat || (n =? 32)%nat.

Fixpoint trimStart (s : string) : string :=
  match s with
  | String c t => if isSpace c then trimStart t else s
  | EmptyString => EmptyString
  end.

Definition trim (s : string) : string :=
  rev_string (trimStart (rev_string (trimStart s))).

Definition isDigit (c : ascii) : bool :=
  let n := Ascii.nat_of_ascii c in ((48 <=? n) && (n <=? 57))%nat.

Definition digitVal (c : ascii) : Z := Z.of_nat (Ascii.nat_of_ascii c) - 48.

Definition mapChars (f : ascii -> ascii) : string -> string :=
  fix go (s : string) : string :=
    match s with
    | EmptyString => EmptyString
    | String c t => String (f c) (go t)
    end.

Definition upperChar (c : ascii) : ascii :=
  let n := Ascii.nat_of_ascii c in
  if ((97 <=? n) && (n <=? 122))%nat then Ascii.ascii_of_nat (n - 32) else c.

Definition lowerChar (c : ascii) : ascii :=
  let n := Ascii.nat_of_ascii c in
  if ((65 <=? n) && (n <=? 90))%nat then Ascii.ascii_of_nat (n + 32) else c.

Definition toUpperCase : string -> string := mapChars upperChar.
Definition toLowerCase : string -> string := mapChars lowerChar.

(** The longest prefix of decimal digits and the rest. *)
Fixpoint span_digits (s : string) : string * string :=
  match s with
  | String c t =>
      if isDigit c then let (d, r) := span_digits t in (String c d, r)
      else (EmptyString, s)
  | EmptyString => (EmptyString, EmptyString)
  end.

Fixpoint digits_value (acc : Z) (s : string) : Z :=
  match s with
  | String c t => digits_value (10 * acc + digitVal c) t
  | EmptyString => acc
  end.

(** A JavaScript number that may be [NaN] ([None]); only integers occur. *)
Definition num := option Z.

(** [parseInt(s)]: white space, an optional sign, then the decimal digits
    that follow; [NaN] when there is none.  (The hexadecimal prefix is not
    modelled.) *)
Definition parseInt (s : string) : num :=
  let s := trimStart s in
  let (neg, body) :=
    match s with
    | String "-" t => (true, t)
    | String "+" t => (false, t)
    | _ => (false, s)
    end in
  let (d, _) := span_digits body in
  match d with
  | EmptyString => None
  | _ => Some (if neg then - digits_value 0 d else digits_value 0 d)
  end.

(** [Number(s)] on the strings the scheduler applies it to, the pieces of a
    time of day that [timeRegex] has accepted: a string of decimal digits is
    its value, anything else is treated as [NaN]. *)
Definition Number (s : string) : num :=
  match s with
  | EmptyString => None
  | _ => let (d, r) := span_digits s in
         match r with
         | EmptyString => Some (digits_value 0 d)
         | _ => None
         end
  end.

(** [Array.prototype.sort] with a consistent comparator is a stable sort;
    [leb x y] says the comparator is not positive on [(x, y)]. *)
Fixpoint insert_by {A : Type} (leb : A -> A -> bool) (x : A) (l : list A) : list A :=
  match l with
  | [] => [x]
  | y :: t => if leb x y then x :: l else y :: insert_by leb x t
  end.

Fixpoint sort_by {A : Type} (leb : A -> A -> bool) (l : list A) : list A :=
  match l with
  | [] => []
  | x :: t => insert_by leb x (sort_by leb t)
  end.

(** The names of the members that an object literal inherits from
    [Object.prototype]: a function each, and the prototype object itself
    for [__proto__]. *)
Definition Object_prototype_names : list string :=
  ["constructor"; "hasOwnProperty"; "isPrototypeOf"; "propertyIsEnumerable";
   "toLocaleString"; "toString"; "valueOf"; "__proto__";
   "__defineGetter__"; "__defineSetter__"; "__lookupGetter__"; "__lookupSetter__"].

Definition inherited (k : string) : bool :=
  existsb (String.eqb k) Object_prototype_names.

(** [m[k]] on the own properties of an object used as a table
    ([None] is undefined). *)
Fixpoint lookup {A : Type} (m : list (string * A)) (k : string) : option A :=
  match m with
  | [] => None
  | (k', v) :: t => if String.eqb k' k then Some v else lookup t k
  end.

End JS.

(** ** Data model (types/calendar.ts, types/scheduling.ts) *)

Definition Date := Z.

Definition MS_PER_MINUTE : Z := 60 * 1000.
Definition MS_PER_HOUR : Z := 60 * MS_PER_MINUTE.
Definition MS_PER_DAY : Z := 24 * MS_PER_HOUR.

Inductive EventStatus : Type := confirmed | tentative | cancelled.

Definition status_eqb (a b : EventStatus) : bool :=
  match a, b with
  | confirmed, confirmed | tentative, tentative | cancelled, cancelled => true
  | _, _ => false
  end.

Record DateRange : Type := mkRange { range_start : Date; range_end : Date }.

(** The part of an [RRule] object the expander relies on: its options and
    the dates its iterator yields, in order (the rrule iterator is finite:
    it stops at the latest after year 9999). *)
Record RRule : Type := mkRRule {
  rr_until : option Date;
  rr_count : option Z;
  rr_dates : list Date
}.

Record CalendarEvent : Type := mkEvent {
  ev_id : string;
  ev_summary : string;
  ev_start : Date;
  ev_end : Date;
  ev_timezone : string;
  ev_recurrence : option RRule;
  ev_status : EventStatus
}.

Record ParticipantCalendar : Type := mkCalendar {
  participantId : string;
  name : string;
  timezone : string;
  events : list CalendarEvent;
  source : string
}.

(** ** CalendarProcessor (calendar-processor.ts) *)

Record BusyPeriod : Type := mkBusy {
  bp_participantId : string;
  bp_start : Date;
  bp_end : Date;
  bp_eventIds : list string
}.

Record EventConflict : Type := mkConflict {
  ec_participantId : string;
  event1 : CalendarEvent;
  event2 : CalendarEvent;
  overlapStart : Date;
  overlapEnd : Date;
  overlapDuration : Q
}.

Module CalendarProcessor.

(** The comparator [(a, b) => a.start.getTime() - b.start.getTime()]. *)
Definition byStart (a b : CalendarEvent) : bool := ev_start a <=? ev_start b.

Definition sortByStart (l : list CalendarEvent) : list CalendarEvent :=
  JS.sort_by byStart l.

(** The inner loop of [detectParticipantConflicts] for a fixed [event1]:
    [rest] is [events[i+1..]]. *)
Fixpoint conflictsOf (pid : string) (e1 : CalendarEvent) (rest : list CalendarEvent)
  : list EventConflict :=
  match rest with
  | [] => []
  | e2 :: rest' =>
      if ev_end e1 <=? ev_start e2 then []   (* break *)
      else
        let oStart := Z.max (ev_start e1) (ev_start e2) in
        let oEnd := Z.min (ev_end e1) (ev_end e2) in
        if oStart <? oEnd then
          mkConflict pid e1 e2 oStart oEnd
            (inject_Z (oEnd - oStart) / inject_Z (1000 * 60))
          :: conflictsOf pid e1 rest'
        else conflictsOf pid e1 rest'
  end.

(** The outer loop over [i]. *)
Fixpoint conflictSweep (pid : string) (evs : list CalendarEvent) : list EventConflict :=
  match evs with
  | [] => []
  | e1 :: rest => conflictsOf pid e1 rest ++ conflictSweep pid rest
  end.

Definition detectParticipantConflicts (calendar : ParticipantCalendar)
  : list EventConflict :=
  conflictSweep (participantId calendar) (sortByStart (events calendar)).

(** The loop of [generateBusyPeriods] from [i = 1]: [cur] is
    [currentPeriod], the result is what ends up in [busyPeriods]. *)
Fixpoint mergeFrom (pid : string) (cur : BusyPeriod) (evs : list CalendarEvent)
  : list BusyPeriod :=
  match evs with
  | [] => [cur]
  | e :: rest =>
      if ev_start e <=? bp_end cur then
        mergeFrom pid
          (mkBusy (bp_participantId cur) (bp_start cur)
                  (Z.max (bp_end cur) (ev_end e))
                  (bp_eventIds cur ++ [ev_id e]))
          rest
      else
        cur :: mergeFrom pid (mkBusy pid (ev_start e) (ev_end e) [ev_id e]) rest
  end.

Definition notCancelled (e : CalendarEvent) : bool :=
  negb (status_eqb (ev_status e) cancelled).

Definition generateBusyPeriods (calendar : ParticipantCalendar) : list BusyPeriod :=
  let evs := sortByStart (filter notCancelled (events calendar)) in
  match evs with
  | [] => []
  | e0 :: rest =>
      mergeFrom (participantId calendar)
        (mkBusy (participantId calendar) (ev_start e0) (ev_end e0) [ev_id e0])
        rest
  end.

End CalendarProcessor.

(** ** RecurrenceExpander (recurrence-expander.ts) *)

Module RecurrenceExpander.

(** date-fns [isAfter], [isBefore], [addDays] and
    [differenceInMilliseconds] on valid dates. *)
Definition isAfter (a b : Date) : bool := b <? a.
Definition isBefore (a b : Date) : bool := a <? b.
Definition addDays (d : Date) (n : Z) : Date := d + n * MS_PER_DAY.
Definition differenceInMilliseconds (a b : Date) : Z := a - b.

Definition eventIntersectsRange (event : CalendarEvent) (range : DateRange) : bool :=
  negb (isAfter (ev_start event) (range_end range)
        || isBefore (ev_end event) (range_start range)).

(** [rrule.between(after, before, inc = true, iterator)], from the rrule
    library's iteration protocol: each date the rule yields is offered to
    the result in order; one before [after] is passed over, one after
    [before] ends the iteration, any other is handed to [iterator] with the
    number of dates accepted so far, and is kept if it answers true, while a
    false answer ends the iteration.  With valid bounds the call does not
    throw. *)
Fixpoint between_iter (dates : list Date) (after before : Date)
    (iterator : Date -> nat -> bool) (acc : list Date) : list Date :=
  match dates with
  | [] => acc
  | d :: rest =>
      if d <? after then between_iter rest after before iterator acc
      else if before <? d then acc
      else if iterator d (List.length acc)
           then between_iter rest after before iterator (acc ++ [d])
           else acc
  end.

Definition between (rrule : RRule) (after before : Date)
    (iterator : Date -> nat -> bool) : Outcome (list Date) :=
  Returns (between_iter (rr_dates rrule) after before iterator []).

(** The decimal rendering of a time value, for the occurrence id. *)
Fixpoint pos_digits (fuel : nat) (n : Z) (acc : string) : string :=
  match fuel with
  | O => acc
  | S f =>
      let acc' := String (Ascii.ascii_of_nat (Z.to_nat (48 + n mod 10))) acc in
      if n / 10 =? 0 then acc' else pos_digits f (n / 10) acc'
  end.

Definition Z_toString (z : Z) : string :=
  if z <? 0 then String "-" (pos_digits (Z.to_nat (Z.log2 (- z)) + 1) (- z) EmptyString)
  else pos_digits (Z.to_nat (Z.log2 z) + 1) z EmptyString.

Definition occurrenceOf (event : CalendarEvent) (eventDuration : Z) (startDate : Date)
  : CalendarEvent :=
  mkEvent (ev_id event ++ "_" ++ Z_toString startDate)%string
          (ev_summary event) startDate (startDate + eventDuration)
          (ev_timezone event) (ev_recurrence event) (ev_status event).

Definition expandSingleEvent (event : CalendarEvent) (dateRange : DateRange)
    (maxOccurrences : nat) : list CalendarEvent :=
  match ev_recurrence event with
  | None => if eventIntersectsRange event dateRange then [event] else []
  | Some rrule =>
      let eventDuration := differenceInMilliseconds (ev_end event) (ev_start event) in
      match between rrule (range_start dateRange) (addDays (range_end dateRange) 1)
                    (fun _ i => (i <? maxOccurrences)%nat) with
      | Returns dates =>
          filter (fun occurrence => eventIntersectsRange occurrence dateRange)
                 (map (occurrenceOf event eventDuration) dates)
      | _ =>
          (* catch: fall back to the event itself when it is in range *)
          if eventIntersectsRange event dateRange then [event] else []
      end
  end.

Definition DEFAULT_MAX_OCCURRENCES : nat := 1000.

End RecurrenceExpander.

(** ** ICalParser (ical-parser.ts) *)

Module ICalParser.

Import JS.
#[local] Open Scope string_scope.

(** A property of a component holds a string, or an array of strings once
    its name has occurred more than once. *)
Inductive PropValue : Type :=
| PStr (s : string)
| PArr (l : list string).

Record ICalComponent : Type := mkComponent {
  comp_type : string;
  properties : list (string * PropValue)
}.

(** [props[k]] on the component's own properties ([None] is undefined). *)
Fixpoint getProp (props : list (string * PropValue)) (k : string) : option PropValue :=
  match props with
  | [] => None
  | (k', v) :: t => if String.eqb k' k then Some v else getProp t k
  end.

(** [props[k] = v]. *)
Fixpoint setProp (props : list (string * PropValue)) (k : string) (v : PropValue)
  : list (string * PropValue) :=
  match props with
  | [] => [(k, v)]
  | (k', v') :: t => if String.eqb k' k then (k, v) :: t else (k', v') :: setProp t k v
  end.

(** Truthiness of a property: undefined and the empty string are false. *)
Definition truthy (v : option PropValue) : bool :=
  match v with
  | None => false
  | Some (PStr EmptyString) => false
  | Some _ => true
  end.

Definition isContinuation (l : string) : bool :=
  startsWith l " " || startsWith l (String TAB EmptyString).

Definition isBlank (l : string) : bool :=
  match trim l with EmptyString => true | _ => false end.

(** [preprocessICalContent]: [cur] is the logical line being unfolded. *)
Fixpoint unfoldLines (cur : option string) (lines : list string) : list string :=
  match lines with
  | [] => match cur with Some c => [trim c] | None => [] end
  | l :: rest =>
      match cur with
      | Some c =>
          if isContinuation l then unfoldLines (Some (c ++ drop 1 l)) rest
          else trim c :: (if isBlank l then unfoldLines None rest
                          else unfoldLines (Some l) rest)
      | None =>
          if isBlank l then unfoldLines None rest else unfoldLines (Some l) rest
      end
  end.

Definition preprocessICalContent (content : string) : list string :=
  unfoldLines None (split_lines content).

(** One iteration of the loop of [parseComponents]. *)
Definition parseLine (st : list ICalComponent * option ICalComponent) (line : string)
  : list ICalComponent * option ICalComponent :=
  let (components, current) := st in
  if startsWith line "BEGIN:" then
    (components, Some (mkComponent (drop 6 line) []))
  else if startsWith line "END:" then
    match current with
    | Some c => ((components ++ [c])%list, None)
    | None => st
    end
  else
    match current, indexOf line ":" with
    | Some c, Some colonIndex =>
        let propertyPart := substring 0 colonIndex line in
        let value := drop (colonIndex + 1) line in
        let propertyName := hd EmptyString (split ";" propertyPart) in
        let fullPropertyValue :=
          if includes propertyPart ";" then propertyPart ++ ":" ++ value else value in
        let existing := getProp (properties c) propertyName in
        let updated :=
          if truthy existing then
            match existing with
            | Some (PArr l) => PArr (l ++ [fullPropertyValue])%list
            | Some (PStr s) => PArr [s; fullPropertyValue]
            | None => PStr fullPropertyValue
            end
          else PStr fullPropertyValue in
        (components,
         Some (mkComponent (comp_type c) (setProp (properties c) propertyName updated)))
    | _, _ => st
    end.

Definition parseComponents (lines : list string) : list ICalComponent :=
  fst (fold_left parseLine lines ([], None)).

(** What reading a table of numbers written as an object literal yields:
    a number of the table or of the default, or, for a name that the table
    does not have itself but inherits from [Object.prototype], the inherited
    member, which is no number. *)
Inductive TableValue : Type :=
| TNumber (n : Z)
| TInherited (name : string).

(** The options object handed to [new RRule]. *)
Record RRuleOptions (D : Type) : Type := mkOptions {
  opt_dtstart : D;
  opt_freq : option TableValue;
  opt_interval : option num;
  opt_count : option num;
  opt_until : option D;
  opt_byweekday : option (list TableValue);
  opt_bymonthday : option (list num);
  opt_bymonth : option (list num)
}.

Arguments mkOptions {D}.
Arguments opt_dtstart {D}.
Arguments opt_freq {D}.
Arguments opt_interval {D}.
Arguments opt_count {D}.
Arguments opt_until {D}.
Arguments opt_byweekday {D}.
Arguments opt_bymonthday {D}.
Arguments opt_bymonth {D}.

(** What the parser takes from its host and its libraries: the [Date]
    constructor on local fields (any of which may be [NaN]), the shift
    [new Date(d.getTime() - d.getTimezoneOffset() * 60000)], the addition of
    milliseconds, date-fns [parseISO] (here [None] when the result is not
    valid), and the constructor of the rrule library. *)
Record Host (D R : Type) : Type := mkHost {
  Date_local : num -> num -> num -> num -> num -> num -> D;
  Date_asUTC : D -> D;
  Date_addMs : D -> Z -> D;
  parseISO : string -> option D;
  RRule_new : RRuleOptions D -> Outcome R
}.

Arguments mkHost {D R}.
Arguments Date_local {D R}.
Arguments Date_asUTC {D R}.
Arguments Date_addMs {D R}.
Arguments parseISO {D R}.
Arguments RRule_new {D R}.

(** The object built by [processEvent].  The casts [as string] leave no
    trace at run time: [id] and [summary] are whatever the property table
    holds. *)
Record ParsedEvent (D R : Type) : Type := mkParsed {
  id : PropValue;
  summary : PropValue;
  start : D;
  end_ : D;
  pe_timezone : string;
  recurrence : option R;
  status : EventStatus
}.

Arguments mkParsed {D R}.
Arguments id {D R}.
Arguments summary {D R}.
Arguments start {D R}.
Arguments end_ {D R}.
Arguments pe_timezone {D R}.
Arguments recurrence {D R}.
Arguments status {D R}.

Record ParsedCalendar (D R : Type) : Type := mkParsedCalendar {
  pc_participantId : string;
  pc_name : string;
  pc_timezone : PropValue;
  pc_events : list (ParsedEvent D R);
  pc_source : string
}.

Arguments mkParsedCalendar {D R}.
Arguments pc_participantId {D R}.
Arguments pc_name {D R}.
Arguments pc_timezone {D R}.
Arguments pc_events {D R}.
Arguments pc_source {D R}.

(** Frequencies and weekdays of the rrule library. *)
Definition YEARLY : Z := 0.
Definition MONTHLY : Z := 1.
Definition WEEKLY : Z := 2.
Definition DAILY : Z := 3.
Definition HOURLY : Z := 4.
Definition MINUTELY : Z := 5.
Definition SECONDLY : Z := 6.

Definition freqMap : list (string * Z) :=
  [("YEARLY", YEARLY); ("MONTHLY", MONTHLY); ("WEEKLY", WEEKLY); ("DAILY", DAILY);
   ("HOURLY", HOURLY); ("MINUTELY", MINUTELY); ("SECONDLY", SECONDLY)].

(** [table[key] || d] on a table of numbers written as an object literal:
    an own entry that is zero is false and gives [d], a name inherited from
    [Object.prototype] gives the inherited member, which is true, and any
    other name is undefined and gives [d]. *)
Definition orElse (table : list (string * Z)) (key : string) (d : Z) : TableValue :=
  match lookup table key with
  | Some v => TNumber (if (v =? 0)%Z then d else v)
  | None => if inherited key then TInherited key else TNumber d
  end.

(** [mapFrequency]: [freqMap[freq] || RRule.WEEKLY]; an undefined [freq]
    is the key ["undefined"]. *)
Definition mapFrequency (freq : option string) : TableValue :=
  orElse freqMap (match freq with Some f => f | None => "undefined" end) WEEKLY.

Definition dayMap : list (string * Z) :=
  [("SU", 6); ("MO", 0); ("TU", 1); ("WE", 2); ("TH", 3); ("FR", 4); ("SA", 5)].

(** [day.replace(/^[-+]?\d*/, "")]. *)
Definition cleanDay (day : string) : string :=
  let body := match day with
              | String "-" t => t
              | String "+" t => t
              | _ => day
              end in
  snd (span_digits body).

Definition parseByDay (byday : string) : list TableValue :=
  map (fun day => orElse dayMap (cleanDay day) 0) (split "," byday).

Definition parseStatus (st : option PropValue) : Outcome EventStatus :=
  if truthy st then
    match st with
    | Some (PStr s) =>
        let u := toUpperCase s in
        if String.eqb u "TENTATIVE" then Returns tentative
        else if String.eqb u "CANCELLED" then Returns cancelled
        else Returns confirmed
    | _ => Throws (TypeError "status.toUpperCase is not a function")
    end
  else Returns confirmed.

Fixpoint takeTzid (s : string) : string :=
  match s with
  | String c t =>
      if Ascii.eqb c ":" || Ascii.eqb c ";" then EmptyString else String c (takeTzid t)
  | EmptyString => EmptyString
  end.

(** The first match of [/TZID=([^:;]+)/], its captured group. *)
Fixpoint matchTZID (s : string) : option string :=
  match s with
  | EmptyString => None
  | String _ t =>
      if String.prefix "TZID=" s then
        match takeTzid (drop 5 s) with
        | EmptyString => matchTZID t
        | cap => Some cap
        end
      else matchTZID t
  end.

(** [extractEventTimezone]; an array has no [endsWith]. *)
Definition extractEventTimezone (dateTimeStr : PropValue) : Outcome (option string) :=
  match dateTimeStr with
  | PArr _ => Throws (TypeError "dateTimeStr.endsWith is not a function")
  | PStr s => if endsWith s "Z" then Returns (Some "UTC") else Returns (matchTZID s)
  end.

(** One optional group [(\d+)U] of the duration pattern. *)
Definition takeUnit (u : ascii) (s : string) : Z * string :=
  let (d, r) := span_digits s in
  match d, r with
  | String _ _, String c r' => if Ascii.eqb c u then (digits_value 0 d, r') else (0, s)
  | _, _ => (0, s)
  end.

(** [duration.match(/PT(?:(\d+)H)?(?:(\d+)M)?(?:(\d+)S)?/)]: the total in
    milliseconds, [None] when there is no match. *)
Definition durationMs (duration : string) : option Z :=
  match indexOf duration "PT" with
  | None => None
  | Some i =>
      let s := drop (i + 2) duration in
      let (hours, s1) := takeUnit "H" s in
      let (minutes, s2) := takeUnit "M" s1 in
      let (seconds, _) := takeUnit "S" s2 in
      Some ((hours * 60 * 60 + minutes * 60 + seconds) * 1000)
  end.

Definition numSub1 (n : num) : num := option_map (fun z => z - 1) n.

Section WithHost.

Context {D R : Type} (host : Host D R).

(** [parseDateTime] on a string. *)
Definition parseDateTimeStr (dateTimeStr : string) : Outcome D :=
  let clean0 :=
    match lastIndexOf dateTimeStr ":" with
    | Some colonIndex =>
        if includes dateTimeStr ":" then drop (colonIndex + 1) dateTimeStr else dateTimeStr
    | None => dateTimeStr
    end in
  let cleanDateTime :=
    if endsWith clean0 "Z" then take (String.length clean0 - 1) clean0 else clean0 in
  if ((String.length cleanDateTime =? 15)%nat && includes cleanDateTime "T")%bool then
    let parts := split "T" cleanDateTime in
    let datePart := nth 0 parts EmptyString in
    let timePart := nth 1 parts EmptyString in
    let year := parseInt (substring 0 4 datePart) in
    let month := numSub1 (parseInt (substring 4 6 datePart)) in
    let day := parseInt (substring 6 8 datePart) in
    let hour := parseInt (substring 0 2 timePart) in
    let minute := parseInt (substring 2 4 timePart) in
    let second := parseInt (substring 4 6 timePart) in
    let date := Date_local host year month day hour minute second in
    if endsWith dateTimeStr "Z" then Returns (Date_asUTC host date) else Returns date
  else
    match parseISO host cleanDateTime with
    | Some isoDate => Returns isoDate
    | None => Throws (ICalParseError ("Invalid date format: " ++ dateTimeStr))
    end.

(** [parseDateTime] on what a property holds. *)
Definition parseDateTime (v : PropValue) : Outcome D :=
  match v with
  | PStr s => parseDateTimeStr s
  | PArr _ => Throws (TypeError "dateTimeStr.endsWith is not a function")
  end.

Definition calculateEndFromDuration (startDate : D) (duration : PropValue) : Outcome D :=
  match duration with
  | PArr _ => Throws (TypeError "duration.match is not a function")
  | PStr s =>
      match durationMs s with
      | None => Throws (ICalParseError ("Invalid duration format: " ++ s))
      | Some totalMs => Returns (Date_addMs host startDate totalMs)
      end
  end.

(** The body of the loop of [parseRecurrenceRule] for one [part]. *)
Definition applyPart (options : RRuleOptions D) (part : string)
  : Outcome (RRuleOptions D) :=
  let kv := split "=" part in
  let key := nth 0 kv EmptyString in
  let value := nth_error kv 1 in
  let needs (k : string -> Outcome (RRuleOptions D)) :=
    match value with
    | Some v => k v
    | None => Throws (TypeError "Cannot read properties of undefined")
    end in
  let o := options in
  if String.eqb key "FREQ" then
    Returns (mkOptions (opt_dtstart o) (Some (mapFrequency value)) (opt_interval o)
               (opt_count o) (opt_until o) (opt_byweekday o) (opt_bymonthday o)
               (opt_bymonth o))
  else if String.eqb key "INTERVAL" then
    Returns (mkOptions (opt_dtstart o) (opt_freq o)
               (Some (match value with Some v => parseInt v | None => None end))
               (opt_count o) (opt_until o) (opt_byweekday o) (opt_bymonthday o)
               (opt_bymonth o))
  else if String.eqb key "COUNT" then
    Returns (mkOptions (opt_dtstart o) (opt_freq o) (opt_interval o)
               (Some (match value with Some v => parseInt v | None => None end))
               (opt_until o) (opt_byweekday o) (opt_bymonthday o) (opt_bymonth o))
  else if String.eqb key "UNTIL" then
    needs (fun v =>
      do d <- parseDateTimeStr v ;;
      Returns (mkOptions (opt_dtstart o) (opt_freq o) (opt_interval o) (opt_count o)
                 (Some d) (opt_byweekday o) (opt_bymonthday o) (opt_bymonth o)))
  else if String.eqb key "BYDAY" then
    needs (fun v =>
      Returns (mkOptions (opt_dtstart o) (opt_freq o) (opt_interval o) (opt_count o)
                 (opt_until o) (Some (parseByDay v)) (opt_bymonthday o) (opt_bymonth o)))
  else if String.eqb key "BYMONTHDAY" then
    needs (fun v =>
      Returns (mkOptions (opt_dtstart o) (opt_freq o) (opt_interval o) (opt_count o)
                 (opt_until o) (opt_byweekday o) (Some (map parseInt (split "," v)))
                 (opt_bymonth o)))
  else if String.eqb key "BYMONTH" then
    needs (fun v =>
      Returns (mkOptions (opt_dtstart o) (opt_freq o) (opt_interval o) (opt_count o)
                 (opt_until o) (opt_byweekday o) (opt_bymonthday o)
                 (Some (map parseInt (split "," v)))))
  else Returns o.

Fixpoint applyParts (options : RRuleOptions D) (parts : list string)
  : Outcome (RRuleOptions D) :=
  match parts with
  | [] => Returns options
  | p :: rest => do o <- applyPart options p ;; applyParts o rest
  end.

Definition parseRecurrenceRule (rruleStr : string) (dtstart : D) : Outcome R :=
  do options <- applyParts (mkOptions dtstart None None None None None None None)
                           (split ";" rruleStr) ;;
  RRule_new host options.

(** The block [if (props.RRULE) { try { ... } catch { warn } }] of
    [processEvent]: the rule, or undefined. *)
Definition parseRRuleProp (rrule : option PropValue) (startDate : D) : option R :=
  if truthy rrule then
    match rrule with
    | Some (PStr rruleStr) =>
        if includes rruleStr "FREQ=" then
          match parseRecurrenceRule rruleStr startDate with
          | Returns r => Some r
          | _ => None
          end
        else None
    | _ =>
        (* an array: [includes] compares elements, and [split] is missing *)
        None
    end
  else None.

Definition processEvent (vevent : ICalComponent) : Outcome (ParsedEvent D R) :=
  let props := properties vevent in
  let uid := getProp props "UID" in
  let dtstart := getProp props "DTSTART" in
  match uid, dtstart with
  | Some uidV, Some dtstartV =>
      if (truthy uid && truthy dtstart)%bool then
        do startDate <- parseDateTime dtstartV ;;
        do endDate <-
          (if truthy (getProp props "DTEND") then
             match getProp props "DTEND" with
             | Some v => parseDateTime v
             | None => Returns startDate
             end
           else if truthy (getProp props "DURATION") then
             match getProp props "DURATION" with
             | Some v => calculateEndFromDuration startDate v
             | None => Returns startDate
             end
           else Returns (Date_addMs host startDate (60 * 60 * 1000))) ;;
        do tz <- extractEventTimezone dtstartV ;;
        let timezone := match tz with
                        | Some EmptyString | None => "UTC"
                        | Some z => z
                        end in
        let recurrence := parseRRuleProp (getProp props "RRULE") startDate in
        let summary := if truthy (getProp props "SUMMARY")
                       then match getProp props "SUMMARY" with
                            | Some v => v
                            | None => PStr "Untitled Event"
                            end
                       else PStr "Untitled Event" in
        do status <- parseStatus (getProp props "STATUS") ;;
        Returns (mkParsed uidV summary startDate endDate timezone recurrence status)
      else Throws (ICalParseError "Event missing required UID or DTSTART")
  | _, _ => Throws (ICalParseError "Event missing required UID or DTSTART")
  end.

Definition isVEVENT (c : ICalComponent) : bool := String.eqb (comp_type c) "VEVENT".

(** [extractEvents]: an event whose processing throws is left out. *)
Fixpoint processAll (vevents : list ICalComponent) : list (ParsedEvent D R) :=
  match vevents with
  | [] => []
  | v :: rest =>
      match processEvent v with
      | Returns event => event :: processAll rest
      | _ => processAll rest
      end
  end.

Definition extractEvents (components : list ICalComponent) : list (ParsedEvent D R) :=
  processAll (filter isVEVENT components).

End WithHost.

(** The loop of [extractTimezone] over the event components. *)
Fixpoint firstEventTimezone (vevents : list ICalComponent) : Outcome (option PropValue) :=
  match vevents with
  | [] => Returns None
  | v :: rest =>
      if truthy (getProp (properties v) "DTSTART") then
        match getProp (properties v) "DTSTART" with
        | Some dtstart =>
            do tzid <- extractEventTimezone dtstart ;;
            match tzid with
            | Some z =>
                if (negb (String.eqb z "") && negb (String.eqb z "UTC"))%bool
                then Returns (Some (PStr z))
                else firstEventTimezone rest
            | None => firstEventTimezone rest
            end
        | None => firstEventTimezone rest
        end
      else firstEventTimezone rest
  end.

Definition extractTimezone (components : list ICalComponent) : Outcome (option PropValue) :=
  match find (fun c => String.eqb (comp_type c) "VTIMEZONE") components with
  | Some vtimezone =>
      if truthy (getProp (properties vtimezone) "TZID")
      then Returns (getProp (properties vtimezone) "TZID")
      else firstEventTimezone (filter isVEVENT components)
  | None => firstEventTimezone (filter isVEVENT components)
  end.

(** [.replace(/\s+/g, "-")] after [toLowerCase]. *)
Fixpoint dashSpaces (inRun : bool) (s : string) : string :=
  match s with
  | EmptyString => EmptyString
  | String c t =>
      if isSpace c then (if inRun then dashSpaces true t else String "-" (dashSpaces true t))
      else String c (dashSpaces false t)
  end.

Definition isSlugChar (c : ascii) : bool :=
  let n := Ascii.nat_of_ascii c in
  ((97 <=? n) && (n <=? 122))%nat || isDigit c || Ascii.eqb c "-".

Fixpoint keepSlugChars (s : string) : string :=
  match s with
  | EmptyString => EmptyString
  | String c t => if isSlugChar c then String c (keepSlugChars t) else keepSlugChars t
  end.

(** [generateParticipantId]; [random] is the token drawn from
    [Math.random] when there is no name. *)
Definition generateParticipantId (name : option string) (random : string) : string :=
  match name with
  | Some (String c t) => keepSlugChars (dashSpaces false (toLowerCase (String c t)))
  | _ => "participant-" ++ random
  end.

Definition parseICalContent {D R : Type} (host : Host D R) (content : string)
    (participantName : option string) (random : string) : Outcome (ParsedCalendar D R) :=
  try_catch
    (if negb (includes content "BEGIN:VCALENDAR") then
       Throws (ICalParseError "Invalid iCal content: Missing BEGIN:VCALENDAR")
     else
       let lines := preprocessICalContent content in
       let components := parseComponents lines in
       let events := extractEvents host components in
       let pid := generateParticipantId participantName random in
       let name := match participantName with
                   | Some (String c t) => String c t
                   | _ => "Unknown Participant"
                   end in
       do tz <- extractTimezone components ;;
       let timezone := if truthy tz
                       then match tz with Some v => v | None => PStr "UTC" end
                       else PStr "UTC" in
       Returns (mkParsedCalendar pid name timezone events "ical"))
    (fun error =>
       match error with
       | ICalParseError _ => Throws error
       | _ => Throws (ICalParseError ("Failed to parse iCal content: " ++ exn_message error))
       end).

End ICalParser.

(** ** MeetingScheduler (meeting-scheduler.ts) *)

Record MeetingPreferences : Type := mkPreferences {
  duration : Z;
  timeRangeStart : string;
  timeRangeEnd : string;
  excludeWeekends : bool;
  excludedDates : list Date;
  bufferTime : Z;
  preferredTimezones : list string
}.

Record TimeSlot : Type := mkSlot {
  slot_start : Date;
  slot_end : Date;
  score : Q;
  conflicts : list string;
  timezoneDisplay : list (string * string)
}.

Record ConflictSummary : Type := mkSummary {
  totalConflicts : Z;
  participantConflicts : list (string * JS.num);
  conflictsByTimeSlot : list ((Date * Date) * list string)
}.

Record SchedulingResult : Type := mkResult {
  availableSlots : list TimeSlot;
  conflictAnalysis : ConflictSummary;
  recommendations : list TimeSlot
}.

(** The object held in the scheduler's field [calendarProcessor].  The
    scheduler calls its method [getBusyPeriods], which the class
    [CalendarProcessor] of calendar-processor.ts does not define (the tests
    of the scheduler install one on the instance); [None] is an object
    without the method. *)
Record CalendarProcessorObject : Type := mkProcessor {
  getBusyPeriods :
    option (list CalendarEvent -> DateRange -> Outcome (list BusyPeriod))
}.

(** [formatInTimeZone] of date-fns-tz, which throws on a zone it does not
    know, and [format] of date-fns. *)
Record Formatter : Type := mkFormatter {
  formatInTimeZone : Date -> string -> string -> Outcome string;
  format : Date -> string -> string
}.

Module MeetingScheduler.

Import JS.

(** date-fns and [Date] methods, the host zone being UTC. *)
Definition addMinutes (d : Date) (m : Z) : Date := d + m * MS_PER_MINUTE.
Definition startOfDay (d : Date) : Date := d - d mod MS_PER_DAY.
Definition endOfDay (d : Date) : Date := startOfDay d + MS_PER_DAY - 1.
Definition getDay (d : Date) : Z := (d / MS_PER_DAY + 4) mod 7.
Definition isWeekend (d : Date) : bool := (getDay d =? 0) || (getDay d =? 6).
Definition getHours (d : Date) : Z := (d mod MS_PER_DAY) / MS_PER_HOUR.
Definition getMinutes (d : Date) : Z := (d mod MS_PER_HOUR) / MS_PER_MINUTE.
Definition setHours (d : Date) (h m : Z) : Date :=
  startOfDay d + h * MS_PER_HOUR + m * MS_PER_MINUTE.

Definition inRange (lo hi : ascii) (c : ascii) : bool :=
  ((Ascii.nat_of_ascii lo <=? Ascii.nat_of_ascii c)
   && (Ascii.nat_of_ascii c <=? Ascii.nat_of_ascii hi))%nat.

(** [/^([0-1]?[0-9]|2[0-3]):[0-5][0-9]$/.test(s)]. *)
Definition timeRegex_test (s : string) : bool :=
  let minutesOk (m1 m2 : ascii) := inRange "0" "5" m1 && inRange "0" "9" m2 in
  match s with
  | String h1 (String ":" (String m1 (String m2 EmptyString))) =>
      inRange "0" "9" h1 && minutesOk m1 m2
  | String h1 (String h2 (String ":" (String m1 (String m2 EmptyString)))) =>
      ((inRange "0" "1" h1 && inRange "0" "9" h2)
       || (Ascii.eqb h1 "2" && inRange "0" "3" h2))
      && minutesOk m1 m2
  | _ => false
  end.

Definition validateInputs (participants : list ParticipantCalendar)
    (preferences : MeetingPreferences) (searchRange : DateRange) : Outcome unit :=
  match participants with
  | [] => Throws (SchedulingError "At least one participant is required" "NO_PARTICIPANTS")
  | _ :: _ =>
      if duration preferences <=? 0 then
        Throws (SchedulingError "Meeting duration must be positive" "INVALID_DURATION")
      else if range_end searchRange <=? range_start searchRange then
        Throws (SchedulingError "Search range start must be before end" "INVALID_RANGE")
      else if negb (timeRegex_test (timeRangeStart preferences))
              || negb (timeRegex_test (timeRangeEnd preferences)) then
        Throws (SchedulingError "Invalid time range format" "INVALID_TIME_FORMAT")
      else Returns tt
  end.

(** [map.set(k, v)] on a [Map] kept in insertion order. *)
Fixpoint mapSet {A : Type} (m : list (string * A)) (k : string) (v : A)
  : list (string * A) :=
  match m with
  | [] => [(k, v)]
  | (k', v') :: t => if String.eqb k' k then (k, v) :: t else (k', v') :: mapSet t k v
  end.

Definition periodsOverlap (s1 e1 s2 e2 : Date) : bool := (s1 <? e2) && (s2 <? e1).

Definition findSlotConflicts (slotStart slotEnd : Date)
    (busyPeriods : list (string * list BusyPeriod)) : list string :=
  map fst
    (filter (fun entry =>
               existsb (fun period =>
                          periodsOverlap slotStart slotEnd (bp_start period) (bp_end period))
                       (snd entry))
            busyPeriods).

(** [s.split(":").map(Number)] destructured into two numbers; [None] when
    one of them is [NaN]. *)
Definition parseHourMinute (s : string) : option (Z * Z) :=
  match map Number (split ":" s) with
  | Some h :: Some m :: _ => Some (h, m)
  | _ => None
  end.

(** The loop of [generateDaySlots]. *)
Fixpoint daySlotsLoop (fuel : nat) (currentSlotStart dayEnd : Date)
    (preferences : MeetingPreferences) (slotDuration : Z)
    (busyPeriods : list (string * list BusyPeriod)) : Outcome (list TimeSlot) :=
  if addMinutes currentSlotStart slotDuration <=? dayEnd then
    match fuel with
    | O => OutOfFuel
    | S fuel' =>
        let slotEnd := addMinutes currentSlotStart (duration preferences) in
        let conflicts := findSlotConflicts currentSlotStart slotEnd busyPeriods in
        let slot := mkSlot currentSlotStart slotEnd 0 conflicts [] in
        do rest <- daySlotsLoop fuel' (addMinutes currentSlotStart 15) dayEnd
                     preferences slotDuration busyPeriods ;;
        Returns (slot :: rest)
    end
  else Returns [].

(** The number of times the loop of [generateDaySlots] can run. *)
Definition daySlotsFuel (dayStart dayEnd : Date) (slotDuration : Z) : nat :=
  Z.to_nat ((dayEnd - addMinutes dayStart slotDuration) / (15 * MS_PER_MINUTE) + 1).

Definition generateDaySlots (date : Date) (preferences : MeetingPreferences)
    (slotDuration : Z) (busyPeriods : list (string * list BusyPeriod))
  : Outcome (list TimeSlot) :=
  match parseHourMinute (timeRangeStart preferences),
        parseHourMinute (timeRangeEnd preferences) with
  | Some (startHour, startMinute), Some (endHour, endMinute) =>
      let dayStart := setHours date startHour startMinute in
      let dayEnd := setHours date endHour endMinute in
      daySlotsLoop (daySlotsFuel dayStart dayEnd slotDuration) dayStart dayEnd
        preferences slotDuration busyPeriods
  | _, _ =>
      (* an invalid date: the loop condition is false at once *)
      Returns []
  end.

(** The loop of [findCandidateTimeSlots]. *)
Fixpoint daysLoop (fuel : nat) (currentDate endDate : Date)
    (preferences : MeetingPreferences) (slotDuration : Z)
    (busyPeriods : list (string * list BusyPeriod)) : Outcome (list TimeSlot) :=
  if currentDate <=? endDate then
    match fuel with
    | O => OutOfFuel
    | S fuel' =>
        let next := addMinutes currentDate (24 * 60) in
        if excludeWeekends preferences && isWeekend currentDate then
          daysLoop fuel' next endDate preferences slotDuration busyPeriods
        else if existsb (fun date => startOfDay date =? startOfDay currentDate)
                        (excludedDates preferences) then
          daysLoop fuel' next endDate preferences slotDuration busyPeriods
        else
          do daySlots <- generateDaySlots currentDate preferences slotDuration busyPeriods ;;
          do rest <- daysLoop fuel' next endDate preferences slotDuration busyPeriods ;;
          Returns (daySlots ++ rest)
    end
  else Returns [].

Definition daysFuel (first endDate : Date) : nat :=
  Z.to_nat ((endDate - first) / MS_PER_DAY + 1).

Definition findCandidateTimeSlots (searchRange : DateRange)
    (preferences : MeetingPreferences) (busyPeriods : list (string * list BusyPeriod))
  : Outcome (list TimeSlot) :=
  let slotDuration := duration preferences + bufferTime preferences in
  let currentDate := startOfDay (range_start searchRange) in
  let endDate := endOfDay (range_end searchRange) in
  daysLoop (daysFuel currentDate endDate) currentDate endDate preferences slotDuration
    busyPeriods.

Definition count_Q {A : Type} (l : list A) : Q := inject_Z (Z.of_nat (List.length l)).

(** [calculateTimePreferenceBonus], in exact rationals.  When the two
    times of day are the same, [maxDistance] is 0 and the code divides by
    it: the quotient is [NaN] or infinite there, which a rational does not
    render; what is proved of scores is stated for times of day that
    differ ([timesOfDayDiffer]). *)
Definition calculateTimePreferenceBonus (slot : TimeSlot) (preferences : MeetingPreferences)
  : Q :=
  let hour := getHours (slot_start slot) in
  let minute := getMinutes (slot_start slot) in
  let timeInMinutes := hour * 60 + minute in
  match parseHourMinute (timeRangeStart preferences),
        parseHourMinute (timeRangeEnd preferences) with
  | Some (startHour, startMinute), Some (endHour, endMinute) =>
      let businessStart := startHour * 60 + startMinute in
      let businessEnd := endHour * 60 + endMinute in
      let businessMiddle := (inject_Z (businessStart + businessEnd) / 2)%Q in
      let distanceFromMiddle := Qabs (inject_Z timeInMinutes - businessMiddle) in
      let maxDistance := (inject_Z (businessEnd - businessStart) / 2)%Q in
      Qmax 0 (10 * (1 - distanceFromMiddle / maxDistance))
  | _, _ =>
      (* [NaN] in the code; not reached once [validateInputs] has accepted
         the two strings *)
      0%Q
  end.

Definition calculateTimezoneBonus (preferences : MeetingPreferences)
    (participants : list ParticipantCalendar) : Q :=
  match preferredTimezones preferences with
  | [] => 0%Q
  | _ :: _ =>
      let participantsInPreferredTz :=
        filter (fun p => existsb (String.eqb (timezone p)) (preferredTimezones preferences))
               participants in
      (count_Q participantsInPreferredTz / count_Q participants * 5)%Q
  end.

(** The members of a [Set] built from a list, in insertion order. *)
Fixpoint uniqueStrings (seen l : list string) : list string :=
  match l with
  | [] => []
  | x :: t =>
      if existsb (String.eqb x) seen then uniqueStrings seen t
      else x :: uniqueStrings (x :: seen) t
  end.

Section WithFormatter.

Context (fmt : Formatter).

Definition generateTimezoneDisplay (slot : TimeSlot)
    (participants : list ParticipantCalendar) : list (string * string) :=
  let timezones := uniqueStrings [] (map timezone participants) in
  map (fun tz =>
         let shown :=
           match formatInTimeZone fmt (slot_start slot) tz "MMM d, h:mm a",
                 formatInTimeZone fmt (slot_end slot) tz "h:mm a" with
           | Returns startTime, Returns endTime => (startTime ++ " - " ++ endTime)%string
           | _, _ =>
               (format fmt (slot_start slot) "MMM d, h:mm a" ++ " - "
                ++ format fmt (slot_end slot) "h:mm a" ++ " UTC")%string
           end in
         (tz, shown))
      timezones.

Definition clamp (x : Q) : Q := Qmax 0 (Qmin 100 x).

Definition scoreOf (slot : TimeSlot) (preferences : MeetingPreferences)
    (participants : list ParticipantCalendar) : Q :=
  let conflictPenalty := (count_Q (conflicts slot) / count_Q participants * 50)%Q in
  let timeBonus := calculateTimePreferenceBonus slot preferences in
  let timezoneBonus := calculateTimezoneBonus preferences participants in
  clamp (100 - conflictPenalty + timeBonus + timezoneBonus)%Q.

Definition scoreTimeSlots (slots : list TimeSlot) (preferences : MeetingPreferences)
    (participants : list ParticipantCalendar) : list TimeSlot :=
  map (fun slot =>
         mkSlot (slot_start slot) (slot_end slot)
                (scoreOf slot preferences participants)
                (conflicts slot)
                (generateTimezoneDisplay slot participants))
      slots.

End WithFormatter.

Definition increment (n : option num) : num :=
  match n with
  | Some (Some z) => Some (z + 1)
  | _ => None
  end.

Definition analyzeConflicts (slots : list TimeSlot)
    (participants : list ParticipantCalendar) : ConflictSummary :=
  let initial :=
    fold_left (fun m p => mapSet m (participantId p) (Some 0)) participants [] in
  let step (acc : Z * list (string * num) * list ((Date * Date) * list string))
           (slot : TimeSlot) :=
    let '(total, perParticipant, bySlot) := acc in
    let slotKey := (slot_start slot, slot_end slot) in
    let bySlot' :=
      if existsb (fun kv => (fst (fst kv) =? fst slotKey) && (snd (fst kv) =? snd slotKey))
                 bySlot
      then map (fun kv =>
                  if (fst (fst kv) =? fst slotKey) && (snd (fst kv) =? snd slotKey)
                  then (slotKey, conflicts slot) else kv) bySlot
      else bySlot ++ [(slotKey, conflicts slot)] in
    let perParticipant' :=
      fold_left (fun m pid =>
                   mapSet m pid
                     (increment (lookup m pid)))
                (conflicts slot) perParticipant in
    (total + Z.of_nat (List.length (conflicts slot)), perParticipant', bySlot') in
  let '(total, perParticipant, bySlot) := fold_left step slots (0, initial, []) in
  mkSummary total perParticipant bySlot.

(** The comparator [(a, b) => b.score - a.score] is not positive. *)
Definition byScoreDesc (a b : TimeSlot) : bool := Qle_bool (score b) (score a).

(** [getTopRecommendations]: [sort] works in place, so the caller's array
    is sorted too; the first component is that array after the call. *)
Definition getTopRecommendations (slots : list TimeSlot) (count : nat)
  : list TimeSlot * list TimeSlot :=
  let sorted := sort_by byScoreDesc slots in
  (sorted, firstn count sorted).

Section WithScheduler.

Context (calendarProcessor : CalendarProcessorObject) (fmt : Formatter).

(** The loop of [getAllBusyPeriods]. *)
Fixpoint collectBusyPeriods (participants : list ParticipantCalendar)
    (searchRange : DateRange) (busyPeriods : list (string * list BusyPeriod))
  : Outcome (list (string * list BusyPeriod)) :=
  match participants with
  | [] => Returns busyPeriods
  | participant :: rest =>
      match getBusyPeriods calendarProcessor with
      | None =>
          Throws (TypeError "this.calendarProcessor.getBusyPeriods is not a function")
      | Some method =>
          do periods <- method (events participant) searchRange ;;
          collectBusyPeriods rest searchRange
            (mapSet busyPeriods (participantId participant) periods)
      end
  end.

Definition getAllBusyPeriods (participants : list ParticipantCalendar)
    (searchRange : DateRange) : Outcome (list (string * list BusyPeriod)) :=
  collectBusyPeriods participants searchRange [].

Definition scheduleOptimalMeeting (participants : list ParticipantCalendar)
    (preferences : MeetingPreferences) (searchRange : DateRange)
  : Outcome SchedulingResult :=
  try_catch
    (do _ <- validateInputs participants preferences searchRange ;;
     do busyPeriods <- getAllBusyPeriods participants searchRange ;;
     do candidateSlots <- findCandidateTimeSlots searchRange preferences busyPeriods ;;
     let scoredSlots := scoreTimeSlots fmt candidateSlots preferences participants in
     let conflictAnalysis := analyzeConflicts scoredSlots participants in
     let (scoredSlots', recommendations) := getTopRecommendations scoredSlots 5 in
     Returns (mkResult scoredSlots' conflictAnalysis recommendations))
    (fun error =>
       match error with
       | SchedulingError _ _ => Throws error
       | _ =>
           Throws (SchedulingError
                     ("Failed to schedule meeting: " ++ exn_message error)%string
                     "SCHEDULING_FAILED")
       end).

End WithScheduler.

Definition conflictCount (slot : TimeSlot) : nat := List.length (conflicts slot).

(** The list [fewerParticipants] of [findAlternativeSuggestions]; the
    comparison with [availableSlots[0]?.conflicts.length] is false when
    there is no first slot. *)
Definition fewerParticipants (result : SchedulingResult) : list TimeSlot :=
  firstn 3
    (sort_by (fun a b => (conflictCount a <=? conflictCount b)%nat)
       (filter (fun slot =>
                  (0 <? conflictCount slot)%nat
                  && match availableSlots result with
                     | first :: _ => (conflictCount slot <? conflictCount first)%nat
                     | [] => false
                     end)
               (availableSlots result))).

Record Alternatives : Type := mkAlternatives {
  alt_shorterDuration : list TimeSlot;
  alt_expandedHours : list TimeSlot;
  alt_fewerParticipants : list TimeSlot
}.

Definition findAlternativeSuggestions (result : SchedulingResult)
    (preferences : MeetingPreferences) : Alternatives :=
  mkAlternatives [] [] (fewerParticipants result).

End MeetingScheduler.

(** ** Predicates and reference functions used in the statements *)

(** An instant lies in the half-open span of an event or of a busy period. *)
Definition eventCovers (e : CalendarEvent) (t : Date) : Prop :=
  ev_start e <= t < ev_end e.

Definition periodCovers (p : BusyPeriod) (t : Date) : Prop :=
  bp_start p <= t < bp_end p.

Definition startsInOrder (a b : CalendarEvent) : Prop := ev_start a <= ev_start b.

(** All pairs [(l[i], l[j])] with [i < j], in the order of the two loops. *)
Fixpoint orderedPairs {A : Type} (l : list A) : list (A * A) :=
  match l with
  | [] => []
  | x :: t => map (pair x) t ++ orderedPairs t
  end.

(** The conflict record of a pair of events: the overlap window and its
    length in minutes. *)
Definition conflictOf (pid : string) (pr : CalendarEvent * CalendarEvent) : EventConflict :=
  let oStart := Z.max (ev_start (fst pr)) (ev_start (snd pr)) in
  let oEnd := Z.min (ev_end (fst pr)) (ev_end (snd pr)) in
  mkConflict pid (fst pr) (snd pr) oStart oEnd
    (inject_Z (oEnd - oStart) / inject_Z (1000 * 60)).

(** The second event starts before the first one ends. *)
Definition startsInside (pr : CalendarEvent * CalendarEvent) : bool :=
  (ev_start (fst pr) <=? ev_start (snd pr)) && (ev_start (snd pr) <? ev_end (fst pr)).

(** ... and the second event has a positive length. *)
Definition reported (pr : CalendarEvent * CalendarEvent) : bool :=
  (ev_start (snd pr) <? ev_end (fst pr)) && (ev_start (snd pr) <? ev_end (snd pr)).

(** ** Sample inputs *)

Definition sampleEvent (id : string) (start end_ : Date) : CalendarEvent :=
  mkEvent id "Meeting" start end_ "UTC" None confirmed.

(** A calendar, sorted by start, whose second event has no length. *)
Definition calendarWithEmptyEvent : ParticipantCalendar :=
  mkCalendar "p1" "P" "UTC" [sampleEvent "a" 0 10; sampleEvent "b" 5 5] "ical".

(** Two overlapping events: ten minutes starting at 0, and ten starting at
    minute 5. *)
Definition calendarWithOverlap : ParticipantCalendar :=
  mkCalendar "p1" "P" "UTC"
    [sampleEvent "a" 0 (10 * MS_PER_MINUTE);
     sampleEvent "b" (5 * MS_PER_MINUTE) (15 * MS_PER_MINUTE)] "ical".


(** A daily rule without [until] or [count], shown by its first dates, and
    an hour-long event recurring by it. *)
Definition unboundedDailyRule : RRule :=
  mkRRule None None
    [0; MS_PER_DAY; 2 * MS_PER_DAY; 3 * MS_PER_DAY; 4 * MS_PER_DAY; 5 * MS_PER_DAY].

Definition dailyStandup : CalendarEvent :=
  mkEvent "standup" "Standup" 0 MS_PER_HOUR "UTC" (Some unboundedDailyRule) confirmed.

(** The largest number of conflicts among a list of slots. *)
Definition worstConflictCount (slots : list TimeSlot) : nat :=
  fold_right Nat.max 0%nat (map MeetingScheduler.conflictCount slots).


(** A request in the manner of the scheduler's tests: two participants
    without events, business hours 09:00 to 17:00, one hour, no buffer. *)
Definition user1 : ParticipantCalendar :=
  mkCalendar "user1" "John Doe" "America/New_York" [] "ical".

Definition user2 : ParticipantCalendar :=
  mkCalendar "user2" "Jane Smith" "America/New_York" [] "google".

Definition defaultPreferences : MeetingPreferences :=
  mkPreferences 60 "09:00" "17:00" true [] 0 ["America/New_York"%string].

(** Monday 15 January 2024, 00:00 UTC. *)
Definition monday : Date := 1705276800000.

(** A calendar processor as the tests install it, without busy periods
    for anybody, and one as the class defines it, without the method: the
    constructor of [MeetingScheduler] sets the field to
    [new CalendarProcessor()]. *)
Definition idleProcessor : CalendarProcessorObject :=
  mkProcessor (Some (fun _ _ => Returns [])).

Definition shippedProcessor : CalendarProcessorObject := mkProcessor None.

Definition plainFormatter : Formatter :=
  mkFormatter (fun _ tz _ => Returns tz) (fun _ pattern => pattern).

Definition schedulingErrorCodes : list string :=
  ["NO_PARTICIPANTS"; "INVALID_DURATION"; "INVALID_RANGE"; "INVALID_TIME_FORMAT"]%string.


(** User 1 with one meeting on Monday morning, and a calendar processor
    that reports it: busy from 09:00 to 10:00. *)
Definition busyUser1 : ParticipantCalendar :=
  mkCalendar "user1" "John Doe" "America/New_York"
    [sampleEvent "event1" (monday + 9 * MS_PER_HOUR) (monday + 10 * MS_PER_HOUR)] "ical".

Definition morningProcessor : CalendarProcessorObject :=
  mkProcessor
    (Some (fun events _ =>
             match events with
             | [] => Returns []
             | _ :: _ =>
                 Returns [mkBusy "user1" (monday + 9 * MS_PER_HOUR)
                                 (monday + 10 * MS_PER_HOUR) ["event1"%string]]
             end)).

(** [n] instants a quarter of an hour apart, from [from] on. *)
Fixpoint quarterHours (from : Date) (n : nat) : list Date :=
  match n with
  | O => []
  | S n' => from :: quarterHours (MeetingScheduler.addMinutes from 15) n'
  end.

(** The candidate that [generateDaySlots] builds for a start instant. *)
Definition candidateAt (preferences : MeetingPreferences)
    (busyPeriods : list (string * list BusyPeriod)) (slotStart : Date) : TimeSlot :=
  let slotEnd := MeetingScheduler.addMinutes slotStart (duration preferences) in
  mkSlot slotStart slotEnd 0
         (MeetingScheduler.findSlotConflicts slotStart slotEnd busyPeriods) [].


(** The search range lies within one day, and that day is a weekday. *)
Definition withinOneWeekday (searchRange : DateRange) : Prop :=
  range_start searchRange < range_end searchRange
  /\ MeetingScheduler.startOfDay (range_end searchRange)
     = MeetingScheduler.startOfDay (range_start searchRange)
  /\ MeetingScheduler.isWeekend (MeetingScheduler.startOfDay (range_start searchRange))
     = false.

(** Business hours 09:00 to 17:00, one hour, no buffer, no excluded date. *)
Definition nineToFiveOneHour (preferences : MeetingPreferences) : Prop :=
  timeRangeStart preferences = "09:00"%string
  /\ timeRangeEnd preferences = "17:00"%string
  /\ duration preferences = 60
  /\ bufferTime preferences = 0
  /\ excludedDates preferences = [].


(** A host for examples: its clock reads 0 for every local time, it knows
    no ISO date, and its [RRule] constructor keeps the options as the rule
    when their frequency is a number, and throws when it is not (the rrule
    library accepts options whose frequency is one of its seven, and
    rejects a frequency that is no number). *)
Definition acceptingHost : ICalParser.Host Z (ICalParser.RRuleOptions Z) :=
  ICalParser.mkHost (fun _ _ _ _ _ _ => 0) (fun d => d) (fun d ms => d + ms)
                    (fun _ => None)
                    (fun options =>
                       match ICalParser.opt_freq options with
                       | Some (ICalParser.TInherited _) =>
                           Throws (Error "Invalid frequency")
                       | _ => Returns options
                       end).

(** An event component whose rule names a frequency that is not in the
    table, and one whose rule cannot be parsed (its UNTIL is no date). *)
Definition eventWithUnknownFrequency : ICalParser.ICalComponent :=
  ICalParser.mkComponent "VEVENT"
    [("UID", ICalParser.PStr "e1"); ("DTSTART", ICalParser.PStr "20240115T100000Z");
     ("RRULE", ICalParser.PStr "FREQ=FORTNIGHTLY")]%string.

(** An event component whose rule names, as its frequency, a member of
    [Object.prototype]. *)
Definition eventWithInheritedFrequency : ICalParser.ICalComponent :=
  ICalParser.mkComponent "VEVENT"
    [("UID", ICalParser.PStr "e3"); ("DTSTART", ICalParser.PStr "20240115T100000Z");
     ("RRULE", ICalParser.PStr "FREQ=constructor")]%string.

Definition eventWithBrokenRule : ICalParser.ICalComponent :=
  ICalParser.mkComponent "VEVENT"
    [("UID", ICalParser.PStr "e2"); ("DTSTART", ICalParser.PStr "20240115T100000Z");
     ("RRULE", ICalParser.PStr "FREQ=DAILY;UNTIL=tomorrow")]%string.

Definition eventWithoutRule : ICalParser.ICalComponent :=
  ICalParser.mkComponent "VEVENT"
    [("UID", ICalParser.PStr "e2"); ("DTSTART", ICalParser.PStr "20240115T100000Z")]%string.

(** The event with its rule taken away. *)
Definition withoutRule {D R : Type} (e : ICalParser.ParsedEvent D R)
  : ICalParser.ParsedEvent D R :=
  ICalParser.mkParsed (ICalParser.id e) (ICalParser.summary e) (ICalParser.start e)
    (ICalParser.end_ e) (ICalParser.pe_timezone e) None (ICalParser.status e).

(** The two times of day of the preferences are read as different minutes
    of the day: the business window has a length, and [maxDistance] in
    [calculateTimePreferenceBonus] is not 0. *)
Definition timesOfDayDiffer (preferences : MeetingPreferences) : bool :=
  match MeetingScheduler.parseHourMinute (timeRangeStart preferences),
        MeetingScheduler.parseHourMinute (timeRangeEnd preferences) with
  | Some (startHour, startMinute), Some (endHour, endMinute) =>
      negb (startHour * 60 + startMinute =? endHour * 60 + endMinute)
  | _, _ => false
  end.

(** The character does not occur in the string. *)
Fixpoint lacksChar (c : ascii) (s : string) : bool :=
  match s with
  | EmptyString => true
  | String x t => negb (Ascii.eqb x c) && lacksChar c t
  end.

(** Two components agree on every property but RRULE. *)
Definition sameButRRULE (c c' : ICalParser.ICalComponent) : Prop :=
  forall k, k <> "RRULE"%string ->
            ICalParser.getProp (ICalParser.properties c') k
            = ICalParser.getProp (ICalParser.properties c) k.

Definition joinLines (l : list string) : string :=
  String.concat (String JS.LF EmptyString) l.

(** A calendar text with both container markers and two events: the first
    carries DTSTART twice, the second is well formed. *)
Definition calendarWithDuplicateStart : string :=
  joinLines
    ["BEGIN:VCALENDAR"; "VERSION:2.0";
     "BEGIN:VEVENT"; "UID:e1"; "DTSTART:20240115T100000Z"; "DTSTART:20240116T100000Z";
     "END:VEVENT";
     "BEGIN:VEVENT"; "UID:e2"; "DTSTART:20240117T100000Z"; "DTEND:20240117T110000Z";
     "END:VEVENT";
     "END:VCALENDAR"]%string.

(** The same calendar when the first event has no DTSTART at all. *)
Definition calendarWithMissingStart : string :=
  joinLines
    ["BEGIN:VCALENDAR"; "VERSION:2.0";
     "BEGIN:VEVENT"; "UID:e1"; "END:VEVENT";
     "BEGIN:VEVENT"; "UID:e2"; "DTSTART:20240117T100000Z"; "DTEND:20240117T110000Z";
     "END:VEVENT";
     "END:VCALENDAR"]%string.


(** What [processEvent] makes of [eventWithBrokenRule] on that host. *)
Definition brokenRuleEvent : ICalParser.ParsedEvent Z (ICalParser.RRuleOptions Z) :=
  ICalParser.mkParsed (ICalParser.PStr "e2") (ICalParser.PStr "Untitled Event")
    0 3600000 "UTC" None confirmed.


(** A result in the manner of the scheduler's tests: slots with two, one
    and no conflicting participants. *)
Definition resultWithConflicts : SchedulingResult :=
  let at_ (h : Z) := monday + h * MS_PER_HOUR in
  mkResult
    [mkSlot (at_ 10) (at_ 11) (50 # 1) ["user1"; "user2"]%string [];
     mkSlot (at_ 14) (at_ 15) (75 # 1) ["user1"]%string [];
     mkSlot (at_ 16) (at_ 17) (90 # 1) [] []]
    (mkSummary 3 [("user1", Some 2); ("user2", Some 1)]%string [])
    [].


(** ** Further predicates *)

(** A day on which [findCandidateTimeSlots] generates candidates: a whole
    number of days after the first day of the search, not after its last,
    not a Saturday or Sunday when weekends are excluded, and not the day of
    an excluded date. *)
Definition searchedDay (searchRange : DateRange) (preferences : MeetingPreferences)
    (day : Date) : Prop :=
  (exists k, 0 <= k
             /\ day = MeetingScheduler.startOfDay (range_start searchRange) + k * MS_PER_DAY)
  /\ day <= MeetingScheduler.endOfDay (range_end searchRange)
  /\ (excludeWeekends preferences = true -> MeetingScheduler.isWeekend day = false)
  /\ Forall (fun date => MeetingScheduler.startOfDay date
                         <> MeetingScheduler.startOfDay day)
            (excludedDates preferences).

(** The sum of the numbers of conflicts of a list of slots. *)
Definition conflictTotal (slots : list TimeSlot) : Z :=
  fold_right (fun slot acc => Z.of_nat (List.length (conflicts slot)) + acc) 0 slots.


(** ** The analysis route (POST /api/meetings/analyze), caller of the
    scheduler *)

Module AnalyzeRoute.

Import MeetingScheduler.

(** [validateMeetingPreferences]: the message, or [None] for null. *)
Definition validateMeetingPreferences (preferences : MeetingPreferences)
  : option string :=
  if (duration preferences =? 0) || (duration preferences <=? 0) then
    Some "Duration must be a positive number"%string
  else if 8 * 60 <? duration preferences then
    Some "Duration cannot exceed 8 hours (480 minutes)"%string
  else if negb (timeRegex_test (timeRangeStart preferences)) then
    Some "timeRangeStart must be in HH:MM format"%string
  else if negb (timeRegex_test (timeRangeEnd preferences)) then
    Some "timeRangeEnd must be in HH:MM format"%string
  else if match parseHourMinute (timeRangeStart preferences),
                parseHourMinute (timeRangeEnd preferences) with
          | Some (startHour, startMinute), Some (endHour, endMinute) =>
              endHour * 60 + endMinute <=? startHour * 60 + startMinute
          | _, _ => false   (* a comparison with [NaN] *)
          end then
    Some "timeRangeStart must be before timeRangeEnd"%string
  else if bufferTime preferences <? 0 then
    Some "bufferTime cannot be negative"%string
  else if 60 <? bufferTime preferences then
    Some "bufferTime cannot exceed 60 minutes"%string
  else None.

(** [Math.min(...l)] and [Math.max(...l)] on a list with first element [d]. *)
Definition minOf (d : Z) (l : list Z) : Z := fold_left Z.min l d.
Definition maxOf (d : Z) (l : list Z) : Z := fold_left Z.max l d.

(** The body of the loop of [calculateSearchRange]. *)
Definition widen (st : option Date * option Date) (participant : ParticipantCalendar)
  : option Date * option Date :=
  match flat_map (fun e => [ev_start e; ev_end e]) (events participant) with
  | [] => st
  | d :: ds =>
      let minDate := minOf d ds in
      let maxDate := maxOf d ds in
      (match fst st with
       | None => Some minDate
       | Some earliest => if minDate <? earliest then Some minDate else Some earliest
       end,
       match snd st with
       | None => Some maxDate
       | Some latest => if latest <? maxDate then Some maxDate else Some latest
       end)
  end.

(** [calculateSearchRange]; [now] is [new Date()]. *)
Definition calculateSearchRange (now : Date) (participants : list ParticipantCalendar)
  : option DateRange :=
  match fold_left widen participants (None, None) with
  | (Some earliestDate, Some latestDate) =>
      let today := startOfDay now in
      let searchStart := if today <? earliestDate then startOfDay earliestDate else today in
      let defaultEnd := RecurrenceExpander.addDays searchStart 30 in
      let searchEnd := if defaultEnd <? latestDate then endOfDay latestDate
                       else endOfDay defaultEnd in
      Some (mkRange searchStart searchEnd)
  | _ => None
  end.

End AnalyzeRoute.


(** The state of the loop of [calculateSearchRange] after the participants
    [seen]: nothing yet when none of them has an event, and otherwise
    bounds on every date of every event. *)
Definition spans (st : option Date * option Date) (seen : list ParticipantCalendar)
  : Prop :=
  match st with
  | (None, None) => Forall (fun p => events p = []) seen
  | (Some earliest, Some latest) =>
      ~ Forall (fun p => events p = []) seen
      /\ Forall (fun p =>
                   Forall (fun e => earliest <= ev_start e /\ earliest <= ev_end e
                                    /\ ev_start e <= latest /\ ev_end e <= latest)
                          (events p))
                seen
  | _ => False
  end.


(** The range searched for a meeting of that Monday: 31 days from it. *)
Definition sampleSearchRange : DateRange :=
  mkRange monday (monday + 31 * MS_PER_DAY - 1).

(** ** CalendarProcessor, continued (calendar-processor.ts): cleaning,
    expansion, conflict detection and free time *)

(** A [Date] object as the cleaning step meets it: the repository's
    [parseDateTime] and [new Date(...)] on what a calendar source delivers
    can return an Invalid Date, whose time value is [NaN] ([None]). *)
Definition JSDate : Type := option Date.

(** A [CalendarEvent] as [normalizeCalendarData] hands it to
    [validateAndCleanEvents]: an object whose dates may be invalid. *)
Record UncheckedEvent : Type := mkUnchecked {
  un_id : string;
  un_summary : string;
  un_start : JSDate;
  un_end : JSDate;
  un_timezone : string;
  un_recurrence : option RRule;
  un_status : EventStatus
}.

Record CleaningResult : Type := mkCleaning {
  cleanedEvents : list UncheckedEvent;
  validationWarnings : list string;
  validationErrors : list string
}.

Record ConflictDetectionResult : Type := mkDetection {
  hasConflicts : bool;
  dr_conflicts : list EventConflict;
  dr_busyPeriods : list BusyPeriod
}.

(** [Date.now()] is read off a clock: [clock n] is its [n]-th reading. *)
Definition Clock : Type := nat -> Date.

Module CalendarProcessorExt.

Import CalendarProcessor.
#[local] Open Scope string_scope.

(** [s || d] on a string: the empty string is false. *)
Definition orString (s d : string) : string :=
  match s with
  | EmptyString => d
  | _ => s
  end.

(** [a >= b] and [b.getTime() - a.getTime() > limit] on two [Date]
    objects: a comparison with [NaN] is false. *)
Definition date_ge (a b : JSDate) : bool :=
  match a, b with
  | Some x, Some y => (y <=? x)%Z
  | _, _ => false
  end.

Definition lasts_longer (a b : JSDate) (limit : Z) : bool :=
  match a, b with
  | Some x, Some y => (limit <? y - x)%Z
  | _, _ => false
  end.

(** The object [cleanedEvent] of [validateAndCleanEvents]. *)
Definition cleanEvent (event : UncheckedEvent) : UncheckedEvent :=
  mkUnchecked (un_id event)
              (orString (JS.trim (un_summary event)) "Untitled Event")
              (un_start event) (un_end event)
              (orString (un_timezone event) "UTC")
              (un_recurrence event) (un_status event).

(** [validateAndCleanEvents]: the events are objects with a string id and
    summary and two [Date] objects, on which nothing in the loop throws.
    A [Date] object is true even when it is invalid, so that
    [!event.start] and [!event.end] are false. *)
Fixpoint validateAndCleanEvents (evs : list UncheckedEvent) (participantId : string)
  : CleaningResult :=
  match evs with
  | [] => mkCleaning [] [] []
  | event :: rest =>
      let r := validateAndCleanEvents rest participantId in
      if status_eqb (un_status event) cancelled then
        mkCleaning (cleanedEvents r)
          (("Skipping cancelled event: " ++ un_summary event ++ " (" ++ un_id event ++ ")")
           :: validationWarnings r)
          (validationErrors r)
      else if String.eqb (un_id event) "" then
        mkCleaning (cleanedEvents r) (validationWarnings r)
          (("Event missing required fields: " ++ orString (un_summary event) "Unknown")
           :: validationErrors r)
      else if date_ge (un_start event) (un_end event) then
        mkCleaning (cleanedEvents r) (validationWarnings r)
          (("Event has invalid date range: " ++ un_summary event
            ++ " (" ++ un_id event ++ ")")
           :: validationErrors r)
      else
        let maxDurationMs := (7 * 24 * 60 * 60 * 1000)%Z in
        mkCleaning (cleanEvent event :: cleanedEvents r)
          (if lasts_longer (un_start event) (un_end event) maxDurationMs then
             ("Event has unusually long duration: " ++ un_summary event
              ++ " (" ++ un_id event ++ ")")
             :: validationWarnings r
           else validationWarnings r)
          (validationErrors r)
  end.

(** The loop of [expandRecurringEvents]; [tick] counts the readings of the
    clock taken so far: two for each recurring event when no range is
    given.  [RecurrenceExpander.expandSingleEvent] catches what the rule
    throws, so that the handler of this loop is not entered. *)
Fixpoint expandEvents (clock : Clock) (tick : nat) (evs : list CalendarEvent)
    (dateRange : option DateRange) : list CalendarEvent * nat :=
  match evs with
  | [] => ([], tick)
  | event :: rest =>
      match ev_recurrence event with
      | Some _ =>
          let (range, tick1) :=
            match dateRange with
            | Some r => (r, tick)
            | None =>
                (mkRange (clock tick - 30 * 24 * 60 * 60 * 1000)%Z
                         (clock (S tick) + 365 * 24 * 60 * 60 * 1000)%Z,
                 S (S tick))
            end in
          let occurrences :=
            RecurrenceExpander.expandSingleEvent event range
              RecurrenceExpander.DEFAULT_MAX_OCCURRENCES in
          let (more, tick2) := expandEvents clock tick1 rest dateRange in
          ((occurrences ++ more)%list, tick2)
      | None =>
          let (more, tick1) := expandEvents clock tick rest dateRange in
          (event :: more, tick1)
      end
  end.

Definition expandRecurringEvents (clock : Clock) (tick : nat)
    (calendar : ParticipantCalendar) (dateRange : option DateRange)
  : ParticipantCalendar * nat :=
  let (expandedEvents, tick1) := expandEvents clock tick (events calendar) dateRange in
  (mkCalendar (participantId calendar) (name calendar) (timezone calendar)
              expandedEvents (source calendar),
   tick1).

(** [calendars.map((calendar) => this.expandRecurringEvents(calendar, dateRange))]. *)
Fixpoint expandAll (clock : Clock) (tick : nat) (calendars : list ParticipantCalendar)
    (dateRange : option DateRange) : list ParticipantCalendar * nat :=
  match calendars with
  | [] => ([], tick)
  | calendar :: rest =>
      let (expanded, tick1) := expandRecurringEvents clock tick calendar dateRange in
      let (more, tick2) := expandAll clock tick1 rest dateRange in
      (expanded :: more, tick2)
  end.

(** The calendar after [detectParticipantConflicts] has sorted its events,
    which [Array.prototype.sort] does in place. *)
Definition sortedInPlace (calendar : ParticipantCalendar) : ParticipantCalendar :=
  mkCalendar (participantId calendar) (name calendar) (timezone calendar)
             (sortByStart (events calendar)) (source calendar).

(** The loop of [detectConflicts] over the expanded calendars. *)
Fixpoint detectLoop (expandedCalendars : list ParticipantCalendar)
  : list EventConflict * list BusyPeriod :=
  match expandedCalendars with
  | [] => ([], [])
  | calendar :: rest =>
      let participantConflicts := detectParticipantConflicts calendar in
      let participantBusyPeriods := generateBusyPeriods (sortedInPlace calendar) in
      let (conflicts, busyPeriods) := detectLoop rest in
      ((participantConflicts ++ conflicts)%list,
       (participantBusyPeriods ++ busyPeriods)%list)
  end.

Definition detectConflicts (clock : Clock) (tick : nat)
    (calendars : list ParticipantCalendar) (dateRange : option DateRange)
  : ConflictDetectionResult * nat :=
  let (expandedCalendars, tick1) := expandAll clock tick calendars dateRange in
  let (conflicts, busyPeriods) := detectLoop expandedCalendars in
  (mkDetection (0 <? List.length conflicts)%nat conflicts busyPeriods, tick1).

(** The comparator [(a, b) => a.start.getTime() - b.start.getTime()] on
    busy periods. *)
Definition byPeriodStart (a b : BusyPeriod) : bool := (bp_start a <=? bp_start b)%Z.

(** The [while] loop of [findFreeTimeSlots] before a busy period that
    starts at [limit]: the slots it pushes and the time it ends at. *)
Fixpoint gapLoop (fuel : nat) (currentTime durationMs limit : Z) (dateRange : DateRange)
    (endTime : Date) : Outcome (list Date * Date) :=
  if (currentTime + durationMs <=? limit)%Z then
    match fuel with
    | O => OutOfFuel
    | S fuel' =>
        do next <- gapLoop fuel' (currentTime + 15 * 60 * 1000)%Z durationMs limit
                     dateRange endTime ;;
        Returns (if ((range_start dateRange <=? currentTime)
                     && (currentTime + durationMs <=? endTime))%Z
                 then currentTime :: fst next
                 else fst next,
                 snd next)
    end
  else Returns ([], currentTime).

(** The [while] loop after the last busy period. *)
Fixpoint tailLoop (fuel : nat) (currentTime durationMs : Z) (endTime : Date)
  : Outcome (list Date) :=
  if (currentTime + durationMs <=? endTime)%Z then
    match fuel with
    | O => OutOfFuel
    | S fuel' =>
        do rest <- tailLoop fuel' (currentTime + 15 * 60 * 1000)%Z durationMs endTime ;;
        Returns (currentTime :: rest)
    end
  else Returns [].

(** The number of times such a loop can run. *)
Definition loopFuel (currentTime durationMs limit : Z) : nat :=
  Z.to_nat ((limit - (currentTime + durationMs)) / (15 * 60 * 1000) + 1).

(** The loop over the busy periods. *)
Fixpoint periodsLoop (allBusyPeriods : list BusyPeriod) (currentTime durationMs : Z)
    (dateRange : DateRange) (endTime : Date) : Outcome (list Date * Date) :=
  match allBusyPeriods with
  | [] => Returns ([], currentTime)
  | busyPeriod :: rest =>
      do gap <- gapLoop (loopFuel currentTime durationMs (bp_start busyPeriod))
                  currentTime durationMs (bp_start busyPeriod) dateRange endTime ;;
      do more <- periodsLoop rest (Z.max (snd gap) (bp_end busyPeriod)) durationMs
                   dateRange endTime ;;
      Returns ((fst gap ++ fst more)%list, snd more)
  end.

Definition findFreeTimeSlots (clock : Clock) (tick : nat)
    (calendars : list ParticipantCalendar) (dateRange : DateRange)
    (durationMinutes : Z) : Outcome (list Date) :=
  let conflictResult := fst (detectConflicts clock tick calendars (Some dateRange)) in
  let allBusyPeriods := JS.sort_by byPeriodStart (dr_busyPeriods conflictResult) in
  let endTime := range_end dateRange in
  let durationMs := (durationMinutes * 60 * 1000)%Z in
  do found <- periodsLoop allBusyPeriods (range_start dateRange) durationMs dateRange
                endTime ;;
  do rest <- tailLoop (loopFuel (snd found) durationMs endTime) (snd found) durationMs
               endTime ;;
  Returns (fst found ++ rest)%list.

End CalendarProcessorExt.

(** ** RecurrenceExpander, continued (recurrence-expander.ts) *)

Module RecurrenceExpanderExt.

Import RecurrenceExpander.

Definition expandRecurringEvents (evs : list CalendarEvent) (dateRange : DateRange)
    (maxOccurrences : nat) : list CalendarEvent :=
  JS.sort_by CalendarProcessor.byStart
    (flat_map (fun event =>
                 match ev_recurrence event with
                 | Some _ => expandSingleEvent event dateRange maxOccurrences
                 | None => if eventIntersectsRange event dateRange then [event] else []
                 end)
              evs).

Definition createExpansionRange (schedulingRange : DateRange) (bufferDays : Z)
  : DateRange :=
  mkRange (addDays (range_start schedulingRange) (- bufferDays))
          (addDays (range_end schedulingRange) bufferDays).

Definition filterRelevantEvents (evs : list CalendarEvent) (schedulingRange : DateRange)
  : list CalendarEvent :=
  filter (fun event => eventIntersectsRange event schedulingRange) evs.

End RecurrenceExpanderExt.

(** ** ICalParser, continued (ical-parser.ts): validation *)

Record ValidationResult : Type := mkValidation {
  isValid : bool;
  errors : list string
}.

Module ICalParserExt.

Import JS ICalParser.
#[local] Open Scope string_scope.

Section WithHost.

Context {D R : Type} (host : Host D R).

(** [`Event ${index + 1}: ...`]. *)
Definition eventLabel (index : nat) : string :=
  "Event " ++ RecurrenceExpander.Z_toString (Z.of_nat (index + 1)) ++ ": ".

(** [validateEvent]. *)
Definition validateEvent (event : ICalComponent) (index : nat) : list string :=
  let props := properties event in
  ((if truthy (getProp props "UID") then []
    else [(eventLabel index ++ "Missing required UID property")%string])
   ++ (if truthy (getProp props "DTSTART") then
         match getProp props "DTSTART" with
         | Some v =>
             match parseDateTime host v with
             | Returns _ => []
             | _ => [(eventLabel index ++ "Invalid DTSTART format")%string]
             end
         | None => []
         end
       else [(eventLabel index ++ "Missing required DTSTART property")%string])
   ++ (if truthy (getProp props "DTEND") then
         match getProp props "DTEND" with
         | Some v =>
             match parseDateTime host v with
             | Returns _ => []
             | _ => [(eventLabel index ++ "Invalid DTEND format")%string]
             end
         | None => []
         end
       else []))%list.

(** The loop of [validateICalContent] over the lines: [previous] is
    [lines[i - 1]] when [i > 0]. *)
Fixpoint lineErrors (previous : option string) (i : nat) (lines : list string)
  : list string :=
  match lines with
  | [] => []
  | line :: rest =>
      let here :=
        if ((75 <? String.length line)%nat
            && negb (startsWith line " ")
            && negb (startsWith line (String TAB EmptyString)))%bool then
          match previous with
          | Some p =>
              if negb (endsWith p "\") then
                ["Line " ++ RecurrenceExpander.Z_toString (Z.of_nat (i + 1))
                 ++ " exceeds 75 characters without proper folding"]
              else []
          | None => []
          end
        else [] in
      (here ++ lineErrors (Some line) (S i) rest)%list
  end.

(** [vevents.forEach((event, index) => errors.push(...))]. *)
Fixpoint eventErrors (index : nat) (vevents : list ICalComponent) : list string :=
  match vevents with
  | [] => []
  | event :: rest => (validateEvent event index ++ eventErrors (S index) rest)%list
  end.

(** [validateICalContent]; nothing inside its [try] throws. *)
Definition validateICalContent (content : string) : ValidationResult :=
  let errors :=
    ((if includes content "BEGIN:VCALENDAR" then []
      else ["Missing required BEGIN:VCALENDAR"])
     ++ (if includes content "END:VCALENDAR" then []
         else ["Missing required END:VCALENDAR"])
     ++ (if includes content "BEGIN:VEVENT" then []
         else ["No VEVENT components found"])
     ++ lineErrors None 0 (split_lines content)
     ++ eventErrors 0
          (filter isVEVENT (parseComponents (preprocessICalContent content))))%list in
  mkValidation (match errors with [] => true | _ => false end) errors.

End WithHost.

End ICalParserExt.

(** ** TimezoneUtils (timezone-utils.ts) *)

Module TimezoneUtils.

#[local] Open Scope string_scope.

Definition TIMEZONE_MAPPINGS : list (string * string) :=
  [("Eastern Standard Time", "America/New_York");
   ("Central Standard Time", "America/Chicago");
   ("Mountain Standard Time", "America/Denver");
   ("Pacific Standard Time", "America/Los_Angeles");
   ("GMT", "UTC");
   ("Greenwich Mean Time", "UTC");
   ("Coordinated Universal Time", "UTC")].

(** [normalizeTimezone]; [isValidTimezone] asks the host whether
    [Intl.DateTimeFormat] accepts the zone.  The table is read on its own
    keys: what a name inherited from [Object.prototype] yields is no zone
    that the host accepts. *)
Definition normalizeTimezone (isValidTimezone : string -> bool) (timezone : string)
  : string :=
  match JS.lookup TIMEZONE_MAPPINGS timezone with
  | Some mapped =>
      if isValidTimezone mapped then mapped
      else if isValidTimezone timezone then timezone
      else "UTC"
  | None => if isValidTimezone timezone then timezone else "UTC"
  end.

End TimezoneUtils.


(** ** Predicates and sample inputs for the further properties *)

(** The events that the expansion of a calendar puts in the place of an
    event when a range is given. *)
Definition expandedWithin (dateRange : DateRange) (event : CalendarEvent)
  : list CalendarEvent :=
  match ev_recurrence event with
  | Some _ =>
      RecurrenceExpander.expandSingleEvent event dateRange
        RecurrenceExpander.DEFAULT_MAX_OCCURRENCES
  | None => [event]
  end.

(** Two events that do not overlap. *)
Definition disjointEvents (a b : CalendarEvent) : Prop :=
  ev_end a <= ev_start b \/ ev_end b <= ev_start a.

(** A string that does not begin with white space. *)
Definition noLeadingSpace (s : string) : Prop :=
  match s with
  | String c _ => JS.isSpace c = false
  | EmptyString => True
  end.

(** The number of cancelled events. *)
Definition cancelledCount (evs : list UncheckedEvent) : nat :=
  List.length (filter (fun e => status_eqb (un_status e) cancelled) evs).

(** Every character of the string is a lower-case letter, a digit or a
    hyphen. *)
Fixpoint allSlugChars (s : string) : bool :=
  match s with
  | EmptyString => true
  | String c t => ICalParser.isSlugChar c && allSlugChars t
  end.

(** A calendar with the daily standup, its first occurrence, and two
    ranges: the first three hours of its first day, and the same without
    the first half hour. *)
Definition standupCalendar : ParticipantCalendar :=
  mkCalendar "p1" "P" "UTC" [dailyStandup] "ical".

Definition firstStandup : CalendarEvent :=
  RecurrenceExpander.occurrenceOf dailyStandup MS_PER_HOUR 0.

Definition firstHours : DateRange := mkRange 0 (3 * MS_PER_HOUR).

Definition firstHoursLate : DateRange := mkRange (30 * MS_PER_MINUTE) (3 * MS_PER_HOUR).

(** A clock that always reads the Monday. *)
Definition mondayClock : Clock := fun _ => monday.

(** The Monday from midnight to noon. *)
Definition mondayMorning : DateRange := mkRange monday (monday + 12 * MS_PER_HOUR).

(** A calendar text with one well-formed event. *)
Definition calendarWithOneEvent : string :=
  joinLines
    ["BEGIN:VCALENDAR"; "VERSION:2.0";
     "BEGIN:VEVENT"; "UID:e2"; "DTSTART:20240117T100000Z"; "DTEND:20240117T110000Z";
     "END:VEVENT";
     "END:VCALENDAR"]%string.

(** A host that knows two zones. *)
Definition twoZones (timezone : string) : bool :=
  String.eqb timezone "UTC" || String.eqb timezone "America/New_York".


(** The number of times a participant's id occurs in the conflicts of a
    list of slots. *)
Definition conflictCountOf (pid : string) (slots : list TimeSlot) : Z :=
  fold_right (fun slot acc =>
                Z.of_nat (count_occ string_dec (conflicts slot) pid) + acc)
             0 slots.


(* ================================================================== *)
(** * Part II: properties                                              *)
(* ================================================================== *)

(** ** Stable sorting *)

Section SortFacts.

Context {A : Type} (leb : A -> A -> bool).

Let le (x y : A) : Prop := leb x y = true.

Lemma insert_by_perm (x : A) (l : list A) :
  Permutation (JS.insert_by leb x l) (x :: l).
Proof.
  induction l as [|y t IH]; simpl.
  - apply Permutation_refl.
  - destruct (leb x y).
    + apply Permutation_refl.
    + eapply perm_trans; [apply perm_skip, IH | apply perm_swap].
Qed.

Lemma sort_by_perm (l : list A) : Permutation (JS.sort_by leb l) l.
Proof.
  induction l as [|x t IH]; simpl.
  - constructor.
  - eapply perm_trans; [apply insert_by_perm | apply perm_skip, IH].
Qed.

Lemma sort_by_in (l : list A) (x : A) : In x (JS.sort_by leb l) <-> In x l.
Proof.
  split; apply Permutation_in; [|apply Permutation_sym]; apply sort_by_perm.
Qed.

Lemma sort_by_length (l : list A) : List.length (JS.sort_by leb l) = List.length l.
Proof. apply Permutation_length, sort_by_perm. Qed.

Hypothesis leb_total : forall x y, leb x y = false -> leb y x = true.

Lemma insert_by_sorted (x : A) (l : list A) :
  Sorted le l -> Sorted le (JS.insert_by leb x l).
Proof.
  induction 1 as [|y t Hs IH Hhd]; simpl.
  - repeat constructor.
  - destruct (leb x y) eqn:Hxy.
    + constructor; [constructor; assumption | constructor; exact Hxy].
    + constructor; [exact IH|].
      destruct t as [|z t']; simpl.
      * constructor. apply leb_total, Hxy.
      * destruct (leb x z) eqn:Hxz.
        -- constructor. apply leb_total, Hxy.
        -- inversion Hhd; subst. constructor. assumption.
Qed.

Lemma sort_by_sorted (l : list A) : Sorted le (JS.sort_by leb l).
Proof.
  induction l as [|x t IH]; simpl; [constructor | apply insert_by_sorted, IH].
Qed.

(** Sorting a sorted array leaves it as it is: the sort is stable. *)
Lemma sort_by_sorted_id (l : list A) :
  StronglySorted le l -> JS.sort_by leb l = l.
Proof.
  induction 1 as [|x t Hs IH Hall]; simpl; [reflexivity|].
  rewrite IH. destruct t as [|y t']; simpl; [reflexivity|].
  inversion Hall as [|? ? Hxy _]; subst. unfold le in Hxy. now rewrite Hxy.
Qed.

End SortFacts.

(** ** CalendarProcessor: busy periods *)

Section BusyPeriodFacts.

Import CalendarProcessor.

Lemma byStart_total (a b : CalendarEvent) : byStart a b = false -> byStart b a = true.
Proof. unfold byStart. rewrite Z.leb_gt, Z.leb_le. lia. Qed.

Lemma sortByStart_sorted (l : list CalendarEvent) :
  StronglySorted startsInOrder (sortByStart l).
Proof.
  apply Sorted_StronglySorted.
  - intros a b c. unfold startsInOrder. lia.
  - pose proof (sort_by_sorted byStart byStart_total l) as H.
    unfold sortByStart. induction H as [|x t Hs IH Hhd]; constructor; [exact IH|].
    destruct Hhd as [|y t' Hxy]; constructor. unfold byStart in Hxy.
    apply Z.leb_le in Hxy. exact Hxy.
Qed.

Lemma sortByStart_of_sorted (l : list CalendarEvent) :
  StronglySorted startsInOrder l -> sortByStart l = l.
Proof.
  intros H. apply sort_by_sorted_id.
  induction H as [|x t Hs IH Hall]; constructor; [exact IH|].
  eapply Forall_impl; [|exact Hall]. intros y Hy. apply Z.leb_le. exact Hy.
Qed.

Variable pid : string.

(** Every period produced from [cur] on starts at or after [cur]. *)
Lemma mergeFrom_starts (evs : list CalendarEvent) : forall cur,
  StronglySorted startsInOrder evs ->
  Forall (fun e => bp_start cur <= ev_start e) evs ->
  Forall (fun q => bp_start cur <= bp_start q) (mergeFrom pid cur evs).
Proof.
  induction evs as [|e rest IH]; intros cur Hs Hge; simpl.
  - constructor; [lia | constructor].
  - inversion Hs as [|? ? Hs' Hall]; subst.
    inversion Hge as [|? ? He Hge']; subst.
    destruct (ev_start e <=? bp_end cur).
    + apply (IH (mkBusy _ _ _ _)); assumption.
    + constructor; [lia|].
      eapply Forall_impl; [|apply (IH (mkBusy pid (ev_start e) (ev_end e) [ev_id e]) Hs' Hall)].
      simpl. intros q Hq. lia.
Qed.

(** Two periods of the result never overlap and never touch. *)
Lemma mergeFrom_separated (evs : list CalendarEvent) : forall cur,
  StronglySorted startsInOrder evs ->
  Forall (fun e => bp_start cur <= ev_start e) evs ->
  ForallOrdPairs (fun p q => bp_end p < bp_start q) (mergeFrom pid cur evs).
Proof.
  induction evs as [|e rest IH]; intros cur Hs Hge; simpl.
  - repeat constructor.
  - inversion Hs as [|? ? Hs' Hall]; subst.
    inversion Hge as [|? ? He Hge']; subst.
    destruct (ev_start e <=? bp_end cur) eqn:Hm.
    + apply (IH (mkBusy _ _ _ _)); assumption.
    + apply Z.leb_gt in Hm. constructor.
      * eapply Forall_impl;
          [|apply (mergeFrom_starts rest (mkBusy pid (ev_start e) (ev_end e) [ev_id e]) Hs' Hall)].
        simpl. intros q Hq. lia.
      * apply (IH (mkBusy _ _ _ _)); assumption.
Qed.

(** The spans of the result cover what [cur] and the events cover. *)
Lemma mergeFrom_covers (evs : list CalendarEvent) : forall cur t,
  StronglySorted startsInOrder evs ->
  Forall (fun e => bp_start cur <= ev_start e) evs ->
  (Exists (fun p => periodCovers p t) (mergeFrom pid cur evs)
   <-> periodCovers cur t \/ Exists (fun e => eventCovers e t) evs).
Proof.
  induction evs as [|e rest IH]; intros cur t Hs Hge; simpl.
  - rewrite Exists_cons, !Exists_nil. tauto.
  - inversion Hs as [|? ? Hs' Hall]; subst.
    inversion Hge as [|? ? He Hge']; subst.
    rewrite (Exists_cons _ e rest).
    destruct (ev_start e <=? bp_end cur) eqn:Hm.
    + apply Z.leb_le in Hm.
      rewrite (IH (mkBusy _ _ _ _) t Hs' Hge').
      assert (Hspan : periodCovers
                        (mkBusy (bp_participantId cur) (bp_start cur)
                                (Z.max (bp_end cur) (ev_end e))
                                (bp_eventIds cur ++ [ev_id e])) t
                      <-> periodCovers cur t \/ eventCovers e t)
        by (unfold periodCovers, eventCovers; simpl; lia).
      tauto.
    + rewrite Exists_cons.
      rewrite (IH (mkBusy pid (ev_start e) (ev_end e) [ev_id e]) t Hs' Hall).
      unfold periodCovers, eventCovers; simpl. tauto.
Qed.

End BusyPeriodFacts.

Lemma mergeFrom_sorted (pid : string) (evs : list CalendarEvent) : forall cur,
  StronglySorted startsInOrder evs ->
  Forall (fun e => bp_start cur <= ev_start e) evs ->
  StronglySorted (fun p q => bp_start p <= bp_start q)
                 (CalendarProcessor.mergeFrom pid cur evs).
Proof.
  induction evs as [|e rest IH]; intros cur Hs Hge; simpl.
  - repeat constructor.
  - inversion Hs as [|? ? Hs' Hall]; subst.
    inversion Hge as [|? ? He Hge']; subst.
    destruct (ev_start e <=? bp_end cur).
    + apply (IH (mkBusy _ _ _ _)); assumption.
    + constructor.
      * apply (IH (mkBusy _ _ _ _)); assumption.
      * eapply Forall_impl;
          [|apply (mergeFrom_starts pid rest
                     (mkBusy pid (ev_start e) (ev_end e) [ev_id e]) Hs' Hall)].
        simpl. intros q Hq. lia.
Qed.

Lemma notCancelled_iff (e : CalendarEvent) :
  CalendarProcessor.notCancelled e = true <-> ev_status e <> cancelled.
Proof.
  unfold CalendarProcessor.notCancelled. destruct (ev_status e); simpl; split;
    intros H; try reflexivity; try discriminate; try congruence.
Qed.

(** C3. For every participant calendar the busy periods that
    [generateBusyPeriods] produces are sorted by start and pairwise
    non-overlapping; an event that starts at or before the end of the
    current period extends it, so that two produced periods never even
    touch; and an instant lies in the span of some busy period exactly when
    it lies in the span of some event of the calendar that is not
    cancelled. *)
Theorem generateBusyPeriods_merge_invariant (calendar : ParticipantCalendar) :
  let periods := CalendarProcessor.generateBusyPeriods calendar in
  StronglySorted (fun p q => bp_start p <= bp_start q) periods
  /\ ForallOrdPairs
       (fun p q => MeetingScheduler.periodsOverlap
                     (bp_start p) (bp_end p) (bp_start q) (bp_end q) = false)
       periods
  /\ ForallOrdPairs (fun p q => bp_end p < bp_start q) periods
  /\ (forall pid cur e rest,
        ev_start e <= bp_end cur ->
        CalendarProcessor.mergeFrom pid cur (e :: rest)
        = CalendarProcessor.mergeFrom pid
            (mkBusy (bp_participantId cur) (bp_start cur)
                    (Z.max (bp_end cur) (ev_end e)) (bp_eventIds cur ++ [ev_id e]))
            rest)
  /\ (forall t,
        (exists p, In p periods /\ periodCovers p t)
        <-> (exists e, In e (events calendar) /\ ev_status e <> cancelled
                       /\ eventCovers e t)).
Proof.
  intros periods. subst periods. unfold CalendarProcessor.generateBusyPeriods.
  pose proof (sortByStart_sorted
                (filter CalendarProcessor.notCancelled (events calendar))) as Hsorted.
  assert (Hin : forall e,
             In e (CalendarProcessor.sortByStart
                     (filter CalendarProcessor.notCancelled (events calendar)))
             <-> In e (events calendar) /\ ev_status e <> cancelled).
  { intros e. unfold CalendarProcessor.sortByStart.
    rewrite sort_by_in, filter_In, notCancelled_iff. tauto. }
  destruct (CalendarProcessor.sortByStart
              (filter CalendarProcessor.notCancelled (events calendar)))
    as [|e0 rest] eqn:Hevs.
  - repeat split; try constructor.
    + intros pid cur e rest Hle. simpl. apply Z.leb_le in Hle. now rewrite Hle.
    + intros [p [[] _]].
    + intros [e [He1 [He2 _]]]. destruct (proj2 (Hin e) (conj He1 He2)).
  - inversion Hsorted as [|? ? Hs' Hall]; subst.
    set (cur := mkBusy (participantId calendar) (ev_start e0) (ev_end e0) [ev_id e0]).
    assert (Hge : Forall (fun e => bp_start cur <= ev_start e) rest) by exact Hall.
    pose proof (mergeFrom_separated (participantId calendar) rest cur Hs' Hge) as Hsep.
    split; [apply mergeFrom_sorted; assumption|].
    split.
    { clear -Hsep. induction Hsep as [|p l Hp Hl IH]; constructor; [|exact IH].
      eapply Forall_impl; [|exact Hp]. intros q Hq. cbv beta in Hq.
      unfold MeetingScheduler.periodsOverlap.
      apply andb_false_iff. right. apply Z.ltb_ge. lia. }
    split; [exact Hsep|].
    split.
    { intros pid c e rest' Hle. simpl. apply Z.leb_le in Hle. now rewrite Hle. }
    intros t.
    rewrite <- Exists_exists.
    rewrite (mergeFrom_covers (participantId calendar) rest cur t Hs' Hge).
    assert (Hcur : periodCovers cur t <-> eventCovers e0 t)
      by (unfold periodCovers, eventCovers; simpl; tauto).
    rewrite Hcur, Exists_exists. split.
    + intros [H0 | [e [He Hc]]].
      * exists e0. pose proof (proj1 (Hin e0) (or_introl eq_refl)). tauto.
      * exists e. pose proof (proj1 (Hin e) (or_intror He)). tauto.
    + intros [e [He [Hst Hc]]].
      destruct (proj2 (Hin e) (conj He Hst)) as [<- | Hr]; [left; exact Hc|].
      right. exists e. tauto.
Qed.

(** The two overlapping events of the sample calendar give one busy period,
    from the start of the first to the end of the second. *)
Lemma generateBusyPeriods_merge_invariant_witness :
  CalendarProcessor.generateBusyPeriods calendarWithOverlap
  = [mkBusy "p1" 0 900000 ["a"; "b"]%string]
  /\ CalendarProcessor.mergeFrom "p1" (mkBusy "p1" 0 600000 ["a"%string])
       [sampleEvent "b" 600000 900000]
     = [mkBusy "p1" 0 900000 ["a"; "b"]%string]
  /\ forall t,
       (exists p, In p (CalendarProcessor.generateBusyPeriods calendarWithOverlap)
                  /\ periodCovers p t)
       <-> (exists e, In e (events calendarWithOverlap) /\ ev_status e <> cancelled
                      /\ eventCovers e t).
Proof.
  destruct (generateBusyPeriods_merge_invariant calendarWithOverlap)
    as (_ & _ & _ & Hstep & Hcover).
  split; [reflexivity|]. split; [|exact Hcover].
  rewrite (Hstep "p1"%string (mkBusy "p1" 0 600000 ["a"%string])
                 (sampleEvent "b" 600000 900000) []).
  - reflexivity.
  - simpl. lia.
Defined.

(** ** CalendarProcessor: conflicts within one calendar *)

Section ConflictFacts.

Import CalendarProcessor.

Variable pid : string.

Lemma window_test (s1 s2 e1 e2 : Z) :
  s1 <= s2 -> s2 < e1 ->
  (Z.max s1 s2 <? Z.min e1 e2) = ((s2 <? e1) && (s2 <? e2)).
Proof.
  intros H1 H2.
  destruct (Z.max s1 s2 <? Z.min e1 e2) eqn:Ha;
    destruct (s2 <? e1) eqn:Hb; destruct (s2 <? e2) eqn:Hc; simpl; try reflexivity;
    rewrite ?Z.ltb_lt, ?Z.ltb_ge in *; lia.
Qed.

(** Once an event starts at or after the end of [e1], so do all later ones:
    the [break] loses nothing. *)
Lemma nothing_after_break (e1 : CalendarEvent) (l : list CalendarEvent) :
  Forall (fun e => ev_end e1 <= ev_start e) l ->
  filter reported (map (pair e1) l) = [].
Proof.
  induction 1 as [|e l He Hl IH]; simpl; [reflexivity|].
  unfold reported at 1; simpl.
  destruct (ev_start e <? ev_end e1) eqn:Hlt; [apply Z.ltb_lt in Hlt; lia|].
  simpl. exact IH.
Qed.

Lemma conflictsOf_spec (e1 : CalendarEvent) (rest : list CalendarEvent) :
  StronglySorted startsInOrder rest ->
  Forall (fun e => ev_start e1 <= ev_start e) rest ->
  conflictsOf pid e1 rest = map (conflictOf pid) (filter reported (map (pair e1) rest)).
Proof.
  induction 1 as [|e2 rest' Hs IH Hall]; intros Hge; [reflexivity|].
  inversion Hge as [|? ? H12 Hge']; subst.
  cbn [conflictsOf].
  destruct (ev_end e1 <=? ev_start e2) eqn:Hbreak.
  - apply Z.leb_le in Hbreak. rewrite nothing_after_break; [reflexivity|].
    constructor; [exact Hbreak|].
    eapply Forall_impl; [|exact Hall]. unfold startsInOrder. intros e He. lia.
  - apply Z.leb_gt in Hbreak.
    cbn [map filter]. unfold reported at 1. cbn [fst snd].
    rewrite (window_test _ _ _ _ H12 Hbreak).
    destruct ((ev_start e2 <? ev_end e1) && (ev_start e2 <? ev_end e2)).
    + cbn [map]. rewrite (IH Hge'). reflexivity.
    + apply IH, Hge'.
Qed.

Lemma conflictSweep_spec (evs : list CalendarEvent) :
  StronglySorted startsInOrder evs ->
  conflictSweep pid evs = map (conflictOf pid) (filter reported (orderedPairs evs)).
Proof.
  induction 1 as [|e1 rest Hs IH Hall]; [reflexivity|].
  cbn [conflictSweep orderedPairs].
  rewrite filter_app, map_app, IH, (conflictsOf_spec e1 rest Hs Hall). reflexivity.
Qed.

Lemma orderedPairs_in (l : list CalendarEvent) (a b : CalendarEvent) :
  StronglySorted startsInOrder l ->
  In (a, b) (orderedPairs l) -> In a l /\ In b l /\ startsInOrder a b.
Proof.
  induction 1 as [|x t Hs IH Hall]; simpl; [tauto|].
  rewrite in_app_iff, in_map_iff. intros [[y [Heq Hy]] | Hin].
  - inversion Heq; subst. rewrite Forall_forall in Hall. auto.
  - destruct (IH Hin) as [Ha [Hb Hab]]. auto.
Qed.

End ConflictFacts.

(** C4. On a calendar whose events are sorted by start, each of them ending
    after it starts as the events of a cleaned calendar do,
    [detectParticipantConflicts] reports, once each and in the order of the
    sweep, exactly the pairs [(e1, e2)] at positions [i < j] with
    [e1.start <= e2.start] and [e2.start < e1.end] (the second part of the
    statement; the first says what the sweep reports on any sorted list:
    the pairs for which [e2] starts before [e1] ends and [e2] has a
    positive length).  Every reported conflict satisfies
    [e1.start < e2.end] and [e2.start < e1.end], carries the overlap window
    [max] of the starts to [min] of the ends and its length in minutes, and
    is never between two events that merely touch. *)
Theorem detectParticipantConflicts_sorted (calendar : ParticipantCalendar) :
  StronglySorted startsInOrder (events calendar) ->
  let found := CalendarProcessor.detectParticipantConflicts calendar in
  found = map (conflictOf (participantId calendar))
              (filter reported (orderedPairs (events calendar)))
  /\ (Forall (fun e => ev_start e < ev_end e) (events calendar) ->
      found = map (conflictOf (participantId calendar))
                  (filter startsInside (orderedPairs (events calendar))))
  /\ Forall (fun c =>
               ev_start (event1 c) < ev_end (event2 c)
               /\ ev_start (event2 c) < ev_end (event1 c)
               /\ overlapStart c = Z.max (ev_start (event1 c)) (ev_start (event2 c))
               /\ overlapEnd c = Z.min (ev_end (event1 c)) (ev_end (event2 c))
               /\ overlapStart c < overlapEnd c
               /\ (overlapDuration c * inject_Z 60000
                   == inject_Z (overlapEnd c - overlapStart c))%Q
               /\ ev_start (event2 c) <> ev_end (event1 c))
            found.
Proof.
  intros Hsorted found.
  assert (Hfound : found = map (conflictOf (participantId calendar))
                               (filter reported (orderedPairs (events calendar)))).
  { subst found. unfold CalendarProcessor.detectParticipantConflicts.
    rewrite (sortByStart_of_sorted _ Hsorted). apply conflictSweep_spec, Hsorted. }
  split; [exact Hfound|]. split.
  - intros Hvalid. rewrite Hfound. f_equal. apply filter_ext_in.
    intros [a b] Hin.
    destruct (orderedPairs_in _ a b Hsorted Hin) as [Ha [Hb Hab]].
    rewrite Forall_forall in Hvalid. pose proof (Hvalid b Hb) as Hvb.
    unfold reported, startsInside, startsInOrder in *; cbn [fst snd].
    destruct (ev_start b <? ev_end a) eqn:H1; simpl.
    + rewrite andb_true_r.
      transitivity true; [apply Z.ltb_lt; lia | symmetry; apply Z.leb_le; lia].
    + now rewrite andb_false_r.
  - rewrite Hfound, Forall_forall. intros c Hc.
    apply in_map_iff in Hc. destruct Hc as [[a b] [<- Hin]].
    apply filter_In in Hin. destruct Hin as [Hin Hrep].
    destruct (orderedPairs_in _ a b Hsorted Hin) as [_ [_ Hab]].
    unfold reported, startsInOrder in *; cbn [fst snd] in *.
    apply andb_true_iff in Hrep. destruct Hrep as [H1 H2].
    apply Z.ltb_lt in H1, H2.
    unfold conflictOf; cbn [event1 event2 overlapStart overlapEnd overlapDuration fst snd].
    repeat split; try lia.
    change (inject_Z 60000) with (inject_Z (1000 * 60)).
    rewrite Qmult_comm. apply Qmult_div_r. discriminate.
Qed.

(** A start-sorted calendar of events that end after they start, the pair
    and the conflict that the sweep reports on it. *)
Lemma detectParticipantConflicts_sorted_witness :
  StronglySorted startsInOrder (events calendarWithOverlap)
  /\ Forall (fun e => ev_start e < ev_end e) (events calendarWithOverlap)
  /\ CalendarProcessor.detectParticipantConflicts calendarWithOverlap
     = [mkConflict "p1" (sampleEvent "a" 0 600000) (sampleEvent "b" 300000 900000)
          300000 600000 (inject_Z 300000 / inject_Z 60000)%Q].
Proof.
  assert (Hs : StronglySorted startsInOrder (events calendarWithOverlap)).
  { repeat constructor. unfold startsInOrder; simpl. vm_compute. discriminate. }
  assert (Hv : Forall (fun e => ev_start e < ev_end e) (events calendarWithOverlap)).
  { constructor; [vm_compute; reflexivity|].
    constructor; [vm_compute; reflexivity | constructor]. }
  split; [exact Hs|]. split; [exact Hv|].
  destruct (detectParticipantConflicts_sorted calendarWithOverlap Hs) as (_ & Hfound & _).
  rewrite (Hfound Hv). reflexivity.
Defined.

(** Outside the cleaned calendars: an event of no length, which the
    cleaning step rejects, is the second of no reported pair. *)
Example detectParticipantConflicts_skips_empty_event :
  StronglySorted startsInOrder (events calendarWithEmptyEvent)
  /\ exists e1 e2,
       In (e1, e2) (orderedPairs (events calendarWithEmptyEvent))
       /\ ev_start e1 <= ev_start e2 /\ ev_start e2 < ev_end e1
       /\ CalendarProcessor.detectParticipantConflicts calendarWithEmptyEvent = [].
Proof.
  split.
  - repeat constructor. unfold startsInOrder; simpl. lia.
  - exists (sampleEvent "a" 0 10), (sampleEvent "b" 5 5).
    split; [left; reflexivity|]. simpl. repeat split; lia.
Qed.

(** ** RecurrenceExpander *)

Section ExpanderFacts.

Import RecurrenceExpander.

(** The iterator [(date, i) => i < maxOccurrences] stops the iteration of
    [between] as soon as [maxOccurrences] dates have been accepted. *)
Lemma between_iter_bounded (maxOccurrences : nat) (after before : Date)
    (dates : list Date) : forall acc,
  (List.length (between_iter dates after before
                  (fun _ i => (i <? maxOccurrences)%nat) acc)
   <= Nat.max (List.length acc) maxOccurrences)%nat.
Proof.
  induction dates as [|d rest IH]; intros acc; simpl.
  - lia.
  - destruct (d <? after); [apply IH|].
    destruct (before <? d); [lia|].
    destruct (List.length acc <? maxOccurrences)%nat eqn:Hlt; [|lia].
    apply Nat.ltb_lt in Hlt.
    specialize (IH (acc ++ [d])). rewrite length_app in IH. simpl in IH. lia.
Qed.

Lemma expandSingleEvent_bounded (event : CalendarEvent) (dateRange : DateRange)
    (maxOccurrences : nat) (rrule : RRule) :
  ev_recurrence event = Some rrule ->
  (List.length (expandSingleEvent event dateRange maxOccurrences) <= maxOccurrences)%nat.
Proof.
  intros Hr. unfold expandSingleEvent, between. rewrite Hr.
  eapply Nat.le_trans; [apply filter_length_le|].
  rewrite length_map.
  pose proof (between_iter_bounded maxOccurrences (range_start dateRange)
                (addDays (range_end dateRange) 1) (rr_dates rrule) []) as H.
  simpl in H. lia.
Qed.

End ExpanderFacts.

(** C7. For every recurring event whose rule has neither [until] nor
    [count], and for every expansion window, [expandSingleEvent] returns at
    most [maxOccurrences] occurrences, whatever the size of the window. *)
Theorem expandSingleEvent_at_most_maxOccurrences
    (event : CalendarEvent) (rrule : RRule) (dateRange : DateRange)
    (maxOccurrences : nat) :
  ev_recurrence event = Some rrule ->
  rr_until rrule = None ->
  rr_count rrule = None ->
  (List.length (RecurrenceExpander.expandSingleEvent event dateRange maxOccurrences)
   <= maxOccurrences)%nat.
Proof.
  intros Hr _ _. eapply expandSingleEvent_bounded, Hr.
Qed.

(** The daily rule over a window of a hundred days, capped at two. *)
Lemma expandSingleEvent_at_most_maxOccurrences_witness :
  (List.length (RecurrenceExpander.expandSingleEvent dailyStandup
                  (mkRange 0%Z (100 * MS_PER_DAY)%Z) 2) <= 2)%nat.
Proof.
  apply (expandSingleEvent_at_most_maxOccurrences dailyStandup unboundedDailyRule);
    reflexivity.
Defined.

(** With the default cap the bound is 1000. *)
Lemma expandSingleEvent_default_bound (event : CalendarEvent) (rrule : RRule)
    (dateRange : DateRange) :
  ev_recurrence event = Some rrule ->
  (List.length (RecurrenceExpander.expandSingleEvent event dateRange
                  RecurrenceExpander.DEFAULT_MAX_OCCURRENCES) <= 1000)%nat.
Proof. intros Hr. eapply expandSingleEvent_bounded, Hr. Qed.

(** The cap is reached: the expansion of the sample rule is not empty. *)
Example expandSingleEvent_daily :
  map ev_start (RecurrenceExpander.expandSingleEvent dailyStandup
                  (mkRange 0 (100 * MS_PER_DAY)) 2)
  = [0; MS_PER_DAY].
Proof. reflexivity. Qed.

(** ** MeetingScheduler: alternative suggestions *)

Lemma firstn_incl {A : Type} (n : nat) (l : list A) (x : A) :
  In x (firstn n l) -> In x l.
Proof.
  revert l. induction n as [|n IH]; intros [|y t]; simpl; try tauto.
  intros [H | H]; [left; exact H | right; apply IH, H].
Qed.

Lemma conflictCount_le_worst (slots : list TimeSlot) (slot : TimeSlot) :
  In slot slots -> (MeetingScheduler.conflictCount slot <= worstConflictCount slots)%nat.
Proof.
  unfold worstConflictCount. induction slots as [|s t IH]; simpl; [tauto|].
  intros [<- | Hin]; [lia | specialize (IH Hin); lia].
Qed.

(** C9. For every scheduling result, every slot in the list
    [fewerParticipants] returned by [findAlternativeSuggestions] is one of
    the result's available slots, has at least one conflict, and has
    strictly fewer conflicts than the worst of the available slots. *)
Theorem findAlternativeSuggestions_fewerParticipants
    (result : SchedulingResult) (preferences : MeetingPreferences) :
  Forall (fun slot =>
            In slot (availableSlots result)
            /\ (1 <= MeetingScheduler.conflictCount slot)%nat
            /\ (MeetingScheduler.conflictCount slot
                < worstConflictCount (availableSlots result))%nat)
         (MeetingScheduler.alt_fewerParticipants
            (MeetingScheduler.findAlternativeSuggestions result preferences)).
Proof.
  apply Forall_forall. intros slot Hin.
  unfold MeetingScheduler.findAlternativeSuggestions in Hin. simpl in Hin.
  unfold MeetingScheduler.fewerParticipants in Hin.
  apply firstn_incl in Hin. apply sort_by_in in Hin.
  apply filter_In in Hin. destruct Hin as [Hav Hcond].
  apply andb_true_iff in Hcond. destruct Hcond as [Hpos Hless].
  apply Nat.ltb_lt in Hpos.
  split; [exact Hav|]. split; [lia|].
  destruct (availableSlots result) as [|first rest] eqn:Hslots; [discriminate|].
  apply Nat.ltb_lt in Hless.
  pose proof (conflictCount_le_worst (first :: rest) first (or_introl eq_refl)). lia.
Qed.

(** Of the three slots of the sample result only the one with a single
    conflict is suggested. *)
Lemma findAlternativeSuggestions_fewerParticipants_witness :
  map MeetingScheduler.conflictCount
      (MeetingScheduler.alt_fewerParticipants
         (MeetingScheduler.findAlternativeSuggestions resultWithConflicts
            defaultPreferences))
  = [1%nat]
  /\ worstConflictCount (availableSlots resultWithConflicts) = 2%nat
  /\ Forall (fun slot =>
               In slot (availableSlots resultWithConflicts)
               /\ (1 <= MeetingScheduler.conflictCount slot)%nat
               /\ (MeetingScheduler.conflictCount slot
                   < worstConflictCount (availableSlots resultWithConflicts))%nat)
            (MeetingScheduler.alt_fewerParticipants
               (MeetingScheduler.findAlternativeSuggestions resultWithConflicts
                  defaultPreferences)).
Proof.
  split; [reflexivity|]. split; [reflexivity|].
  exact (findAlternativeSuggestions_fewerParticipants resultWithConflicts
           defaultPreferences).
Defined.

(** ** MeetingScheduler: validation *)

Section ValidationFacts.

Import MeetingScheduler.

Lemma validateInputs_accepts (participants : list ParticipantCalendar)
    (preferences : MeetingPreferences) (searchRange : DateRange) :
  validateInputs participants preferences searchRange = Returns tt
  <-> participants <> []
      /\ 0 < duration preferences
      /\ range_start searchRange < range_end searchRange
      /\ timeRegex_test (timeRangeStart preferences) = true
      /\ timeRegex_test (timeRangeEnd preferences) = true.
Proof.
  unfold validateInputs. destruct participants as [|p ps].
  - split; [discriminate | intros [H _]; congruence].
  - destruct (duration preferences <=? 0) eqn:Hd;
      [apply Z.leb_le in Hd | apply Z.leb_gt in Hd].
    { split; [discriminate | intros (_ & H & _); lia]. }
    destruct (range_end searchRange <=? range_start searchRange) eqn:Hr;
      [apply Z.leb_le in Hr | apply Z.leb_gt in Hr].
    { split; [discriminate | intros (_ & _ & H & _); lia]. }
    destruct (timeRegex_test (timeRangeStart preferences));
      destruct (timeRegex_test (timeRangeEnd preferences)); simpl;
      split; try discriminate; try (intros (_ & _ & _ & H1 & H2); discriminate).
    all: intros _; repeat split; try assumption; discriminate.
Qed.

Lemma validateInputs_rejects (participants : list ParticipantCalendar)
    (preferences : MeetingPreferences) (searchRange : DateRange) :
  participants = []
  \/ duration preferences <= 0
  \/ range_end searchRange <= range_start searchRange
  \/ timeRegex_test (timeRangeStart preferences) = false
  \/ timeRegex_test (timeRangeEnd preferences) = false ->
  exists message code,
    validateInputs participants preferences searchRange
    = Throws (SchedulingError message code)
    /\ In code schedulingErrorCodes.
Proof.
  intros H. unfold validateInputs, schedulingErrorCodes.
  destruct participants as [|p ps]; [do 2 eexists; split; [reflexivity | simpl; tauto]|].
  destruct (duration preferences <=? 0) eqn:Hd;
    [do 2 eexists; split; [reflexivity | simpl; tauto]|].
  destruct (range_end searchRange <=? range_start searchRange) eqn:Hr;
    [do 2 eexists; split; [reflexivity | simpl; tauto]|].
  apply Z.leb_gt in Hd, Hr.
  destruct (timeRegex_test (timeRangeStart preferences)) eqn:H1;
    destruct (timeRegex_test (timeRangeEnd preferences)) eqn:H2; simpl;
    try (do 2 eexists; split; [reflexivity | simpl; tauto]).
  exfalso. destruct H as [H | [H | [H | [H | H]]]];
    try discriminate; try congruence; lia.
Qed.

End ValidationFacts.

(** What the pattern of [validateInputs] accepts and what it refuses. *)
Example timeRegex_samples :
  map MeetingScheduler.timeRegex_test
      ["09:00"; "9:00"; "17:00"; "23:59"; "24:00"; "09:60"; "0900"; "09:00 "; ""]%string
  = [true; true; true; true; false; false; false; false; false].
Proof. reflexivity. Qed.

(** C2. [scheduleOptimalMeeting] throws a [SchedulingError] carrying one of
    the codes [NO_PARTICIPANTS], [INVALID_DURATION], [INVALID_RANGE],
    [INVALID_TIME_FORMAT], and so returns no result, whenever there is no
    participant, or the duration is not positive, or the search range does
    not start before it ends, or one of the two times of day does not match
    the pattern; this holds whatever the calendar processor is. *)
Theorem scheduleOptimalMeeting_rejects_invalid_request
    (calendarProcessor : CalendarProcessorObject) (fmt : Formatter)
    (participants : list ParticipantCalendar) (preferences : MeetingPreferences)
    (searchRange : DateRange) :
  participants = []
  \/ duration preferences <= 0
  \/ range_end searchRange <= range_start searchRange
  \/ MeetingScheduler.timeRegex_test (timeRangeStart preferences) = false
  \/ MeetingScheduler.timeRegex_test (timeRangeEnd preferences) = false ->
  exists message code,
    MeetingScheduler.scheduleOptimalMeeting calendarProcessor fmt
      participants preferences searchRange
    = Throws (SchedulingError message code)
    /\ In code schedulingErrorCodes.
Proof.
  intros H.
  destruct (validateInputs_rejects participants preferences searchRange H)
    as (message & code & Hv & Hcode).
  exists message, code. split; [|exact Hcode].
  unfold MeetingScheduler.scheduleOptimalMeeting. rewrite Hv. reflexivity.
Qed.

(** A request without participants. *)
Lemma scheduleOptimalMeeting_rejects_invalid_request_witness :
  exists message code,
    MeetingScheduler.scheduleOptimalMeeting idleProcessor plainFormatter
      [] defaultPreferences (mkRange monday (monday + MS_PER_DAY))
    = Throws (SchedulingError message code)
    /\ In code schedulingErrorCodes.
Proof.
  apply (scheduleOptimalMeeting_rejects_invalid_request idleProcessor plainFormatter
           [] defaultPreferences (mkRange monday (monday + MS_PER_DAY))).
  left. reflexivity.
Defined.

(** ** MeetingScheduler: scoring *)

Section ScoringFacts.

Import MeetingScheduler.

Lemma count_Q_nonneg {A : Type} (l : list A) : (0 <= count_Q l)%Q.
Proof.
  unfold count_Q. change 0%Q with (inject_Z 0). rewrite <- Zle_Qle. lia.
Qed.

Lemma count_Q_le {A B : Type} (l : list A) (l' : list B) :
  (List.length l <= List.length l')%nat -> (count_Q l <= count_Q l')%Q.
Proof. intros H. unfold count_Q. rewrite <- Zle_Qle. lia. Qed.

Lemma Qdiv_nonneg (a b : Q) : (0 <= a)%Q -> (0 <= b)%Q -> (0 <= a / b)%Q.
Proof.
  intros Ha Hb. unfold Qdiv. apply Qmult_le_0_compat; [exact Ha|].
  apply Qinv_le_0_compat, Hb.
Qed.

Lemma clamp_monotone (x y : Q) : (x <= y)%Q -> (clamp x <= clamp y)%Q.
Proof.
  intros H. unfold clamp.
  apply Q.max_le_compat_l, Q.min_le_compat_l, H.
Qed.

Lemma clamp_saturates (x : Q) : (100 <= x)%Q -> (clamp x == 100)%Q.
Proof.
  intros H. unfold clamp. rewrite (Q.min_l 100 x H). apply Q.max_r. discriminate.
Qed.

Lemma timeBonus_nonneg (slot : TimeSlot) (preferences : MeetingPreferences) :
  (0 <= calculateTimePreferenceBonus slot preferences)%Q.
Proof.
  unfold calculateTimePreferenceBonus.
  destruct (parseHourMinute (timeRangeStart preferences)) as [[sh sm]|];
    [|apply Qle_refl].
  destruct (parseHourMinute (timeRangeEnd preferences)) as [[eh em]|];
    [|apply Qle_refl].
  apply Q.le_max_l.
Qed.

Lemma timezoneBonus_nonneg (preferences : MeetingPreferences)
    (participants : list ParticipantCalendar) :
  (0 <= calculateTimezoneBonus preferences participants)%Q.
Proof.
  unfold calculateTimezoneBonus.
  destruct (preferredTimezones preferences); [apply Qle_refl|].
  apply Qmult_le_0_compat; [|discriminate].
  apply Qdiv_nonneg; apply count_Q_nonneg.
Qed.

Lemma timeBonus_depends_on_start (s1 s2 : TimeSlot) (preferences : MeetingPreferences) :
  slot_start s1 = slot_start s2 ->
  calculateTimePreferenceBonus s1 preferences = calculateTimePreferenceBonus s2 preferences.
Proof. intros H. unfold calculateTimePreferenceBonus. now rewrite H. Qed.

Lemma scoreOf_monotone (s1 s2 : TimeSlot) (preferences : MeetingPreferences)
    (participants : list ParticipantCalendar) :
  slot_start s1 = slot_start s2 ->
  (List.length (conflicts s1) <= List.length (conflicts s2))%nat ->
  (scoreOf s2 preferences participants <= scoreOf s1 preferences participants)%Q.
Proof.
  intros Hstart Hlen. unfold scoreOf. apply clamp_monotone.
  rewrite (timeBonus_depends_on_start s1 s2 preferences Hstart).
  assert (Hp : (count_Q (conflicts s1) / count_Q participants * 50
                <= count_Q (conflicts s2) / count_Q participants * 50)%Q).
  { apply Qmult_le_compat_r; [|discriminate].
    unfold Qdiv. apply Qmult_le_compat_r; [apply count_Q_le, Hlen|].
    apply Qinv_le_0_compat, count_Q_nonneg. }
  lra.
Qed.

(** A slot nobody conflicts with scores 100: the bonuses are cut off by
    the clamp. *)
Lemma scoreOf_without_conflicts (slot : TimeSlot) (preferences : MeetingPreferences)
    (participants : list ParticipantCalendar) :
  conflicts slot = [] ->
  (scoreOf slot preferences participants == 100)%Q.
Proof.
  intros Hc. unfold scoreOf. apply clamp_saturates. rewrite Hc.
  pose proof (timeBonus_nonneg slot preferences) as Htime.
  pose proof (timezoneBonus_nonneg preferences participants) as Hzone.
  assert (Hnone : (count_Q (@nil string) / count_Q participants * 50 == 0)%Q).
  { unfold count_Q; simpl. unfold Qdiv. rewrite !Qmult_0_l. reflexivity. }
  rewrite Hnone. lra.
Qed.

End ScoringFacts.

(** C8. Of two candidate slots with the same start and end, scored with the
    same preferences and participants, the one with strictly fewer
    conflicting participants never receives the lower score. *)
Theorem scoreTimeSlots_fewer_conflicts_not_lower
    (fmt : Formatter) (preferences : MeetingPreferences)
    (participants : list ParticipantCalendar) (s1 s2 : TimeSlot) :
  participants <> [] ->
  slot_start s1 = slot_start s2 ->
  slot_end s1 = slot_end s2 ->
  (List.length (conflicts s1) < List.length (conflicts s2))%nat ->
  exists t1 t2,
    MeetingScheduler.scoreTimeSlots fmt [s1; s2] preferences participants = [t1; t2]
    /\ conflicts t1 = conflicts s1 /\ conflicts t2 = conflicts s2
    /\ (score t2 <= score t1)%Q.
Proof.
  intros _ Hstart _ Hlen. do 2 eexists. split; [reflexivity|]. simpl.
  repeat split. apply scoreOf_monotone; [exact Hstart | lia].
Qed.

(** Two participants, one of them busy in the second slot. *)
Lemma scoreTimeSlots_fewer_conflicts_not_lower_witness :
  exists t1 t2,
    MeetingScheduler.scoreTimeSlots plainFormatter
      [mkSlot (monday + 10 * MS_PER_HOUR) (monday + 11 * MS_PER_HOUR) 0 [] [];
       mkSlot (monday + 10 * MS_PER_HOUR) (monday + 11 * MS_PER_HOUR) 0
              ["user1"%string] []]
      defaultPreferences [user1; user2]
    = [t1; t2]
    /\ conflicts t1 = [] /\ conflicts t2 = ["user1"%string]
    /\ (score t2 <= score t1)%Q.
Proof.
  apply (scoreTimeSlots_fewer_conflicts_not_lower plainFormatter defaultPreferences
           [user1; user2]
           (mkSlot (monday + 10 * MS_PER_HOUR) (monday + 11 * MS_PER_HOUR) 0 [] [])
           (mkSlot (monday + 10 * MS_PER_HOUR) (monday + 11 * MS_PER_HOUR) 0
                   ["user1"%string] [])).
  - discriminate.
  - reflexivity.
  - reflexivity.
  - simpl. lia.
Defined.

(** ** MeetingScheduler: the loops terminate *)

Section LoopFacts.

Import MeetingScheduler.

Variables (preferences : MeetingPreferences) (slotDuration : Z)
          (busyPeriods : list (string * list BusyPeriod)).

Lemma daySlotsLoop_returns (dayEnd : Date) (fuel : nat) : forall currentSlotStart,
  (dayEnd - addMinutes currentSlotStart slotDuration) / (15 * MS_PER_MINUTE) + 1
  <= Z.of_nat fuel ->
  exists slots,
    daySlotsLoop fuel currentSlotStart dayEnd preferences slotDuration busyPeriods
    = Returns slots.
Proof.
  induction fuel as [|fuel IH]; intros cur Hfuel; simpl.
  - destruct (addMinutes cur slotDuration <=? dayEnd) eqn:Hc; [|eauto].
    apply Z.leb_le in Hc. exfalso.
    unfold addMinutes, MS_PER_MINUTE in *.
    assert (0 <= (dayEnd - (cur + slotDuration * (60 * 1000))) / (15 * (60 * 1000)))
      by (apply Z.div_pos; lia).
    lia.
  - destruct (addMinutes cur slotDuration <=? dayEnd) eqn:Hc; [|eauto].
    apply Z.leb_le in Hc.
    destruct (IH (addMinutes cur 15)) as [rest Hrest].
    + unfold addMinutes, MS_PER_MINUTE in *.
      replace (dayEnd - (cur + 15 * (60 * 1000) + slotDuration * (60 * 1000)))
        with (dayEnd - (cur + slotDuration * (60 * 1000)) + (-1) * (15 * (60 * 1000)))
        by lia.
      rewrite Z.div_add by lia. lia.
    + rewrite Hrest. simpl. eauto.
Qed.

Lemma generateDaySlots_returns (date : Date) :
  exists slots,
    generateDaySlots date preferences slotDuration busyPeriods = Returns slots.
Proof.
  unfold generateDaySlots.
  destruct (parseHourMinute (timeRangeStart preferences)) as [[sh sm]|]; [|eauto].
  destruct (parseHourMinute (timeRangeEnd preferences)) as [[eh em]|]; [|eauto].
  apply daySlotsLoop_returns. unfold daySlotsFuel.
  destruct ((setHours date eh em - addMinutes (setHours date sh sm) slotDuration)
            / (15 * MS_PER_MINUTE) + 1); simpl; lia.
Qed.

Lemma daysLoop_returns (endDate : Date) (fuel : nat) : forall currentDate,
  (endDate - currentDate) / MS_PER_DAY + 1 <= Z.of_nat fuel ->
  exists slots,
    daysLoop fuel currentDate endDate preferences slotDuration busyPeriods
    = Returns slots.
Proof.
  induction fuel as [|fuel IH]; intros cur Hfuel; cbn [daysLoop].
  - destruct (cur <=? endDate) eqn:Hc; [|eauto].
    apply Z.leb_le in Hc. exfalso. unfold MS_PER_DAY, MS_PER_HOUR, MS_PER_MINUTE in *.
    assert (0 <= (endDate - cur) / (24 * (60 * (60 * 1000))))
      by (apply Z.div_pos; lia).
    lia.
  - destruct (cur <=? endDate) eqn:Hc; [|eauto].
    apply Z.leb_le in Hc.
    destruct (IH (addMinutes cur (24 * 60))) as [rest Hrest].
    + unfold addMinutes, MS_PER_DAY, MS_PER_HOUR, MS_PER_MINUTE in *.
      replace (endDate - (cur + 24 * 60 * (60 * 1000)))
        with (endDate - cur + (-1) * (24 * (60 * (60 * 1000)))) by lia.
      rewrite Z.div_add by lia. lia.
    + rewrite Hrest.
      destruct (excludeWeekends preferences && isWeekend cur); [eauto|].
      destruct (existsb _ (excludedDates preferences)); [eauto|].
      destruct (generateDaySlots_returns cur) as [daySlots Hday].
      rewrite Hday. simpl. eauto.
Qed.

End LoopFacts.

Lemma findCandidateTimeSlots_returns (searchRange : DateRange)
    (preferences : MeetingPreferences) (busyPeriods : list (string * list BusyPeriod)) :
  exists slots,
    MeetingScheduler.findCandidateTimeSlots searchRange preferences busyPeriods
    = Returns slots.
Proof.
  unfold MeetingScheduler.findCandidateTimeSlots. apply daysLoop_returns.
  unfold MeetingScheduler.daysFuel.
  destruct ((MeetingScheduler.endOfDay (range_end searchRange)
             - MeetingScheduler.startOfDay (range_start searchRange))
            / MS_PER_DAY + 1); simpl; lia.
Qed.


(** ** MeetingScheduler: the result *)

Section ResultFacts.

Import MeetingScheduler.

Lemma byScoreDesc_iff (a b : TimeSlot) :
  byScoreDesc a b = true <-> (score b <= score a)%Q.
Proof. unfold byScoreDesc. apply Qle_bool_iff. Qed.



(** A valid request whose participants' busy periods the calendar
    processor delivers is answered with a result. *)
Lemma scheduleOptimalMeeting_returns
    (calendarProcessor : CalendarProcessorObject) (fmt : Formatter)
    (participants : list ParticipantCalendar) (preferences : MeetingPreferences)
    (searchRange : DateRange) (busyPeriods : list (string * list BusyPeriod)) :
  validateInputs participants preferences searchRange = Returns tt ->
  getAllBusyPeriods calendarProcessor participants searchRange = Returns busyPeriods ->
  exists result,
    scheduleOptimalMeeting calendarProcessor fmt participants preferences searchRange
    = Returns result.
Proof.
  intros Hv Hb. unfold scheduleOptimalMeeting. rewrite Hv, Hb. simpl.
  destruct (findCandidateTimeSlots_returns searchRange preferences busyPeriods)
    as [slots Hslots].
  rewrite Hslots. simpl. eauto.
Qed.

(** What every returned result looks like. *)
Lemma scheduleOptimalMeeting_result
    (calendarProcessor : CalendarProcessorObject) (fmt : Formatter)
    (participants : list ParticipantCalendar) (preferences : MeetingPreferences)
    (searchRange : DateRange) (result : SchedulingResult) :
  scheduleOptimalMeeting calendarProcessor fmt participants preferences searchRange
  = Returns result ->
  exists busyPeriods candidateSlots,
    getAllBusyPeriods calendarProcessor participants searchRange = Returns busyPeriods
    /\ findCandidateTimeSlots searchRange preferences busyPeriods = Returns candidateSlots
    /\ availableSlots result
       = JS.sort_by byScoreDesc
           (scoreTimeSlots fmt candidateSlots preferences participants)
    /\ recommendations result = firstn 5 (availableSlots result).
Proof.
  unfold scheduleOptimalMeeting.
  destruct (validateInputs participants preferences searchRange) as [[]|e|];
    [|destruct e; discriminate | discriminate].
  simpl.
  destruct (getAllBusyPeriods calendarProcessor participants searchRange)
    as [busyPeriods|e|] eqn:Hb; [|destruct e; discriminate | discriminate].
  simpl.
  destruct (findCandidateTimeSlots searchRange preferences busyPeriods)
    as [candidateSlots|e|] eqn:Hc; [|destruct e; discriminate | discriminate].
  simpl. intros H. inversion H; subst; clear H. simpl.
  exists busyPeriods, candidateSlots. repeat split; try reflexivity. exact Hc.
Qed.

End ResultFacts.



(** The first available slot need not be the first candidate generated:
    with user 1 busy from 09:00 to 10:00 the candidates from 09:00 to 09:45
    lose points and the result starts with the slot of 10:00. *)
Example availableSlots_not_in_generation_order :
  exists result candidates,
    MeetingScheduler.scheduleOptimalMeeting morningProcessor plainFormatter
      [busyUser1; user2] defaultPreferences (mkRange monday (monday + 17 * MS_PER_HOUR))
    = Returns result
    /\ MeetingScheduler.findCandidateTimeSlots
         (mkRange monday (monday + 17 * MS_PER_HOUR)) defaultPreferences
         [("user1"%string,
           [mkBusy "user1" (monday + 9 * MS_PER_HOUR) (monday + 10 * MS_PER_HOUR)
                   ["event1"%string]]);
          ("user2"%string, [])]
       = Returns candidates
    /\ map slot_start (firstn 1 candidates) = [monday + 9 * MS_PER_HOUR]
    /\ map slot_start (firstn 1 (availableSlots result)) = [monday + 10 * MS_PER_HOUR].
Proof.
  eexists. eexists. split; [vm_compute; reflexivity|].
  split; [vm_compute; reflexivity|]. split; reflexivity.
Qed.

(** The scheduler as shipped: the class [CalendarProcessor] has no method
    [getBusyPeriods], and every request that passes validation fails with
    the code [SCHEDULING_FAILED]. *)
Lemma scheduleOptimalMeeting_without_getBusyPeriods
    (fmt : Formatter) (participants : list ParticipantCalendar)
    (preferences : MeetingPreferences) (searchRange : DateRange) :
  MeetingScheduler.validateInputs participants preferences searchRange = Returns tt ->
  exists message,
    MeetingScheduler.scheduleOptimalMeeting shippedProcessor fmt
      participants preferences searchRange
    = Throws (SchedulingError message "SCHEDULING_FAILED").
Proof.
  intros Hv. unfold MeetingScheduler.scheduleOptimalMeeting. rewrite Hv.
  destruct participants as [|p ps]; [discriminate|].
  simpl. eauto.
Qed.

(** ** MeetingScheduler: a free weekday *)

Section FreeDayFacts.

Import MeetingScheduler.

Lemma startOfDay_idempotent (d : Date) : startOfDay (startOfDay d) = startOfDay d.
Proof.
  unfold startOfDay, MS_PER_DAY, MS_PER_HOUR, MS_PER_MINUTE.
  assert (H : (d - d mod (24 * (60 * (60 * 1000)))) mod (24 * (60 * (60 * 1000))) = 0).
  { rewrite Zminus_mod_idemp_r, Z.sub_diag. reflexivity. }
  rewrite H. lia.
Qed.

Lemma setHours_startOfDay (d : Date) (h m : Z) :
  setHours (startOfDay d) h m = setHours d h m.
Proof. unfold setHours. now rewrite startOfDay_idempotent. Qed.

Variables (preferences : MeetingPreferences)
          (busyPeriods : list (string * list BusyPeriod)).

(** The loop of [generateDaySlots] produces one candidate per quarter of
    an hour for as long as the slot and its buffer fit before [dayEnd]. *)
Lemma daySlotsLoop_exact (slotDuration : Z) (dayEnd : Date) (n : nat) :
  forall fuel currentSlotStart,
    (n <= fuel)%nat ->
    Forall (fun s => addMinutes s slotDuration <= dayEnd)
           (quarterHours currentSlotStart n) ->
    dayEnd < addMinutes (currentSlotStart + Z.of_nat n * (15 * MS_PER_MINUTE))
                        slotDuration ->
    daySlotsLoop fuel currentSlotStart dayEnd preferences slotDuration busyPeriods
    = Returns (map (candidateAt preferences busyPeriods)
                   (quarterHours currentSlotStart n)).
Proof.
  induction n as [|n IH]; intros fuel cur Hfuel Hfit Hstop.
  - assert (Hc : (addMinutes cur slotDuration <=? dayEnd) = false).
    { apply Z.leb_gt. unfold addMinutes in *. simpl in Hstop. lia. }
    destruct fuel; simpl; rewrite Hc; reflexivity.
  - destruct fuel as [|fuel]; [lia|].
    cbn [quarterHours] in Hfit. inversion Hfit as [|? ? Hhead Htail]; subst.
    cbn [daySlotsLoop quarterHours map].
    apply Z.leb_le in Hhead. rewrite Hhead.
    rewrite (IH fuel (addMinutes cur 15)); [reflexivity | lia | exact Htail |].
    unfold addMinutes in *. lia.
Qed.

Lemma findSlotConflicts_idle (slotStart slotEnd : Date) :
  Forall (fun entry => snd entry = []) busyPeriods ->
  findSlotConflicts slotStart slotEnd busyPeriods = [].
Proof.
  unfold findSlotConflicts. induction 1 as [|entry rest Hentry Hrest IH]; simpl;
    [reflexivity|].
  rewrite Hentry. simpl. exact IH.
Qed.

End FreeDayFacts.

Lemma mapSet_idle (m : list (string * list BusyPeriod)) (k : string) :
  Forall (fun entry => snd entry = []) m ->
  Forall (fun entry => snd entry = []) (MeetingScheduler.mapSet m k []).
Proof.
  induction 1 as [|[k' v'] rest Hentry Hrest IH]; simpl.
  - repeat constructor.
  - destruct (String.eqb k' k); constructor; auto.
Qed.

(** Equal scores leave the order of the slots alone. *)
Lemma sort_by_score_all_equal (slots : list TimeSlot) (q : Q) :
  Forall (fun s => (score s == q)%Q) slots ->
  JS.sort_by MeetingScheduler.byScoreDesc slots = slots.
Proof.
  intros Hall. apply sort_by_sorted_id.
  induction Hall as [|s rest Hs Hrest IH]; constructor; [exact IH|].
  eapply Forall_impl; [|exact Hrest]. intros t Ht. cbv beta in Ht.
  apply byScoreDesc_iff. rewrite Hs, Ht. apply Qle_refl.
Qed.

(** The candidates of a day with business hours 09:00 to 17:00 and slots
    of 60 minutes: 29 of them, from 09:00 to 16:00. *)
Lemma generateDaySlots_nine_to_five (date : Date) (preferences : MeetingPreferences)
    (busyPeriods : list (string * list BusyPeriod)) :
  timeRangeStart preferences = "09:00"%string ->
  timeRangeEnd preferences = "17:00"%string ->
  MeetingScheduler.generateDaySlots date preferences 60 busyPeriods
  = Returns (map (candidateAt preferences busyPeriods)
                 (quarterHours (MeetingScheduler.setHours date 9 0) 29)).
Proof.
  intros Hs He. unfold MeetingScheduler.generateDaySlots. rewrite Hs, He.
  change (MeetingScheduler.parseHourMinute "09:00") with (Some (9, 0)).
  change (MeetingScheduler.parseHourMinute "17:00") with (Some (17, 0)).
  cbv iota beta.
  assert (Hfuel : MeetingScheduler.daySlotsFuel (MeetingScheduler.setHours date 9 0)
                    (MeetingScheduler.setHours date 17 0) 60 = 29%nat).
  { unfold MeetingScheduler.daySlotsFuel, MeetingScheduler.setHours,
      MeetingScheduler.addMinutes, MS_PER_HOUR, MS_PER_MINUTE.
    match goal with
    | |- Z.to_nat (?a / ?b + 1) = _ => replace a with 25200000 by lia
    end.
    reflexivity. }
  rewrite Hfuel.
  apply daySlotsLoop_exact; [lia | |].
  - unfold MeetingScheduler.setHours, MeetingScheduler.addMinutes,
      MS_PER_HOUR, MS_PER_MINUTE.
    cbn [quarterHours]. unfold MeetingScheduler.addMinutes, MS_PER_MINUTE.
    repeat (apply Forall_cons; [lia|]). apply Forall_nil.
  - unfold MeetingScheduler.setHours, MeetingScheduler.addMinutes,
      MS_PER_HOUR, MS_PER_MINUTE. lia.
Qed.

Lemma findCandidateTimeSlots_one_weekday (searchRange : DateRange)
    (preferences : MeetingPreferences) (busyPeriods : list (string * list BusyPeriod)) :
  nineToFiveOneHour preferences ->
  withinOneWeekday searchRange ->
  MeetingScheduler.findCandidateTimeSlots searchRange preferences busyPeriods
  = Returns (map (candidateAt preferences busyPeriods)
                 (quarterHours (MeetingScheduler.setHours (range_start searchRange) 9 0)
                               29)).
Proof.
  intros (Hs & He & Hd & Hb & Hex) (Hlt & Hsame & Hweek).
  unfold MeetingScheduler.findCandidateTimeSlots, MeetingScheduler.endOfDay.
  rewrite Hd, Hb, Hsame. change (60 + 0) with 60.
  set (day := MeetingScheduler.startOfDay (range_start searchRange)) in *.
  assert (Hfuel : MeetingScheduler.daysFuel day (day + MS_PER_DAY - 1) = 1%nat).
  { unfold MeetingScheduler.daysFuel.
    replace (day + MS_PER_DAY - 1 - day) with (MS_PER_DAY - 1) by lia. reflexivity. }
  rewrite Hfuel. cbn [MeetingScheduler.daysLoop].
  assert (Hin : (day <=? day + MS_PER_DAY - 1) = true)
    by (apply Z.leb_le; unfold MS_PER_DAY, MS_PER_HOUR, MS_PER_MINUTE; lia).
  assert (Hout : (MeetingScheduler.addMinutes day (24 * 60) <=? day + MS_PER_DAY - 1)
                 = false).
  { apply Z.leb_gt.
    unfold MeetingScheduler.addMinutes, MS_PER_DAY, MS_PER_HOUR, MS_PER_MINUTE. lia. }
  rewrite Hin, Hout, Hweek, andb_false_r, Hex. cbn [existsb].
  rewrite (generateDaySlots_nine_to_five day preferences busyPeriods Hs He).
  cbn [bind]. rewrite app_nil_r. unfold day.
  now rewrite setHours_startOfDay.
Qed.

(** The same request on a scheduler whose processor has been given a
    method [getBusyPeriods], as the tests of the scheduler do it.  For two
    participants without events, business hours 09:00 to 17:00, a duration
    of 60 minutes, no buffer, no excluded date, a search range within one
    weekday, and a method that reports no busy period for an empty event
    list, [scheduleOptimalMeeting] returns a result whose available slots
    start every 15 minutes from 09:00 to 16:00 inclusive, 29 of them, each
    lasting 60 minutes and with an empty list of conflicts, and each with
    score 100: the bonuses are cut off by the clamp, and the slot of 13:00
    scores the same as the slot of 09:00. *)
Theorem scheduleOptimalMeeting_free_weekday
    (calendarProcessor : CalendarProcessorObject) (fmt : Formatter)
    (p1 p2 : ParticipantCalendar) (preferences : MeetingPreferences)
    (searchRange : DateRange)
    (method : list CalendarEvent -> DateRange -> Outcome (list BusyPeriod)) :
  events p1 = [] ->
  events p2 = [] ->
  nineToFiveOneHour preferences ->
  withinOneWeekday searchRange ->
  getBusyPeriods calendarProcessor = Some method ->
  method [] searchRange = Returns [] ->
  exists result,
    MeetingScheduler.scheduleOptimalMeeting calendarProcessor fmt
      [p1; p2] preferences searchRange = Returns result
    /\ map slot_start (availableSlots result)
       = quarterHours (MeetingScheduler.setHours (range_start searchRange) 9 0) 29
    /\ last (map slot_start (availableSlots result)) 0
       = MeetingScheduler.setHours (range_start searchRange) 16 0
    /\ Forall (fun slot =>
                 slot_end slot = MeetingScheduler.addMinutes (slot_start slot) 60
                 /\ conflicts slot = []
                 /\ (score slot == 100)%Q)
              (availableSlots result).
Proof.
  intros He1 He2 Hprefs Hrange Hproc Hmethod.
  pose proof Hprefs as (Hs & He & Hd & Hb & Hex).
  pose proof Hrange as (Hlt & Hsame & Hweek).
  assert (Hv : MeetingScheduler.validateInputs [p1; p2] preferences searchRange
               = Returns tt).
  { apply validateInputs_accepts. rewrite Hs, He, Hd.
    repeat split; try reflexivity; try lia. discriminate. }
  set (busy := MeetingScheduler.mapSet
                 (MeetingScheduler.mapSet (@nil (string * list BusyPeriod))
                                          (participantId p1) [])
                 (participantId p2) []).
  assert (Hbusy : MeetingScheduler.getAllBusyPeriods calendarProcessor [p1; p2] searchRange
                  = Returns busy).
  { unfold MeetingScheduler.getAllBusyPeriods.
    cbn [MeetingScheduler.collectBusyPeriods].
    rewrite Hproc, He1, He2, Hmethod. reflexivity. }
  assert (Hidle : Forall (fun entry => snd entry = []) busy)
    by (apply mapSet_idle, mapSet_idle; constructor).
  pose proof (findCandidateTimeSlots_one_weekday searchRange preferences busy
                Hprefs Hrange) as Hcand.
  set (starts := quarterHours (MeetingScheduler.setHours (range_start searchRange) 9 0) 29)
    in *.
  set (scored := MeetingScheduler.scoreTimeSlots fmt
                   (map (candidateAt preferences busy) starts) preferences [p1; p2]).
  assert (Hall : Forall (fun slot =>
                           slot_end slot
                           = MeetingScheduler.addMinutes (slot_start slot) 60
                           /\ conflicts slot = []
                           /\ (score slot == 100)%Q) scored).
  { subst scored. unfold MeetingScheduler.scoreTimeSlots. rewrite map_map.
    apply Forall_forall. intros slot Hin. apply in_map_iff in Hin.
    destruct Hin as [s [<- _]]. cbn [slot_start slot_end conflicts score candidateAt].
    rewrite Hd, (findSlotConflicts_idle busy _ _ Hidle).
    repeat split. apply scoreOf_without_conflicts.
    unfold candidateAt; cbn [conflicts]. apply findSlotConflicts_idle, Hidle. }
  assert (Hsort : JS.sort_by MeetingScheduler.byScoreDesc scored = scored).
  { apply (sort_by_score_all_equal scored 100).
    eapply Forall_impl; [|exact Hall]. intros slot H. apply H. }
  exists (mkResult scored (MeetingScheduler.analyzeConflicts scored [p1; p2])
                   (firstn 5 scored)).
  split.
  - unfold MeetingScheduler.scheduleOptimalMeeting.
    rewrite Hv. cbn [bind]. rewrite Hbusy. cbn [bind]. rewrite Hcand. cbn [bind].
    unfold MeetingScheduler.getTopRecommendations. fold scored. rewrite Hsort.
    reflexivity.
  - cbn [availableSlots].
    assert (Hstarts : map slot_start scored = starts).
    { subst scored. unfold MeetingScheduler.scoreTimeSlots. rewrite !map_map.
      cbn [slot_start candidateAt]. apply map_id. }
    split; [exact Hstarts|]. split; [|exact Hall].
    rewrite Hstarts. subst starts.
    unfold MeetingScheduler.setHours, MeetingScheduler.addMinutes, MS_PER_HOUR,
      MS_PER_MINUTE. cbn [quarterHours last].
    unfold MeetingScheduler.addMinutes, MS_PER_MINUTE. lia.
Qed.

(** Monday 15 January 2024, searched from midnight to 17:00, with the
    calendar processor of the tests. *)
Lemma scheduleOptimalMeeting_free_weekday_witness :
  exists result,
    MeetingScheduler.scheduleOptimalMeeting idleProcessor plainFormatter
      [user1; user2] defaultPreferences (mkRange monday (monday + 17 * MS_PER_HOUR))
    = Returns result
    /\ map slot_start (availableSlots result)
       = quarterHours
           (MeetingScheduler.setHours
              (range_start (mkRange monday (monday + 17 * MS_PER_HOUR))) 9 0) 29
    /\ last (map slot_start (availableSlots result)) 0
       = MeetingScheduler.setHours
           (range_start (mkRange monday (monday + 17 * MS_PER_HOUR))) 16 0
    /\ Forall (fun slot =>
                 slot_end slot = MeetingScheduler.addMinutes (slot_start slot) 60
                 /\ conflicts slot = []
                 /\ (score slot == 100)%Q)
              (availableSlots result).
Proof.
  apply (scheduleOptimalMeeting_free_weekday idleProcessor plainFormatter
           user1 user2 defaultPreferences (mkRange monday (monday + 17 * MS_PER_HOUR))
           (fun _ _ => Returns [])).
  - reflexivity.
  - reflexivity.
  - repeat split; reflexivity.
  - repeat split; vm_compute; reflexivity.
  - reflexivity.
  - reflexivity.
Defined.

(** With such a method installed, on that Monday the slot of 13:00 does
    not score strictly higher than the slot of 09:00. *)
Lemma scheduleOptimalMeeting_midpoint_not_strictly_higher :
  exists result s9 s13,
    MeetingScheduler.scheduleOptimalMeeting idleProcessor plainFormatter
      [user1; user2] defaultPreferences (mkRange monday (monday + 17 * MS_PER_HOUR))
    = Returns result
    /\ In s9 (availableSlots result) /\ In s13 (availableSlots result)
    /\ slot_start s9 = monday + 9 * MS_PER_HOUR
    /\ slot_start s13 = monday + 13 * MS_PER_HOUR
    /\ ~ (score s9 < score s13)%Q.
Proof.
  do 3 eexists. split; [vm_compute; reflexivity|].
  split; [left; reflexivity|].
  split; [do 16 right; left; reflexivity|].
  split; [reflexivity|]. split; [reflexivity|].
  intros H. vm_compute in H. discriminate.
Qed.

(** C1, as the code has it. The constructor of [MeetingScheduler] installs
    an instance of the class [CalendarProcessor], which has no method
    [getBusyPeriods].  For the request of two participants without events,
    business hours 09:00 to 17:00, a duration of 60 minutes, no buffer, no
    excluded date and a search range within one weekday,
    [scheduleOptimalMeeting] passes its validation and then returns no
    result: it throws a [SchedulingError] with the code
    [SCHEDULING_FAILED]. *)
Theorem scheduleOptimalMeeting_free_weekday_throws
    (fmt : Formatter) (p1 p2 : ParticipantCalendar) (preferences : MeetingPreferences)
    (searchRange : DateRange) :
  events p1 = [] ->
  events p2 = [] ->
  nineToFiveOneHour preferences ->
  withinOneWeekday searchRange ->
  MeetingScheduler.validateInputs [p1; p2] preferences searchRange = Returns tt
  /\ exists message,
       MeetingScheduler.scheduleOptimalMeeting shippedProcessor fmt
         [p1; p2] preferences searchRange
       = Throws (SchedulingError message "SCHEDULING_FAILED").
Proof.
  intros _ _ (Hs & He & Hd & _) (Hlt & _).
  assert (Hv : MeetingScheduler.validateInputs [p1; p2] preferences searchRange
               = Returns tt).
  { apply validateInputs_accepts. rewrite Hs, He, Hd.
    repeat split; try reflexivity; try lia. discriminate. }
  split; [exact Hv|].
  unfold MeetingScheduler.scheduleOptimalMeeting. rewrite Hv.
  cbn [bind MeetingScheduler.getAllBusyPeriods MeetingScheduler.collectBusyPeriods
       getBusyPeriods shippedProcessor try_catch exn_message].
  eexists. reflexivity.
Qed.

(** Monday 15 January 2024, searched from midnight to 17:00, on the
    scheduler as it is constructed. *)
Lemma scheduleOptimalMeeting_free_weekday_throws_witness :
  MeetingScheduler.validateInputs [user1; user2] defaultPreferences
    (mkRange monday (monday + 17 * MS_PER_HOUR)) = Returns tt
  /\ exists message,
       MeetingScheduler.scheduleOptimalMeeting shippedProcessor plainFormatter
         [user1; user2] defaultPreferences (mkRange monday (monday + 17 * MS_PER_HOUR))
       = Throws (SchedulingError message "SCHEDULING_FAILED").
Proof.
  apply (scheduleOptimalMeeting_free_weekday_throws plainFormatter user1 user2
           defaultPreferences (mkRange monday (monday + 17 * MS_PER_HOUR))).
  - reflexivity.
  - reflexivity.
  - repeat split; reflexivity.
  - repeat split; vm_compute; reflexivity.
Defined.

(** ** ICalParser: recurrence rules *)

Section RecurrenceFacts.

Import ICalParser.

Context {D R : Type} (host : Host D R).

Lemma parseRRuleProp_some (rrule : option PropValue) (startDate : D) (rule : R) :
  parseRRuleProp host rrule startDate = Some rule ->
  exists rruleStr,
    rrule = Some (PStr rruleStr)
    /\ JS.includes rruleStr "FREQ=" = true
    /\ parseRecurrenceRule host rruleStr startDate = Returns rule.
Proof.
  unfold parseRRuleProp. destruct (truthy rrule); [|discriminate].
  destruct rrule as [[rruleStr | l]|]; try discriminate.
  destruct (JS.includes rruleStr "FREQ=") eqn:Hfreq; [|discriminate].
  destruct (parseRecurrenceRule host rruleStr startDate) as [r| |] eqn:Hparse;
    try discriminate.
  intros H. inversion H; subst. exists rruleStr. auto.
Qed.

Lemma parseRRuleProp_failure (rruleStr : string) (startDate : D) (e : Exn) :
  parseRecurrenceRule host rruleStr startDate = Throws e ->
  parseRRuleProp host (Some (PStr rruleStr)) startDate = None.
Proof.
  intros H. unfold parseRRuleProp. rewrite H.
  destruct (truthy (Some (PStr rruleStr))); [|reflexivity].
  destruct (JS.includes rruleStr "FREQ="); reflexivity.
Qed.

Lemma processEvent_recurrence (vevent : ICalComponent) (event : ParsedEvent D R) :
  processEvent host vevent = Returns event ->
  exists startDate,
    recurrence event = parseRRuleProp host (getProp (properties vevent) "RRULE") startDate.
Proof.
  unfold processEvent.
  destruct (getProp (properties vevent) "UID") as [uidV|]; [|discriminate].
  destruct (getProp (properties vevent) "DTSTART") as [dtstartV|]; [|discriminate].
  destruct (truthy (Some uidV) && truthy (Some dtstartV))%bool; [|discriminate].
  destruct (parseDateTime host dtstartV) as [startDate| |]; try discriminate.
  cbn [bind].
  match goal with
  | |- bind ?m _ = _ -> _ => destruct m as [endDate| |]; try discriminate
  end.
  cbn [bind].
  destruct (extractEventTimezone dtstartV) as [tz| |]; try discriminate.
  cbn [bind].
  destruct (parseStatus (getProp (properties vevent) "STATUS")) as [st| |];
    try discriminate.
  cbn [bind]. intros H. inversion H; subst. cbn [recurrence]. eauto.
Qed.

(** The rule property decides nothing but the field [recurrence]. *)
Lemma processEvent_ignores_rule_failure (vevent vevent' : ICalComponent) :
  sameButRRULE vevent vevent' ->
  match processEvent host vevent with
  | Returns event =>
      exists event', processEvent host vevent' = Returns event'
                     /\ withoutRule event' = withoutRule event
  | Throws e => processEvent host vevent' = Throws e
  | OutOfFuel => processEvent host vevent' = OutOfFuel
  end.
Proof.
  intros Hsame. unfold processEvent.
  rewrite (Hsame "UID"%string), (Hsame "DTSTART"%string), (Hsame "DTEND"%string),
    (Hsame "DURATION"%string), (Hsame "SUMMARY"%string), (Hsame "STATUS"%string)
    by discriminate.
  destruct (getProp (properties vevent) "UID") as [uidV|]; [|reflexivity].
  destruct (getProp (properties vevent) "DTSTART") as [dtstartV|]; [|reflexivity].
  destruct (truthy (Some uidV) && truthy (Some dtstartV))%bool; [|reflexivity].
  destruct (parseDateTime host dtstartV) as [startDate| |]; try reflexivity.
  cbn [bind].
  match goal with
  | |- match bind ?m _ with _ => _ end => destruct m as [endDate| |]; try reflexivity
  end.
  cbn [bind].
  destruct (extractEventTimezone dtstartV) as [tz| |]; try reflexivity.
  cbn [bind].
  destruct (parseStatus (getProp (properties vevent) "STATUS")) as [st| |];
    try reflexivity.
  cbn [bind]. eexists. split; reflexivity.
Qed.

Lemma mapFrequency_default (freq : string) :
  JS.lookup freqMap freq = None -> JS.inherited freq = false ->
  mapFrequency (Some freq) = TNumber WEEKLY.
Proof. intros H Hi. unfold mapFrequency, orElse. rewrite H, Hi. reflexivity. Qed.

Lemma mapFrequency_inherited (freq : string) :
  JS.inherited freq = true -> mapFrequency (Some freq) = TInherited freq.
Proof.
  intros Hi. unfold mapFrequency, orElse.
  assert (Hl : JS.lookup freqMap freq = None).
  { revert Hi. unfold JS.inherited, JS.Object_prototype_names. cbn [existsb].
    repeat match goal with
           | |- (String.eqb freq ?k || _)%bool = true -> _ =>
               destruct (String.eqb_spec freq k) as [-> | _];
               [intros _; reflexivity | cbn [orb]]
           end.
    discriminate. }
  rewrite Hl, Hi. reflexivity.
Qed.

Lemma split_aux_lacks (sep : ascii) (s : string) : forall cur,
  lacksChar sep s = true ->
  JS.split_aux sep s cur = [(JS.rev_string cur ++ s)%string].
Proof.
  induction s as [|c t IH]; intros cur H; cbn [JS.split_aux].
  - f_equal. induction (JS.rev_string cur) as [|x r IHr]; simpl; [reflexivity|].
    now rewrite <- IHr.
  - cbn [lacksChar] in H. apply andb_true_iff in H. destruct H as [Hc Ht].
    apply negb_true_iff in Hc. rewrite Hc, (IH _ Ht). cbn [JS.rev_string].
    f_equal. induction (JS.rev_string cur) as [|x r IHr]; simpl; [reflexivity|].
    now rewrite IHr.
Qed.

(** A rule that consists of a frequency alone: the options handed to the
    constructor hold what [mapFrequency] makes of it, and the rule is
    attached exactly when the constructor returns one. *)
Lemma parseRRuleProp_frequency_alone (freq : string) (startDate : D) :
  lacksChar ";" freq = true -> lacksChar "=" freq = true ->
  parseRRuleProp host (Some (PStr ("FREQ=" ++ freq)%string)) startDate
  = match RRule_new host
            (mkOptions startDate (Some (mapFrequency (Some freq)))
                       None None None None None None) with
    | Returns rule => Some rule
    | _ => None
    end.
Proof.
  intros Hsemi Heq. unfold parseRRuleProp, parseRecurrenceRule.
  assert (Hparts : JS.split ";" ("FREQ=" ++ freq)%string = [("FREQ=" ++ freq)%string]).
  { unfold JS.split. cbn [append JS.split_aux Ascii.eqb Bool.eqb].
    rewrite (split_aux_lacks _ _ _ Hsemi). reflexivity. }
  assert (Hkv : JS.split "=" ("FREQ=" ++ freq)%string = ["FREQ"%string; freq]).
  { unfold JS.split. cbn [append JS.split_aux Ascii.eqb Bool.eqb JS.rev_string].
    rewrite (split_aux_lacks _ _ _ Heq). reflexivity. }
  rewrite Hparts. cbn [applyParts]. unfold applyPart. rewrite Hkv.
  cbn [nth nth_error]. clear Hparts Hkv.
  assert (Hinc : JS.includes ("FREQ=" ++ freq)%string "FREQ=" = true)
    by (destruct freq; reflexivity).
  rewrite Hinc. cbn [truthy append bind String.eqb Ascii.eqb Bool.eqb]. reflexivity.
Qed.

End RecurrenceFacts.

(** C5, as the code has it. [processEvent] attaches a rule object only when
    the RRULE property is a string containing the text [FREQ=] and the
    parsing of that string returns the rule.  A frequency that is not
    recognized does not stop this: for a rule that consists of a frequency
    alone, the constructor is handed what [freqMap[freq] || RRule.WEEKLY]
    yields, and the rule is attached exactly when the constructor returns
    one; that value is weekly for a name that is neither in the table nor
    a member of [Object.prototype], and the inherited member, which is no
    number, for a name such as [constructor].  When the parsing of the rule
    throws, the rule is dropped; and whatever the RRULE property holds, the
    event is processed as it would be without it, up to the field
    [recurrence]: a failure in the rule never fails the event. *)
Theorem processEvent_rule_attached_or_dropped
    (D R : Type) (host : ICalParser.Host D R) (vevent : ICalParser.ICalComponent) :
  (forall event rule,
      ICalParser.processEvent host vevent = Returns event ->
      ICalParser.recurrence event = Some rule ->
      exists rruleStr startDate,
        ICalParser.getProp (ICalParser.properties vevent) "RRULE"
        = Some (ICalParser.PStr rruleStr)
        /\ JS.includes rruleStr "FREQ=" = true
        /\ ICalParser.parseRecurrenceRule host rruleStr startDate = Returns rule)
  /\ (forall freq startDate,
        lacksChar ";" freq = true -> lacksChar "=" freq = true ->
        ICalParser.parseRRuleProp host
          (Some (ICalParser.PStr ("FREQ=" ++ freq)%string)) startDate
        = match ICalParser.RRule_new host
                  (ICalParser.mkOptions startDate
                     (Some (ICalParser.mapFrequency (Some freq)))
                     None None None None None None) with
          | Returns rule => Some rule
          | _ => None
          end
        /\ (JS.lookup ICalParser.freqMap freq = None -> JS.inherited freq = false ->
            ICalParser.mapFrequency (Some freq)
            = ICalParser.TNumber ICalParser.WEEKLY)
        /\ (JS.inherited freq = true ->
            ICalParser.mapFrequency (Some freq) = ICalParser.TInherited freq))
  /\ (forall rruleStr startDate e,
        ICalParser.parseRecurrenceRule host rruleStr startDate = Throws e ->
        ICalParser.parseRRuleProp host (Some (ICalParser.PStr rruleStr)) startDate = None)
  /\ (forall vevent',
        sameButRRULE vevent vevent' ->
        match ICalParser.processEvent host vevent with
        | Returns event =>
            exists event', ICalParser.processEvent host vevent' = Returns event'
                           /\ withoutRule event' = withoutRule event
        | Throws e => ICalParser.processEvent host vevent' = Throws e
        | OutOfFuel => ICalParser.processEvent host vevent' = OutOfFuel
        end).
Proof.
  split; [|split; [|split]].
  - intros event rule Hev Hrule.
    destruct (processEvent_recurrence host vevent event Hev) as [startDate Hrec].
    rewrite Hrec in Hrule.
    destruct (parseRRuleProp_some host _ _ _ Hrule) as (rruleStr & Hprop & Hfreq & Hparse).
    exists rruleStr, startDate. auto.
  - intros freq startDate Hsemi Heq.
    split; [apply parseRRuleProp_frequency_alone; assumption|].
    split; [apply mapFrequency_default | apply mapFrequency_inherited].
  - apply parseRRuleProp_failure.
  - apply processEvent_ignores_rule_failure.
Qed.

(** An event whose rule cannot be parsed is processed like the same event
    without a rule. *)
Lemma processEvent_rule_attached_or_dropped_witness :
  sameButRRULE eventWithBrokenRule eventWithoutRule
  /\ ICalParser.processEvent acceptingHost eventWithBrokenRule = Returns brokenRuleEvent
  /\ ICalParser.parseRRuleProp acceptingHost
       (Some (ICalParser.PStr "FREQ=DAILY;UNTIL=tomorrow")) 0 = None
  /\ exists event',
       ICalParser.processEvent acceptingHost eventWithoutRule = Returns event'
       /\ withoutRule event' = withoutRule brokenRuleEvent.
Proof.
  assert (Hsame : sameButRRULE eventWithBrokenRule eventWithoutRule).
  { intros k Hk. unfold eventWithBrokenRule, eventWithoutRule.
    cbn [ICalParser.getProp ICalParser.properties].
    destruct (String.eqb "UID" k); [reflexivity|].
    destruct (String.eqb "DTSTART" k); [reflexivity|].
    destruct (String.eqb "RRULE" k) eqn:Hrule; [|reflexivity].
    apply String.eqb_eq in Hrule. congruence. }
  destruct (processEvent_rule_attached_or_dropped Z (ICalParser.RRuleOptions Z)
              acceptingHost eventWithBrokenRule) as (_ & _ & Hdrop & Hkeep).
  split; [exact Hsame|]. split; [vm_compute; reflexivity|]. split.
  - apply (Hdrop "FREQ=DAILY;UNTIL=tomorrow"%string 0
                 (ICalParseError "Invalid date format: tomorrow")).
    vm_compute. reflexivity.
  - exact (Hkeep eventWithoutRule Hsame).
Defined.

(** C5, as stated, fails: a rule naming a frequency that the table does
    not know is attached all the same, as a weekly rule. *)
Lemma processEvent_attaches_unknown_frequency :
  JS.lookup ICalParser.freqMap "FORTNIGHTLY" = None
  /\ exists event rule,
       ICalParser.processEvent acceptingHost eventWithUnknownFrequency = Returns event
       /\ ICalParser.recurrence event = Some rule
       /\ ICalParser.opt_freq rule = Some (ICalParser.TNumber ICalParser.WEEKLY).
Proof.
  split; [reflexivity|]. do 2 eexists.
  split; [vm_compute; reflexivity|]. split; reflexivity.
Qed.

(** A frequency named like a member of [Object.prototype] is not defaulted:
    the constructor is handed the inherited member, and on a host whose
    constructor rejects it the rule is dropped and the event is kept. *)
Example processEvent_drops_inherited_frequency :
  ICalParser.mapFrequency (Some "constructor"%string)
  = ICalParser.TInherited "constructor"
  /\ exists event,
       ICalParser.processEvent acceptingHost eventWithInheritedFrequency = Returns event
       /\ ICalParser.recurrence event = None.
Proof.
  split; [reflexivity|]. eexists. split; [vm_compute; reflexivity | reflexivity].
Qed.

(** ** ICalParser: the whole parse *)

Section ParseFacts.

Import ICalParser.

Context {D R : Type} (host : Host D R).

Lemma parseICalContent_missing_marker (content : string) (participantName : option string)
    (random : string) :
  JS.includes content "BEGIN:VCALENDAR" = false ->
  parseICalContent host content participantName random
  = Throws (ICalParseError "Invalid iCal content: Missing BEGIN:VCALENDAR").
Proof. intros H. unfold parseICalContent. rewrite H. reflexivity. Qed.

(** With the opening marker present the events are extracted one by one,
    and the parse returns them unless the search for the calendar's time
    zone throws. *)
Lemma parseICalContent_with_marker (content : string) (participantName : option string)
    (random : string) :
  JS.includes content "BEGIN:VCALENDAR" = true ->
  match extractTimezone (parseComponents (preprocessICalContent content)) with
  | Returns _ =>
      exists calendar,
        parseICalContent host content participantName random = Returns calendar
        /\ pc_events calendar
           = extractEvents host (parseComponents (preprocessICalContent content))
  | Throws _ =>
      exists message,
        parseICalContent host content participantName random
        = Throws (ICalParseError message)
  | OutOfFuel => parseICalContent host content participantName random = OutOfFuel
  end.
Proof.
  intros H. unfold parseICalContent. rewrite H. cbn [negb].
  destruct (extractTimezone (parseComponents (preprocessICalContent content)))
    as [tz|e|]; cbn [bind try_catch].
  - eexists. split; reflexivity.
  - destruct e; eexists; reflexivity.
  - reflexivity.
Qed.

End ParseFacts.

(** C6 fails on the code: a calendar text with both container markers in
    which one event carries DTSTART twice makes the whole parse fail with a
    parse error, the well-formed event after it notwithstanding; the same
    text with the DTSTART of that event missing is parsed, and the event is
    skipped. *)
Theorem parseICalContent_fails_on_duplicate_DTSTART
    (D R : Type) (host : ICalParser.Host D R) (participantName : option string)
    (random : string) :
  JS.includes calendarWithDuplicateStart "BEGIN:VCALENDAR" = true
  /\ JS.includes calendarWithDuplicateStart "END:VCALENDAR" = true
  /\ ICalParser.parseICalContent host calendarWithDuplicateStart participantName random
     = Throws (ICalParseError
                 "Failed to parse iCal content: dateTimeStr.endsWith is not a function")
  /\ exists calendar,
       ICalParser.parseICalContent host calendarWithMissingStart participantName random
       = Returns calendar
       /\ map ICalParser.id (ICalParser.pc_events calendar) = [ICalParser.PStr "e2"].
Proof.
  split; [reflexivity|]. split; [reflexivity|]. split; [vm_compute; reflexivity|].
  eexists. split; [vm_compute; reflexivity | reflexivity].
Qed.

(** ** The primitives on small inputs *)

Example split_lines_sample :
  JS.split_lines (String "a" (String JS.CR (String JS.LF (String "b" (String JS.LF "c")))))
  = ["a"; "b"; "c"]%string.
Proof. reflexivity. Qed.

Example preprocessICalContent_unfolds :
  ICalParser.preprocessICalContent
    (joinLines ["SUMMARY:Weekly"; "  sync"; ""; "UID:e1 "]%string)
  = ["SUMMARY:Weekly sync"; "UID:e1"]%string.
Proof. reflexivity. Qed.

Example parseComponents_repeated_name :
  ICalParser.parseComponents
    ["BEGIN:VEVENT"; "UID:e1"; "EXDATE:20240101"; "EXDATE;TZID=UTC:20240102"; "END:VEVENT"]%string
  = [ICalParser.mkComponent "VEVENT"
       [("UID", ICalParser.PStr "e1");
        ("EXDATE", ICalParser.PArr ["20240101"; "EXDATE;TZID=UTC:20240102"])]%string].
Proof. reflexivity. Qed.

Example durationMs_sample : ICalParser.durationMs "PT2H30M" = Some (150 * MS_PER_MINUTE).
Proof. reflexivity. Qed.

Example matchTZID_sample :
  ICalParser.matchTZID "DTSTART;TZID=Europe/Paris:20240115T100000" = Some "Europe/Paris"%string.
Proof. reflexivity. Qed.

Example Z_toString_sample :
  map RecurrenceExpander.Z_toString [0; 7; 1705276800000; -42]
  = ["0"; "7"; "1705276800000"; "-42"]%string.
Proof. reflexivity. Qed.

(** [RRule.YEARLY] is 0, which [||] takes for false: a yearly rule is read
    as weekly as well. *)
Example mapFrequency_samples :
  map ICalParser.mapFrequency [Some "DAILY"; Some "YEARLY"; Some "FORTNIGHTLY"; None]%string
  = map ICalParser.TNumber
      [ICalParser.DAILY; ICalParser.WEEKLY; ICalParser.WEEKLY; ICalParser.WEEKLY].
Proof. reflexivity. Qed.

(** Monday 15 January 2024 is a Monday, and the Saturday after it is part
    of the weekend. *)
Example weekday_samples :
  MeetingScheduler.getDay monday = 1
  /\ MeetingScheduler.isWeekend monday = false
  /\ MeetingScheduler.isWeekend (monday + 5 * MS_PER_DAY) = true
  /\ MeetingScheduler.getHours (monday + 13 * MS_PER_HOUR + 15 * MS_PER_MINUTE) = 13
  /\ MeetingScheduler.getMinutes (monday + 13 * MS_PER_HOUR + 15 * MS_PER_MINUTE) = 15.
Proof. repeat split; reflexivity. Qed.

(* ================================================================== *)
(** * Part III: further properties of the code                        *)
(* ================================================================== *)

(** ** MeetingScheduler: the candidates of a day *)

Section CandidateFacts.

Import MeetingScheduler.

Variables (preferences : MeetingPreferences) (slotDuration : Z)
          (busyPeriods : list (string * list BusyPeriod)).

(** What the loop of [generateDaySlots] produces, whatever the fuel: the
    starts are the instants [cur + k * 15 min] for which the slot and its
    buffer end by [dayEnd], in increasing order, and each slot is the
    candidate built for its start. *)
Lemma daySlotsLoop_slots (dayEnd : Date) (fuel : nat) : forall cur slots,
  daySlotsLoop fuel cur dayEnd preferences slotDuration busyPeriods = Returns slots ->
  (forall t, In t (map slot_start slots)
             <-> exists k, 0 <= k /\ t = cur + k * (15 * MS_PER_MINUTE)
                           /\ addMinutes t slotDuration <= dayEnd)
  /\ Forall (fun t => cur <= t) (map slot_start slots)
  /\ StronglySorted Z.lt (map slot_start slots)
  /\ Forall (fun s => s = candidateAt preferences busyPeriods (slot_start s)) slots.
Proof.
  induction fuel as [|fuel IH]; intros cur slots; cbn [daySlotsLoop];
    destruct (addMinutes cur slotDuration <=? dayEnd) eqn:Hc; try discriminate.
  - intros H; inversion H; subst; clear H. apply Z.leb_gt in Hc.
    split; [|repeat split; constructor].
    intros t; split; [intros [] |].
    intros (k & Hk & -> & Hfit). unfold addMinutes, MS_PER_MINUTE in *. lia.
  - apply Z.leb_le in Hc.
    destruct (daySlotsLoop fuel (addMinutes cur 15) dayEnd preferences slotDuration
                busyPeriods) as [rest| |] eqn:Hrest; try discriminate.
    cbn [bind]. intros H; inversion H; subst; clear H.
    destruct (IH _ _ Hrest) as (Hiff & Hge & Hsorted & Hshape).
    cbn [map slot_start]. split; [intros t; split|repeat split].
    + intros [<- | Hin].
      * exists 0. repeat split; [lia | lia | exact Hc].
      * apply Hiff in Hin. destruct Hin as (k & Hk & -> & Hfit).
        exists (k + 1). unfold addMinutes in *. repeat split; try lia.
    + intros (k & Hk & -> & Hfit).
      destruct (Z.eq_dec k 0) as [-> | Hnz]; [left; lia|].
      right. apply Hiff. exists (k - 1). unfold addMinutes in *.
      repeat split; try lia.
    + constructor; [lia|]. eapply Forall_impl; [|exact Hge].
      intros t Ht. cbv beta in Ht. unfold addMinutes, MS_PER_MINUTE in Ht. lia.
    + constructor; [exact Hsorted|]. eapply Forall_impl; [|exact Hge].
      intros t Ht. cbv beta in Ht. unfold addMinutes, MS_PER_MINUTE in Ht. lia.
    + constructor; [reflexivity | exact Hshape].
  - intros H; inversion H; subst; clear H. apply Z.leb_gt in Hc.
    split; [|repeat split; constructor].
    intros t; split; [intros [] |].
    intros (k & Hk & -> & Hfit). unfold addMinutes, MS_PER_MINUTE in *. lia.
Qed.

End CandidateFacts.

(** X3. When both times of day parse, [generateDaySlots] returns, and its
    slots start exactly at the instants a whole number of quarters of an
    hour after the opening time for which the meeting and its buffer end
    by the closing time; they come in increasing order, each lasts the
    meeting's duration (the buffer is not part of the slot), and each
    carries the conflicts of its own window. *)
Theorem generateDaySlots_grid (date : Date) (preferences : MeetingPreferences)
    (slotDuration : Z) (busyPeriods : list (string * list BusyPeriod))
    (startHour startMinute endHour endMinute : Z) :
  MeetingScheduler.parseHourMinute (timeRangeStart preferences)
  = Some (startHour, startMinute) ->
  MeetingScheduler.parseHourMinute (timeRangeEnd preferences)
  = Some (endHour, endMinute) ->
  exists slots,
    MeetingScheduler.generateDaySlots date preferences slotDuration busyPeriods
    = Returns slots
    /\ (forall t,
          In t (map slot_start slots)
          <-> exists k,
                0 <= k
                /\ t = MeetingScheduler.setHours date startHour startMinute
                       + k * (15 * MS_PER_MINUTE)
                /\ MeetingScheduler.addMinutes t slotDuration
                   <= MeetingScheduler.setHours date endHour endMinute)
    /\ StronglySorted Z.lt (map slot_start slots)
    /\ Forall (fun s =>
                 slot_end s
                 = MeetingScheduler.addMinutes (slot_start s) (duration preferences)
                 /\ conflicts s
                    = MeetingScheduler.findSlotConflicts (slot_start s) (slot_end s)
                        busyPeriods)
              slots.
Proof.
  intros Hs He.
  destruct (generateDaySlots_returns preferences slotDuration busyPeriods date)
    as [slots Hslots].
  exists slots. split; [exact Hslots|].
  unfold MeetingScheduler.generateDaySlots in Hslots. rewrite Hs, He in Hslots.
  destruct (daySlotsLoop_slots _ _ _ _ _ _ _ Hslots) as (Hiff & _ & Hsorted & Hshape).
  split; [exact Hiff|]. split; [exact Hsorted|].
  eapply Forall_impl; [|exact Hshape]. intros s Hsh. cbv beta in Hsh.
  rewrite Hsh. unfold candidateAt. cbn [slot_start slot_end conflicts]. auto.
Qed.

(** Business hours 09:00 to 10:30 and a slot of an hour and a half with
    its buffer: the one candidate of the day starts at 09:00. *)
Lemma generateDaySlots_grid_witness :
  exists slots,
    MeetingScheduler.generateDaySlots monday
      (mkPreferences 60 "09:00" "10:30" true [] 30 []) 90 []
    = Returns slots
    /\ map slot_start slots = [monday + 9 * MS_PER_HOUR]
    /\ map slot_end slots = [monday + 10 * MS_PER_HOUR].
Proof.
  destruct (generateDaySlots_grid monday
              (mkPreferences 60 "09:00" "10:30" true [] 30 []) 90 [] 9 0 10 30
              eq_refl eq_refl) as (slots & Hslots & _).
  exists slots. split; [exact Hslots|].
  vm_compute in Hslots. inversion Hslots. split; reflexivity.
Defined.

(** ** MeetingScheduler: the days that are searched *)

Section DayFacts.

Import MeetingScheduler.

Variables (preferences : MeetingPreferences) (slotDuration : Z)
          (busyPeriods : list (string * list BusyPeriod)).

Lemma existsb_false_Forall {A : Type} (f : A -> bool) (l : list A) :
  existsb f l = false -> Forall (fun x => f x = false) l.
Proof.
  induction l as [|x t IH]; simpl; [constructor|].
  intros H. apply orb_false_iff in H. destruct H as [Hx Ht]. constructor; auto.
Qed.

(** Every slot that the loop of [findCandidateTimeSlots] collects was
    generated for a day it did not skip. *)
Lemma daysLoop_slots (endDate : Date) (fuel : nat) : forall cur slots,
  daysLoop fuel cur endDate preferences slotDuration busyPeriods = Returns slots ->
  Forall (fun s =>
            exists day daySlots,
              (exists k, 0 <= k /\ day = cur + k * MS_PER_DAY)
              /\ day <= endDate
              /\ (excludeWeekends preferences = true -> isWeekend day = false)
              /\ Forall (fun date => startOfDay date <> startOfDay day)
                        (excludedDates preferences)
              /\ generateDaySlots day preferences slotDuration busyPeriods
                 = Returns daySlots
              /\ In s daySlots)
         slots.
Proof.
  induction fuel as [|fuel IH]; intros cur slots; cbn [daysLoop];
    destruct (cur <=? endDate) eqn:Hc; try discriminate;
    try (intros H; inversion H; subst; constructor).
  apply Z.leb_le in Hc.
  assert (Hnext : forall rest,
             daysLoop fuel (addMinutes cur (24 * 60)) endDate preferences slotDuration
               busyPeriods = Returns rest ->
             Forall (fun s =>
                       exists day daySlots,
                         (exists k, 0 <= k /\ day = cur + k * MS_PER_DAY)
                         /\ day <= endDate
                         /\ (excludeWeekends preferences = true -> isWeekend day = false)
                         /\ Forall (fun date => startOfDay date <> startOfDay day)
                                   (excludedDates preferences)
                         /\ generateDaySlots day preferences slotDuration busyPeriods
                            = Returns daySlots
                         /\ In s daySlots)
                    rest).
  { intros rest Hrest. eapply Forall_impl; [|apply (IH _ _ Hrest)].
    intros s (day & daySlots & (k & Hk & Hday) & Hrestp).
    exists day, daySlots. split; [|exact Hrestp].
    exists (k + 1). split; [lia|]. rewrite Hday.
    unfold addMinutes, MS_PER_DAY, MS_PER_HOUR, MS_PER_MINUTE. lia. }
  destruct (excludeWeekends preferences && isWeekend cur) eqn:Hweek; [apply Hnext|].
  destruct (existsb (fun date => startOfDay date =? startOfDay cur)
                    (excludedDates preferences)) eqn:Hex; [apply Hnext|].
  destruct (generateDaySlots cur preferences slotDuration busyPeriods)
    as [daySlots| |] eqn:Hday; try discriminate.
  cbn [bind].
  destruct (daysLoop fuel (addMinutes cur (24 * 60)) endDate preferences slotDuration
              busyPeriods) as [rest| |] eqn:Hrest; try discriminate.
  cbn [bind]. intros H; inversion H; subst; clear H.
  apply Forall_app. split; [|apply Hnext; reflexivity].
  apply Forall_forall. intros s Hin. exists cur, daySlots.
  split; [exists 0; lia|]. split; [exact Hc|]. split.
  - intros Hw. rewrite Hw in Hweek. exact Hweek.
  - split; [|auto].
    eapply Forall_impl; [|apply (existsb_false_Forall _ _ Hex)].
    intros date Hd. cbv beta in Hd. apply Z.eqb_neq in Hd. exact Hd.
Qed.

End DayFacts.

Lemma findCandidateTimeSlots_days (searchRange : DateRange)
    (preferences : MeetingPreferences) (busyPeriods : list (string * list BusyPeriod)) :
  exists slots,
    MeetingScheduler.findCandidateTimeSlots searchRange preferences busyPeriods
    = Returns slots
    /\ Forall (fun s =>
                 exists day daySlots,
                   searchedDay searchRange preferences day
                   /\ MeetingScheduler.generateDaySlots day preferences
                        (duration preferences + bufferTime preferences) busyPeriods
                      = Returns daySlots
                   /\ In s daySlots)
              slots.
Proof.
  destruct (findCandidateTimeSlots_returns searchRange preferences busyPeriods)
    as [slots Hslots].
  exists slots. split; [exact Hslots|].
  unfold MeetingScheduler.findCandidateTimeSlots in Hslots.
  eapply Forall_impl; [|apply (daysLoop_slots _ _ _ _ _ _ _ Hslots)].
  intros s (day & daySlots & Hk & Hle & Hweek & Hex & Hgen & Hin).
  exists day, daySlots. unfold searchedDay. auto.
Qed.

(** X4. [findCandidateTimeSlots] returns, and every candidate it returns
    was generated by [generateDaySlots] for one of the searched days: a
    whole number of days after the first day of the search range and not
    after its last, never a Saturday or Sunday when weekends are excluded,
    and never the day of an excluded date. *)
Theorem findCandidateTimeSlots_searched_days (searchRange : DateRange)
    (preferences : MeetingPreferences) (busyPeriods : list (string * list BusyPeriod)) :
  exists slots,
    MeetingScheduler.findCandidateTimeSlots searchRange preferences busyPeriods
    = Returns slots
    /\ Forall (fun s =>
                 exists day daySlots,
                   searchedDay searchRange preferences day
                   /\ MeetingScheduler.generateDaySlots day preferences
                        (duration preferences + bufferTime preferences) busyPeriods
                      = Returns daySlots
                   /\ In s daySlots)
              slots.
Proof. apply findCandidateTimeSlots_days. Qed.

(** A search from Friday to the Monday after it with weekends excluded:
    no candidate on Saturday or Sunday, 29 on each of the two other days. *)
Example findCandidateTimeSlots_skips_weekend :
  exists slots,
    MeetingScheduler.findCandidateTimeSlots
      (mkRange (monday + 4 * MS_PER_DAY) (monday + 7 * MS_PER_DAY + MS_PER_HOUR))
      defaultPreferences []
    = Returns slots
    /\ map (fun s => (slot_start s - monday) / MS_PER_DAY) slots
       = repeat 4 29 ++ repeat 7 29.
Proof. eexists. split; [vm_compute; reflexivity | reflexivity]. Qed.

(** ** MeetingScheduler: the slots of a result *)

Section SlotFacts.

Import MeetingScheduler.

Lemma mapSet_length {A : Type} (m : list (string * A)) (k : string) (v : A) :
  (List.length (mapSet m k v) <= S (List.length m))%nat.
Proof.
  induction m as [|[k' v'] t IH]; simpl; [lia|].
  destruct (String.eqb k' k); simpl; lia.
Qed.

Lemma mapSet_in {A : Type} (m : list (string * A)) (k : string) (v : A)
    (k' : string) (v' : A) :
  In (k', v') (mapSet m k v) -> (k' = k /\ v' = v) \/ In (k', v') m.
Proof.
  induction m as [|[k0 v0] t IH]; simpl.
  - intros [H | []]. inversion H; auto.
  - destruct (String.eqb k0 k); simpl.
    + intros [H | H]; [inversion H; auto | auto].
    + intros [H | H]; [auto | destruct (IH H); auto].
Qed.

Variables (calendarProcessor : CalendarProcessorObject) (searchRange : DateRange).

Lemma collectBusyPeriods_length (participants : list ParticipantCalendar) :
  forall acc busyPeriods,
    collectBusyPeriods calendarProcessor participants searchRange acc
    = Returns busyPeriods ->
    (List.length busyPeriods <= List.length acc + List.length participants)%nat.
Proof.
  induction participants as [|p rest IH]; intros acc busy; cbn [collectBusyPeriods].
  - intros H; inversion H; subst. simpl. lia.
  - destruct (getBusyPeriods calendarProcessor) as [method|]; [|discriminate].
    destruct (method (events p) searchRange) as [periods| |]; try discriminate.
    cbn [bind]. intros H. apply IH in H.
    pose proof (mapSet_length acc (participantId p) periods). simpl. lia.
Qed.

(** Every entry of the map of busy periods holds what the processor
    reported for a participant with that id. *)
Lemma collectBusyPeriods_origin
    (method : list CalendarEvent -> DateRange -> Outcome (list BusyPeriod))
    (all : list ParticipantCalendar) (participants : list ParticipantCalendar) :
  getBusyPeriods calendarProcessor = Some method ->
  incl participants all ->
  forall acc busyPeriods,
    collectBusyPeriods calendarProcessor participants searchRange acc
    = Returns busyPeriods ->
    (forall k v, In (k, v) acc ->
                 exists p, In p all /\ participantId p = k
                           /\ method (events p) searchRange = Returns v) ->
    forall k v, In (k, v) busyPeriods ->
                exists p, In p all /\ participantId p = k
                          /\ method (events p) searchRange = Returns v.
Proof.
  intros Hm. induction participants as [|p rest IH]; intros Hincl acc busy;
    cbn [collectBusyPeriods].
  - intros H; inversion H; subst. auto.
  - rewrite Hm.
    destruct (method (events p) searchRange) as [periods| |] eqn:Hp; try discriminate.
    cbn [bind]. intros H Hacc. eapply IH; [|exact H|].
    + intros x Hx. apply Hincl. right. exact Hx.
    + intros k v Hin. apply mapSet_in in Hin. destruct Hin as [[-> ->] | Hin].
      * exists p. split; [apply Hincl; left; reflexivity | auto].
      * apply Hacc, Hin.
Qed.

Lemma findSlotConflicts_length (slotStart slotEnd : Date)
    (busyPeriods : list (string * list BusyPeriod)) :
  (List.length (findSlotConflicts slotStart slotEnd busyPeriods)
   <= List.length busyPeriods)%nat.
Proof.
  unfold findSlotConflicts. rewrite length_map. apply filter_length_le.
Qed.

Lemma findSlotConflicts_in (slotStart slotEnd : Date)
    (busyPeriods : list (string * list BusyPeriod)) (pid : string) :
  In pid (findSlotConflicts slotStart slotEnd busyPeriods)
  <-> exists periods period,
        In (pid, periods) busyPeriods /\ In period periods
        /\ slotStart < bp_end period /\ bp_start period < slotEnd.
Proof.
  unfold findSlotConflicts, periodsOverlap. rewrite in_map_iff. split.
  - intros ([k periods] & <- & Hin). apply filter_In in Hin. destruct Hin as [Hin Hex].
    apply existsb_exists in Hex. destruct Hex as (period & Hp & Hov).
    apply andb_true_iff in Hov. destruct Hov as [H1 H2].
    apply Z.ltb_lt in H1, H2. exists periods, period. auto.
  - intros (periods & period & Hin & Hp & H1 & H2).
    exists (pid, periods). split; [reflexivity|].
    apply filter_In. split; [exact Hin|]. apply existsb_exists.
    exists period. split; [exact Hp|]. apply andb_true_iff.
    split; apply Z.ltb_lt; assumption.
Qed.

End SlotFacts.

Lemma clamp_range (x : Q) : (0 <= MeetingScheduler.clamp x <= 100)%Q.
Proof.
  unfold MeetingScheduler.clamp. split; [apply Q.le_max_l|].
  apply Q.max_lub; [discriminate | apply Q.le_min_l].
Qed.

Lemma clamp_at_least (x b : Q) :
  (b <= 100)%Q -> (b <= x)%Q -> (b <= MeetingScheduler.clamp x)%Q.
Proof.
  intros Hb Hx. unfold MeetingScheduler.clamp.
  eapply Qle_trans; [|apply Q.le_max_r]. apply Q.min_glb; assumption.
Qed.

(** With no more conflicts than participants the penalty is at most 50,
    and the score at least 50. *)
Lemma scoreOf_at_least_50 (slot : TimeSlot) (preferences : MeetingPreferences)
    (participants : list ParticipantCalendar) :
  participants <> [] ->
  (List.length (conflicts slot) <= List.length participants)%nat ->
  (50 <= MeetingScheduler.scoreOf slot preferences participants)%Q.
Proof.
  intros Hne Hlen. unfold MeetingScheduler.scoreOf.
  apply clamp_at_least; [discriminate|].
  pose proof (timeBonus_nonneg slot preferences) as Htime.
  pose proof (timezoneBonus_nonneg preferences participants) as Hzone.
  assert (Hpos : (0 < MeetingScheduler.count_Q participants)%Q).
  { unfold MeetingScheduler.count_Q. change 0%Q with (inject_Z 0). rewrite <- Zlt_Qlt.
    destruct participants; [congruence | simpl; lia]. }
  assert (Hratio : (MeetingScheduler.count_Q (conflicts slot)
                    / MeetingScheduler.count_Q participants <= 1)%Q).
  { apply Qle_shift_div_r; [exact Hpos|]. rewrite Qmult_1_l.
    apply count_Q_le, Hlen. }
  set (ratio := (MeetingScheduler.count_Q (conflicts slot)
                 / MeetingScheduler.count_Q participants)%Q) in *.
  lra.
Qed.

(** X1. In every result that [scheduleOptimalMeeting] returns, every
    available slot (and so every recommendation) lasts exactly the
    requested duration, lists at most as many conflicting participants as
    there are participants, and, for preferences whose two times of day
    differ, has a score between 50 and 100.  (For equal times of day the
    time bonus is a division by zero and the score can be [NaN].) *)
Theorem scheduleOptimalMeeting_slot_invariants
    (calendarProcessor : CalendarProcessorObject) (fmt : Formatter)
    (participants : list ParticipantCalendar) (preferences : MeetingPreferences)
    (searchRange : DateRange) (result : SchedulingResult) :
  MeetingScheduler.scheduleOptimalMeeting calendarProcessor fmt
    participants preferences searchRange = Returns result ->
  Forall (fun slot =>
            slot_end slot
            = MeetingScheduler.addMinutes (slot_start slot) (duration preferences)
            /\ (List.length (conflicts slot) <= List.length participants)%nat
            /\ (timesOfDayDiffer preferences = true -> (50 <= score slot <= 100)%Q))
         (availableSlots result)
  /\ incl (recommendations result) (availableSlots result).
Proof.
  intros Hres.
  assert (Hne : participants <> []).
  { intros ->. unfold MeetingScheduler.scheduleOptimalMeeting in Hres. discriminate. }
  destruct (scheduleOptimalMeeting_result _ _ _ _ _ _ Hres)
    as (busy & candidates & Hb & Hc & Hav & Hrec).
  split; [|rewrite Hrec; intros s; apply firstn_incl].
  rewrite Hav. apply Forall_forall. intros slot Hin. apply sort_by_in in Hin.
  unfold MeetingScheduler.scoreTimeSlots in Hin. apply in_map_iff in Hin.
  destruct Hin as (cand & <- & Hcand). cbn [slot_start slot_end conflicts score].
  destruct (findCandidateTimeSlots_days searchRange preferences busy)
    as (slots & Hslots & Hall).
  rewrite Hc in Hslots. inversion Hslots; subst slots; clear Hslots.
  rewrite Forall_forall in Hall.
  destruct (Hall cand Hcand) as (day & daySlots & _ & Hgen & Hday).
  unfold MeetingScheduler.generateDaySlots in Hgen.
  assert (Hshape : cand = candidateAt preferences busy (slot_start cand)).
  { destruct (MeetingScheduler.parseHourMinute (timeRangeStart preferences))
      as [[sh sm]|];
      [destruct (MeetingScheduler.parseHourMinute (timeRangeEnd preferences))
         as [[eh em]|]|];
      try (inversion Hgen; subst; destruct Hday).
    destruct (daySlotsLoop_slots _ _ _ _ _ _ _ Hgen) as (_ & _ & _ & Hsh).
    rewrite Forall_forall in Hsh. apply Hsh, Hday. }
  assert (Hlen : (List.length (conflicts cand) <= List.length participants)%nat).
  { rewrite Hshape. unfold candidateAt. cbn [conflicts].
    eapply Nat.le_trans; [apply findSlotConflicts_length|].
    apply (collectBusyPeriods_length calendarProcessor searchRange participants [] busy Hb). }
  split; [rewrite Hshape; reflexivity|]. split; [exact Hlen|]. intros _. split.
  - apply scoreOf_at_least_50; assumption.
  - apply clamp_range.
Qed.

(** The request of the tests with user 1 busy in the morning. *)
Lemma scheduleOptimalMeeting_slot_invariants_witness :
  exists result,
    MeetingScheduler.scheduleOptimalMeeting morningProcessor plainFormatter
      [busyUser1; user2] defaultPreferences (mkRange monday (monday + 17 * MS_PER_HOUR))
    = Returns result
    /\ Forall (fun slot => (50 <= score slot <= 100)%Q) (availableSlots result)
    /\ incl (recommendations result) (availableSlots result).
Proof.
  destruct (scheduleOptimalMeeting_returns morningProcessor plainFormatter
              [busyUser1; user2] defaultPreferences
              (mkRange monday (monday + 17 * MS_PER_HOUR)) _ eq_refl eq_refl)
    as [result Hres].
  exists result. split; [exact Hres|].
  destruct (scheduleOptimalMeeting_slot_invariants _ _ _ _ _ _ Hres) as [Hall Hincl].
  split; [|exact Hincl].
  eapply Forall_impl; [|exact Hall]. intros slot H. apply H. reflexivity.
Defined.

(** X5. A participant id is listed among the conflicts of a slot of a
    returned result only if the calendar processor reported, for a
    participant with that id, a busy period that overlaps the slot
    strictly: a period that merely touches the slot is no conflict. *)
Theorem scheduleOptimalMeeting_conflicts_sound
    (calendarProcessor : CalendarProcessorObject) (fmt : Formatter)
    (participants : list ParticipantCalendar) (preferences : MeetingPreferences)
    (searchRange : DateRange) (result : SchedulingResult)
    (method : list CalendarEvent -> DateRange -> Outcome (list BusyPeriod)) :
  getBusyPeriods calendarProcessor = Some method ->
  MeetingScheduler.scheduleOptimalMeeting calendarProcessor fmt
    participants preferences searchRange = Returns result ->
  forall slot pid,
    In slot (availableSlots result) ->
    In pid (conflicts slot) ->
    exists participant periods period,
      In participant participants
      /\ participantId participant = pid
      /\ method (events participant) searchRange = Returns periods
      /\ In period periods
      /\ slot_start slot < bp_end period
      /\ bp_start period < slot_end slot.
Proof.
  intros Hm Hres slot pid Hslot Hpid.
  destruct (scheduleOptimalMeeting_result _ _ _ _ _ _ Hres)
    as (busy & candidates & Hb & Hc & Hav & Hrec).
  rewrite Hav in Hslot. apply sort_by_in in Hslot.
  unfold MeetingScheduler.scoreTimeSlots in Hslot. apply in_map_iff in Hslot.
  destruct Hslot as (cand & <- & Hcand).
  cbn [slot_start slot_end conflicts] in *.
  destruct (findCandidateTimeSlots_days searchRange preferences busy)
    as (slots & Hslots & Hall).
  rewrite Hc in Hslots. inversion Hslots; subst slots; clear Hslots.
  rewrite Forall_forall in Hall.
  destruct (Hall cand Hcand) as (day & daySlots & _ & Hgen & Hday).
  unfold MeetingScheduler.generateDaySlots in Hgen.
  assert (Hshape : cand = candidateAt preferences busy (slot_start cand)).
  { destruct (MeetingScheduler.parseHourMinute (timeRangeStart preferences))
      as [[sh sm]|];
      [destruct (MeetingScheduler.parseHourMinute (timeRangeEnd preferences))
         as [[eh em]|]|];
      try (inversion Hgen; subst; destruct Hday).
    destruct (daySlotsLoop_slots _ _ _ _ _ _ _ Hgen) as (_ & _ & _ & Hsh).
    rewrite Forall_forall in Hsh. apply Hsh, Hday. }
  rewrite Hshape in Hpid. unfold candidateAt in Hpid. cbn [conflicts] in Hpid.
  apply findSlotConflicts_in in Hpid.
  destruct Hpid as (periods & period & Hin & Hp & H1 & H2).
  destruct (collectBusyPeriods_origin calendarProcessor searchRange method
              participants participants Hm (incl_refl _) [] busy Hb
              (fun k v (H : In (k, v) []) => match H with end) pid periods Hin)
    as (participant & Hpart & Hid & Hper).
  exists participant, periods, period.
  rewrite Hshape. unfold candidateAt. cbn [slot_start slot_end]. auto 10.
Qed.

(** With user 1 busy from 09:00 to 10:00 the slot of 09:30 lists user 1. *)
Lemma scheduleOptimalMeeting_conflicts_sound_witness :
  exists result slot,
    MeetingScheduler.scheduleOptimalMeeting morningProcessor plainFormatter
      [busyUser1; user2] defaultPreferences (mkRange monday (monday + 17 * MS_PER_HOUR))
    = Returns result
    /\ In slot (availableSlots result)
    /\ conflicts slot = ["user1"%string]
    /\ exists participant periods period,
         In participant [busyUser1; user2]
         /\ participantId participant = "user1"%string
         /\ In period periods
         /\ slot_start slot < bp_end period
         /\ bp_start period < slot_end slot.
Proof.
  do 2 eexists. split; [vm_compute; reflexivity|].
  assert (Hres : MeetingScheduler.scheduleOptimalMeeting morningProcessor plainFormatter
                   [busyUser1; user2] defaultPreferences
                   (mkRange monday (monday + 17 * MS_PER_HOUR)) = Returns _)
    by (vm_compute; reflexivity).
  split; [do 28 right; left; reflexivity|]. split; [reflexivity|].
  destruct (scheduleOptimalMeeting_conflicts_sound morningProcessor plainFormatter
              [busyUser1; user2] defaultPreferences
              (mkRange monday (monday + 17 * MS_PER_HOUR)) _ _ eq_refl Hres
              _ "user1"%string
              (ltac:(do 28 right; left; reflexivity)) (or_introl eq_refl))
    as (participant & periods & period & H1 & H2 & _ & H4 & H5 & H6).
  exists participant, periods, period. auto.
Defined.

(** X6. The total that [analyzeConflicts] reports is the sum, over the
    slots, of the numbers of conflicting participants. *)
Theorem analyzeConflicts_total (slots : list TimeSlot)
    (participants : list ParticipantCalendar) :
  totalConflicts (MeetingScheduler.analyzeConflicts slots participants)
  = conflictTotal slots.
Proof.
  unfold MeetingScheduler.analyzeConflicts.
  match goal with
  | |- context [fold_left ?f slots (0, ?init, [])] =>
      set (step := f); set (initial := init)
  end.
  assert (Hfold : forall l acc,
             fst (fst (fold_left step l acc)) = fst (fst acc) + conflictTotal l).
  { induction l as [|slot rest IH]; intros [[t pp] bs]; cbn [fold_left conflictTotal fold_right].
    - cbn [fst]. lia.
    - rewrite IH. unfold step. cbn [fst]. fold (conflictTotal rest). lia. }
  specialize (Hfold slots (0, initial, [])).
  destruct (fold_left step slots (0, initial, [])) as [[t pp] bs].
  cbn [fst totalConflicts] in *. lia.
Qed.

(** X2. Whatever [scheduleOptimalMeeting] throws is a [SchedulingError]:
    an error of any other kind, thrown by the calendar processor or because
    its method is missing, is wrapped with the code [SCHEDULING_FAILED]. *)
Theorem scheduleOptimalMeeting_throws_only_SchedulingError
    (calendarProcessor : CalendarProcessorObject) (fmt : Formatter)
    (participants : list ParticipantCalendar) (preferences : MeetingPreferences)
    (searchRange : DateRange) (e : Exn) :
  MeetingScheduler.scheduleOptimalMeeting calendarProcessor fmt
    participants preferences searchRange = Throws e ->
  (exists message code, e = SchedulingError message code)
  /\ (MeetingScheduler.validateInputs participants preferences searchRange = Returns tt ->
      (forall method, getBusyPeriods calendarProcessor = Some method ->
                      forall events range message code,
                        method events range <> Throws (SchedulingError message code)) ->
      exists message, e = SchedulingError message "SCHEDULING_FAILED").
Proof.
  unfold MeetingScheduler.scheduleOptimalMeeting. intros H. split.
  - unfold try_catch in H.
    match type of H with
    | match ?body with _ => _ end = _ => destruct body as [r|err|]; try discriminate
    end.
    destruct err; inversion H; eauto.
  - intros Hv Hproc. rewrite Hv in H. cbn [bind] in H.
    assert (Hbusy : forall ps acc err,
               MeetingScheduler.collectBusyPeriods calendarProcessor ps searchRange acc
               = Throws err ->
               forall message code, err <> SchedulingError message code).
    { induction ps as [|p rest IH]; intros acc err;
        cbn [MeetingScheduler.collectBusyPeriods]; [discriminate|].
      destruct (getBusyPeriods calendarProcessor) as [method|] eqn:Hm.
      - destruct (method (events p) searchRange) as [periods|err'|] eqn:Hp;
          cbn [bind]; try discriminate.
        + apply IH.
        + intros Herr message code ->. inversion Herr; subst.
          eapply Hproc; eauto.
      - intros Herr message code ->. discriminate. }
    unfold MeetingScheduler.getAllBusyPeriods in H.
    destruct (MeetingScheduler.collectBusyPeriods calendarProcessor participants
                searchRange []) as [busy|err|] eqn:Hb; cbn [bind try_catch] in H.
    + destruct (findCandidateTimeSlots_returns searchRange preferences busy)
        as [slots Hslots].
      rewrite Hslots in H. cbn [bind] in H.
      destruct (MeetingScheduler.getTopRecommendations _ _) in H. discriminate.
    + pose proof (Hbusy _ _ _ Hb) as Hne.
      destruct err; inversion H; eauto. exfalso. eapply Hne. reflexivity.
    + discriminate.
Qed.

(** The scheduler as shipped, on the request of the tests. *)
Lemma scheduleOptimalMeeting_throws_only_SchedulingError_witness :
  exists message code,
    MeetingScheduler.scheduleOptimalMeeting shippedProcessor plainFormatter
      [user1; user2] defaultPreferences (mkRange monday (monday + 17 * MS_PER_HOUR))
    = Throws (SchedulingError message code)
    /\ code = "SCHEDULING_FAILED"%string.
Proof.
  assert (H : MeetingScheduler.scheduleOptimalMeeting shippedProcessor plainFormatter
                [user1; user2] defaultPreferences
                (mkRange monday (monday + 17 * MS_PER_HOUR))
              = Throws (SchedulingError
                          "Failed to schedule meeting: this.calendarProcessor.getBusyPeriods is not a function"
                          "SCHEDULING_FAILED"))
    by reflexivity.
  destruct (scheduleOptimalMeeting_throws_only_SchedulingError _ _ _ _ _ _ H)
    as [_ Hcode].
  destruct Hcode as [message Hm]; [reflexivity | discriminate |].
  exists message, "SCHEDULING_FAILED"%string. rewrite <- Hm. split; [exact H | reflexivity].
Defined.

(** ** Times of day *)

Section TimeOfDayFacts.

Import MeetingScheduler.

Ltac split_bits :=
  repeat match goal with
         | |- context [match ?b with true => _ | false => _ end] => is_var b; destruct b
         end.

Lemma inRange_digit (hi c : ascii) :
  (Ascii.nat_of_ascii hi <= 57)%nat ->
  inRange "0" hi c = true ->
  JS.isDigit c = true /\ Ascii.eqb c ":" = false
  /\ 0 <= JS.digitVal c <= Z.of_nat (Ascii.nat_of_ascii hi) - 48.
Proof.
  unfold inRange, JS.isDigit, JS.digitVal. intros Hhi H.
  apply andb_true_iff in H. destruct H as [H1 H2].
  apply Nat.leb_le in H1, H2. change (nat_of_ascii "0") with 48%nat in H1.
  split; [|split].
  - apply andb_true_iff. split; apply Nat.leb_le; lia.
  - apply Ascii.eqb_neq. intros ->. change (nat_of_ascii ":") with 58%nat in *. lia.
  - lia.
Qed.

(** The strings the pattern accepts: [H:MM] or [HH:MM]. *)
Lemma timeRegex_shape (s : string) :
  timeRegex_test s = true ->
  (exists h1 m1 m2,
      s = String h1 (String ":" (String m1 (String m2 EmptyString)))
      /\ inRange "0" "9" h1 && (inRange "0" "5" m1 && inRange "0" "9" m2) = true)
  \/ (exists h1 h2 m1 m2,
        s = String h1 (String h2 (String ":" (String m1 (String m2 EmptyString))))
        /\ ((inRange "0" "1" h1 && inRange "0" "9" h2)
            || (Ascii.eqb h1 "2" && inRange "0" "3" h2))
           && (inRange "0" "5" m1 && inRange "0" "9" m2) = true).
Proof.
  unfold timeRegex_test.
  destruct s as [|h1 [|c2 [|c3 [|c4 [|c5 [|c6 r]]]]]]; try discriminate.
  - destruct c2 as [b0 b1 b2 b3 b4 b5 b6 b7]. split_bits; discriminate.
  - destruct c2 as [b0 b1 b2 b3 b4 b5 b6 b7]. split_bits; try discriminate.
    all: destruct c3 as [a0 a1 a2 a3 a4 a5 a6 a7]; split_bits; try discriminate.
  - destruct c2 as [b0 b1 b2 b3 b4 b5 b6 b7]. split_bits; try discriminate.
    all: try (destruct c3 as [a0 a1 a2 a3 a4 a5 a6 a7]; split_bits; try discriminate).
    all: intros H; left; do 3 eexists; split; [reflexivity | exact H].
  - destruct c2 as [b0 b1 b2 b3 b4 b5 b6 b7]. split_bits; try discriminate.
    all: try (destruct c3 as [a0 a1 a2 a3 a4 a5 a6 a7]; split_bits; try discriminate).
    all: intros H; right; do 4 eexists; split; [reflexivity | exact H].
  - destruct c2 as [b0 b1 b2 b3 b4 b5 b6 b7]. split_bits; try discriminate.
    all: try (destruct c3 as [a0 a1 a2 a3 a4 a5 a6 a7]; split_bits; try discriminate).
Qed.

Lemma parseHourMinute_short (h1 m1 m2 : ascii) :
  JS.isDigit h1 = true -> Ascii.eqb h1 ":" = false ->
  JS.isDigit m1 = true -> Ascii.eqb m1 ":" = false ->
  JS.isDigit m2 = true -> Ascii.eqb m2 ":" = false ->
  parseHourMinute (String h1 (String ":" (String m1 (String m2 EmptyString))))
  = Some (JS.digitVal h1, 10 * JS.digitVal m1 + JS.digitVal m2).
Proof.
  intros D1 E1 D2 E2 D3 E3.
  unfold parseHourMinute, JS.split. cbn [JS.split_aux].
  rewrite E1, E2, E3. change (Ascii.eqb ":" ":") with true. cbv iota.
  cbn [JS.rev_string String.append map JS.Number JS.span_digits].
  rewrite D1, D2, D3. cbn [JS.span_digits JS.digits_value].
  f_equal; f_equal; lia.
Qed.

Lemma parseHourMinute_long (h1 h2 m1 m2 : ascii) :
  JS.isDigit h1 = true -> Ascii.eqb h1 ":" = false ->
  JS.isDigit h2 = true -> Ascii.eqb h2 ":" = false ->
  JS.isDigit m1 = true -> Ascii.eqb m1 ":" = false ->
  JS.isDigit m2 = true -> Ascii.eqb m2 ":" = false ->
  parseHourMinute (String h1 (String h2 (String ":" (String m1 (String m2 EmptyString)))))
  = Some (10 * JS.digitVal h1 + JS.digitVal h2, 10 * JS.digitVal m1 + JS.digitVal m2).
Proof.
  intros D1 E1 D2 E2 D3 E3 D4 E4.
  unfold parseHourMinute, JS.split. cbn [JS.split_aux].
  rewrite E1, E2, E3, E4. change (Ascii.eqb ":" ":") with true. cbv iota.
  cbn [JS.rev_string String.append map JS.Number JS.span_digits].
  rewrite D1, D2, D3, D4. cbn [JS.span_digits JS.digits_value].
  f_equal; f_equal; lia.
Qed.

End TimeOfDayFacts.

Lemma timeRegex_parse (s : string) :
  MeetingScheduler.timeRegex_test s = true ->
  exists hour minute,
    MeetingScheduler.parseHourMinute s = Some (hour, minute)
    /\ 0 <= hour <= 23 /\ 0 <= minute <= 59.
Proof.
  intros H. destruct (timeRegex_shape s H)
    as [(h1 & m1 & m2 & -> & Hc) | (h1 & h2 & m1 & m2 & -> & Hc)].
  - apply andb_true_iff in Hc. destruct Hc as [Hh Hm].
    apply andb_true_iff in Hm. destruct Hm as [Hm1 Hm2].
    destruct (inRange_digit "9" h1) as (D1 & E1 & B1); [apply Nat.leb_le; reflexivity | exact Hh|].
    destruct (inRange_digit "5" m1) as (D2 & E2 & B2); [apply Nat.leb_le; reflexivity | exact Hm1|].
    destruct (inRange_digit "9" m2) as (D3 & E3 & B3); [apply Nat.leb_le; reflexivity | exact Hm2|].
    rewrite (parseHourMinute_short h1 m1 m2) by assumption.
    do 2 eexists. split; [reflexivity|]. change (Z.of_nat (nat_of_ascii "9") - 48) with 9 in *;
      change (Z.of_nat (nat_of_ascii "5") - 48) with 5 in *;
      change (Z.of_nat (nat_of_ascii "3") - 48) with 3 in *;
      change (Z.of_nat (nat_of_ascii "1") - 48) with 1 in *; lia.
  - apply andb_true_iff in Hc. destruct Hc as [Hh Hm].
    apply andb_true_iff in Hm. destruct Hm as [Hm1 Hm2].
    destruct (inRange_digit "5" m1) as (D3 & E3 & B3); [apply Nat.leb_le; reflexivity | exact Hm1|].
    destruct (inRange_digit "9" m2) as (D4 & E4 & B4); [apply Nat.leb_le; reflexivity | exact Hm2|].
    apply orb_true_iff in Hh. destruct Hh as [Hh | Hh];
      apply andb_true_iff in Hh; destruct Hh as [Hh1 Hh2].
    + destruct (inRange_digit "1" h1) as (D1 & E1 & B1); [apply Nat.leb_le; reflexivity | exact Hh1|].
      destruct (inRange_digit "9" h2) as (D2 & E2 & B2); [apply Nat.leb_le; reflexivity | exact Hh2|].
      rewrite (parseHourMinute_long h1 h2 m1 m2) by assumption.
      do 2 eexists. split; [reflexivity|]. change (Z.of_nat (nat_of_ascii "9") - 48) with 9 in *;
      change (Z.of_nat (nat_of_ascii "5") - 48) with 5 in *;
      change (Z.of_nat (nat_of_ascii "3") - 48) with 3 in *;
      change (Z.of_nat (nat_of_ascii "1") - 48) with 1 in *; lia.
    + apply Ascii.eqb_eq in Hh1. subst h1.
      destruct (inRange_digit "3" h2) as (D2 & E2 & B2); [apply Nat.leb_le; reflexivity | exact Hh2|].
      rewrite (parseHourMinute_long "2" h2 m1 m2) by (assumption || reflexivity).
      do 2 eexists. split; [reflexivity|].
      change (JS.digitVal "2") with 2.
      change (Z.of_nat (nat_of_ascii "9") - 48) with 9 in *;
      change (Z.of_nat (nat_of_ascii "5") - 48) with 5 in *;
      change (Z.of_nat (nat_of_ascii "3") - 48) with 3 in *;
      change (Z.of_nat (nat_of_ascii "1") - 48) with 1 in *; lia.
Qed.

(** X7. A time of day that the pattern of [validateInputs] accepts is read
    by the scheduler ([split(":").map(Number)]) as an hour from 0 to 23 and a
    minute from 0 to 59: after validation no time of day is [NaN] or out of
    the day. *)
Theorem timeRegex_accepted_parses (s : string) :
  MeetingScheduler.timeRegex_test s = true ->
  exists hour minute,
    MeetingScheduler.parseHourMinute s = Some (hour, minute)
    /\ 0 <= hour <= 23 /\ 0 <= minute <= 59.
Proof. apply timeRegex_parse. Qed.

Lemma timeRegex_accepted_parses_witness :
  exists hour minute,
    MeetingScheduler.parseHourMinute "23:59" = Some (hour, minute)
    /\ 0 <= hour <= 23 /\ 0 <= minute <= 59.
Proof. apply (timeRegex_accepted_parses "23:59"). reflexivity. Defined.

(** ** The analysis route *)

Section RouteFacts.

Import MeetingScheduler AnalyzeRoute.

Lemma minOf_bounds (l : list Z) : forall d,
  minOf d l <= d /\ Forall (fun x => minOf d l <= x) l.
Proof.
  unfold minOf. induction l as [|x t IH]; intros d; cbn [fold_left].
  - split; [lia | constructor].
  - destruct (IH (Z.min d x)) as [H1 H2]. split; [lia|].
    constructor; [lia | exact H2].
Qed.

Lemma maxOf_bounds (l : list Z) : forall d,
  d <= maxOf d l /\ Forall (fun x => x <= maxOf d l) l.
Proof.
  unfold maxOf. induction l as [|x t IH]; intros d; cbn [fold_left].
  - split; [lia | constructor].
  - destruct (IH (Z.max d x)) as [H1 H2]. split; [lia|].
    constructor; [lia | exact H2].
Qed.

Lemma event_dates_in (evs : list CalendarEvent) (e : CalendarEvent) :
  In e evs ->
  In (ev_start e) (flat_map (fun e => [ev_start e; ev_end e]) evs)
  /\ In (ev_end e) (flat_map (fun e => [ev_start e; ev_end e]) evs).
Proof.
  intros H. split; apply in_flat_map; exists e; simpl; auto.
Qed.

Lemma widen_spans (st : option Date * option Date) (seen : list ParticipantCalendar)
    (p : ParticipantCalendar) :
  spans st seen -> spans (widen st p) (seen ++ [p]).
Proof.
  intros Hst. unfold widen.
  destruct (flat_map (fun e => [ev_start e; ev_end e]) (events p)) as [|d ds] eqn:Hdates.
  - assert (Hnone : events p = []).
    { destruct (events p); [reflexivity | discriminate]. }
    destruct st as [[earliest|] [latest|]]; cbn [spans] in *; try contradiction.
    + destruct Hst as [Hsome Hall]. split.
      * intros H. apply Hsome. apply Forall_app in H. tauto.
      * apply Forall_app. split; [exact Hall|]. constructor; [|constructor].
        rewrite Hnone. constructor.
    + apply Forall_app. split; [exact Hst | repeat constructor; exact Hnone].
  - assert (Hsome : ~ Forall (fun q => events q = []) (seen ++ [p])).
    { intros H. apply Forall_app in H. destruct H as [_ H]. inversion H as [|? ? Hp _].
      rewrite Hp in Hdates. discriminate. }
    destruct (minOf_bounds ds d) as [Hmin1 Hmin2].
    destruct (maxOf_bounds ds d) as [Hmax1 Hmax2].
    assert (Hp : forall lo hi,
               lo <= minOf d ds -> maxOf d ds <= hi ->
               Forall (fun e => lo <= ev_start e /\ lo <= ev_end e
                                /\ ev_start e <= hi /\ ev_end e <= hi) (events p)).
    { intros lo hi Hlo Hhi. apply Forall_forall. intros e He.
      destruct (event_dates_in _ _ He) as [Hs He'].
      rewrite Hdates in Hs, He'. rewrite Forall_forall in Hmin2, Hmax2.
      assert (Hb : forall x, In x (d :: ds) -> minOf d ds <= x <= maxOf d ds).
      { intros x [<- | Hx]; [lia|]. pose proof (Hmin2 x Hx). pose proof (Hmax2 x Hx). lia. }
      pose proof (Hb _ Hs). pose proof (Hb _ He'). lia. }
    destruct st as [[earliest|] [latest|]]; cbn [spans fst snd] in *; try contradiction.
    + destruct Hst as [_ Hall].
      destruct (minOf d ds <? earliest) eqn:Hlo; destruct (latest <? maxOf d ds) eqn:Hhi;
        rewrite ?Z.ltb_lt, ?Z.ltb_ge in *; cbn [spans];
        (split; [exact Hsome|]); apply Forall_app;
        (split; [|constructor; [apply Hp; lia | constructor]]);
        (eapply Forall_impl; [|exact Hall]); intros q Hq; cbv beta in Hq;
        (eapply Forall_impl; [|exact Hq]); intros e He; cbv beta in He; lia.
    + split; [exact Hsome|]. apply Forall_app. split.
      * eapply Forall_impl; [|exact Hst]. intros q Hq. cbv beta in Hq.
        rewrite Hq. constructor.
      * constructor; [apply Hp; lia | constructor].
Qed.

Lemma fold_widen_spans (ps : list ParticipantCalendar) : forall st seen,
  spans st seen -> spans (fold_left widen ps st) (seen ++ ps).
Proof.
  induction ps as [|p rest IH]; intros st seen Hst; cbn [fold_left].
  - now rewrite app_nil_r.
  - replace (seen ++ p :: rest) with ((seen ++ [p]) ++ rest)
      by (rewrite <- app_assoc; reflexivity).
    apply IH, widen_spans, Hst.
Qed.

Lemma endOfDay_ge (d : Date) : d <= endOfDay d.
Proof.
  unfold endOfDay, startOfDay, MS_PER_DAY, MS_PER_HOUR, MS_PER_MINUTE.
  pose proof (Z.mod_pos_bound d (24 * (60 * (60 * 1000)))). lia.
Qed.

Lemma startOfDay_le (d : Date) : startOfDay d <= d.
Proof.
  unfold startOfDay, MS_PER_DAY, MS_PER_HOUR, MS_PER_MINUTE.
  pose proof (Z.mod_pos_bound d (24 * (60 * (60 * 1000)))). lia.
Qed.

Lemma startOfDay_monotone (a b : Date) : a <= b -> startOfDay a <= startOfDay b.
Proof.
  intros H. unfold startOfDay, MS_PER_DAY, MS_PER_HOUR, MS_PER_MINUTE.
  assert (Hdiv : a / (24 * (60 * (60 * 1000))) <= b / (24 * (60 * (60 * 1000))))
    by (apply Z.div_le_mono; lia).
  pose proof (Z.div_mod a (24 * (60 * (60 * 1000)))).
  pose proof (Z.div_mod b (24 * (60 * (60 * 1000)))). lia.
Qed.

End RouteFacts.

Lemma calculateSearchRange_facts (now : Date) (participants : list ParticipantCalendar) :
  (AnalyzeRoute.calculateSearchRange now participants = None
   <-> Forall (fun p => events p = []) participants)
  /\ (forall searchRange,
        AnalyzeRoute.calculateSearchRange now participants = Some searchRange ->
        MeetingScheduler.startOfDay now <= range_start searchRange
        /\ MeetingScheduler.startOfDay (range_start searchRange) = range_start searchRange
        /\ range_start searchRange + 30 * MS_PER_DAY <= range_end searchRange
        /\ Forall (fun p =>
                     Forall (fun e => ev_start e <= range_end searchRange
                                      /\ ev_end e <= range_end searchRange)
                            (events p))
                  participants).
Proof.
  unfold AnalyzeRoute.calculateSearchRange.
  assert (Hinit : spans (None, None) []) by constructor.
  pose proof (fold_widen_spans participants (None, None) [] Hinit) as Hsp.
  cbn [app] in Hsp.
  destruct (fold_left AnalyzeRoute.widen participants (None, None))
    as [[earliest|] [latest|]]; cbn [spans] in Hsp; try contradiction.
  - destruct Hsp as [Hsome Hall]. split; [split; [discriminate | tauto]|].
    intros searchRange H. inversion H; subst; clear H. cbn [range_start range_end].
    set (today := MeetingScheduler.startOfDay now).
    set (searchStart := if today <? earliest then MeetingScheduler.startOfDay earliest
                        else today).
    assert (Hstart : today <= searchStart
                     /\ MeetingScheduler.startOfDay searchStart = searchStart).
    { subst searchStart. destruct (today <? earliest) eqn:Hlt.
      - apply Z.ltb_lt in Hlt. split; [|apply startOfDay_idempotent].
        replace today with (MeetingScheduler.startOfDay today)
          by (subst today; apply startOfDay_idempotent).
        apply startOfDay_monotone. lia.
      - split; [lia|]. subst today. apply startOfDay_idempotent. }
    destruct Hstart as [Hge Hidem].
    set (defaultEnd := RecurrenceExpander.addDays searchStart 30).
    assert (Hend : defaultEnd
                   <= (if defaultEnd <? latest then MeetingScheduler.endOfDay latest
                       else MeetingScheduler.endOfDay defaultEnd)
                   /\ latest
                      <= (if defaultEnd <? latest then MeetingScheduler.endOfDay latest
                          else MeetingScheduler.endOfDay defaultEnd)).
    { destruct (defaultEnd <? latest) eqn:Hlt;
        [apply Z.ltb_lt in Hlt | apply Z.ltb_ge in Hlt].
      - pose proof (endOfDay_ge latest). lia.
      - pose proof (endOfDay_ge defaultEnd). lia. }
    destruct Hend as [Hend1 Hend2].
    split; [exact Hge|]. split; [exact Hidem|]. split.
    + exact Hend1.
    + eapply Forall_impl; [|exact Hall]. intros p Hp. cbv beta in Hp.
      eapply Forall_impl; [|exact Hp]. intros e He. cbv beta in He.
      split; [apply Z.le_trans with latest | apply Z.le_trans with latest];
        solve [lia | exact Hend2].
  - split; [split; [intros _; exact Hsp | reflexivity]|]. discriminate.
Qed.



(** What the route's validation guarantees about accepted preferences. *)
Lemma validateMeetingPreferences_accepted (preferences : MeetingPreferences) :
  AnalyzeRoute.validateMeetingPreferences preferences = None ->
  0 < duration preferences <= 480
  /\ 0 <= bufferTime preferences <= 60
  /\ exists startHour startMinute endHour endMinute,
       MeetingScheduler.parseHourMinute (timeRangeStart preferences)
       = Some (startHour, startMinute)
       /\ MeetingScheduler.parseHourMinute (timeRangeEnd preferences)
          = Some (endHour, endMinute)
       /\ (0 <= startHour <= 23 /\ 0 <= startMinute <= 59)
       /\ (0 <= endHour <= 23 /\ 0 <= endMinute <= 59)
       /\ startHour * 60 + startMinute < endHour * 60 + endMinute.
Proof.
  unfold AnalyzeRoute.validateMeetingPreferences.
  destruct ((duration preferences =? 0) || (duration preferences <=? 0)) eqn:Hd;
    [discriminate|].
  apply orb_false_iff in Hd. destruct Hd as [_ Hd]. apply Z.leb_gt in Hd.
  destruct (8 * 60 <? duration preferences) eqn:Hmax; [discriminate|].
  apply Z.ltb_ge in Hmax.
  destruct (MeetingScheduler.timeRegex_test (timeRangeStart preferences)) eqn:Hs;
    [|discriminate].
  destruct (MeetingScheduler.timeRegex_test (timeRangeEnd preferences)) eqn:He;
    [|discriminate].
  cbn [negb].
  destruct (timeRegex_parse _ Hs) as (sh & sm & Hps & Hsh & Hsm).
  destruct (timeRegex_parse _ He) as (eh & em & Hpe & Heh & Hem).
  rewrite Hps, Hpe.
  destruct (eh * 60 + em <=? sh * 60 + sm) eqn:Hlt; [discriminate|].
  apply Z.leb_gt in Hlt.
  destruct (bufferTime preferences <? 0) eqn:Hb0; [discriminate|].
  apply Z.ltb_ge in Hb0.
  destruct (60 <? bufferTime preferences) eqn:Hb1; [discriminate|].
  apply Z.ltb_ge in Hb1.
  intros _. split; [lia|]. split; [lia|].
  exists sh, sm, eh, em. repeat split; try assumption; lia.
Qed.

(** The instants of one day all have that day as their start. *)
Lemma startOfDay_within (day t : Date) :
  day mod MS_PER_DAY = 0 -> day <= t < day + MS_PER_DAY ->
  MeetingScheduler.startOfDay t = day.
Proof.
  intros Hday Ht. unfold MeetingScheduler.startOfDay.
  assert (Hr : t - day = t mod MS_PER_DAY).
  { apply Z.mod_unique_pos with (q := day / MS_PER_DAY); [lia|].
    pose proof (Z.div_mod day MS_PER_DAY) as Hdm.
    unfold MS_PER_DAY, MS_PER_HOUR, MS_PER_MINUTE in *. lia. }
  lia.
Qed.

Lemma startOfDay_aligned (d : Date) : MeetingScheduler.startOfDay d mod MS_PER_DAY = 0.
Proof.
  unfold MeetingScheduler.startOfDay.
  rewrite Zminus_mod_idemp_r, Z.sub_diag. reflexivity.
Qed.

Lemma searchedDay_aligned (searchRange : DateRange) (preferences : MeetingPreferences)
    (day : Date) :
  searchedDay searchRange preferences day -> day mod MS_PER_DAY = 0.
Proof.
  intros ((k & _ & ->) & _).
  rewrite Z.mod_add by (unfold MS_PER_DAY, MS_PER_HOUR, MS_PER_MINUTE; lia).
  apply startOfDay_aligned.
Qed.

Lemma getDay_startOfDay (d : Date) :
  MeetingScheduler.getDay (MeetingScheduler.startOfDay d) = MeetingScheduler.getDay d.
Proof.
  unfold MeetingScheduler.getDay, MeetingScheduler.startOfDay. f_equal. f_equal.
  pose proof (Z.div_mod d MS_PER_DAY) as Hdm.
  replace (d - d mod MS_PER_DAY) with (d / MS_PER_DAY * MS_PER_DAY)
    by (unfold MS_PER_DAY, MS_PER_HOUR, MS_PER_MINUTE in *; lia).
  apply Z.div_mul. unfold MS_PER_DAY, MS_PER_HOUR, MS_PER_MINUTE. lia.
Qed.

Lemma route_request_valid (now : Date)
    (participants : list ParticipantCalendar) (preferences : MeetingPreferences)
    (searchRange : DateRange) :
  AnalyzeRoute.validateMeetingPreferences preferences = None ->
  AnalyzeRoute.calculateSearchRange now participants = Some searchRange ->
  MeetingScheduler.validateInputs participants preferences searchRange = Returns tt.
Proof.
  intros Hv Hr. apply validateInputs_accepts.
  destruct (calculateSearchRange_facts now participants) as [Hnone Hsome].
  destruct (Hsome _ Hr) as (_ & _ & Hlen & _).
  split.
  { intros ->. assert (Hn : AnalyzeRoute.calculateSearchRange now [] = None)
      by reflexivity. congruence. }
  unfold AnalyzeRoute.validateMeetingPreferences in Hv.
  destruct ((duration preferences =? 0) || (duration preferences <=? 0)) eqn:Hd;
    [discriminate|].
  apply orb_false_iff in Hd. destruct Hd as [_ Hd]. apply Z.leb_gt in Hd.
  destruct (8 * 60 <? duration preferences); [discriminate|].
  destruct (MeetingScheduler.timeRegex_test (timeRangeStart preferences));
    [|discriminate].
  destruct (MeetingScheduler.timeRegex_test (timeRangeEnd preferences));
    [|discriminate].
  split; [exact Hd|]. split; [|split; reflexivity].
  unfold MS_PER_DAY, MS_PER_HOUR, MS_PER_MINUTE in Hlen. lia.
Qed.

(** X9. A request that the route lets through is never rejected by the
    scheduler's own validation: when [validateMeetingPreferences] returns
    null and [calculateSearchRange] returns a range, [validateInputs]
    accepts the participants, the preferences and that range. *)
Theorem validateInputs_accepts_route_request (now : Date)
    (participants : list ParticipantCalendar) (preferences : MeetingPreferences)
    (searchRange : DateRange) :
  AnalyzeRoute.validateMeetingPreferences preferences = None ->
  AnalyzeRoute.calculateSearchRange now participants = Some searchRange ->
  MeetingScheduler.validateInputs participants preferences searchRange = Returns tt.
Proof. apply route_request_valid. Qed.

Lemma validateInputs_accepts_route_request_witness :
  MeetingScheduler.validateInputs [busyUser1; user2] defaultPreferences sampleSearchRange
  = Returns tt.
Proof.
  apply (validateInputs_accepts_route_request (monday + 8 * MS_PER_HOUR)).
  - reflexivity.
  - vm_compute; reflexivity.
Defined.

(** X10. For preferences that the route's validation accepts, every
    candidate of [findCandidateTimeSlots] lies inside the business hours of
    its own day: it starts at or after the opening time, ends after it
    starts, and ends with its buffer by the closing time, so that it never
    runs past midnight; its day is one of the days from the first to the
    last day of the search range, not a Saturday or Sunday when weekends
    are excluded, and not the day of an excluded date. *)
Theorem findCandidateTimeSlots_within_business_hours (searchRange : DateRange)
    (preferences : MeetingPreferences) (busyPeriods : list (string * list BusyPeriod))
    (slots : list TimeSlot) :
  AnalyzeRoute.validateMeetingPreferences preferences = None ->
  MeetingScheduler.findCandidateTimeSlots searchRange preferences busyPeriods
  = Returns slots ->
  exists startHour startMinute endHour endMinute,
    MeetingScheduler.parseHourMinute (timeRangeStart preferences)
    = Some (startHour, startMinute)
    /\ MeetingScheduler.parseHourMinute (timeRangeEnd preferences)
       = Some (endHour, endMinute)
    /\ Forall (fun s =>
                 let day := MeetingScheduler.startOfDay (slot_start s) in
                 MeetingScheduler.setHours day startHour startMinute <= slot_start s
                 /\ slot_start s < slot_end s
                 /\ MeetingScheduler.addMinutes (slot_end s) (bufferTime preferences)
                    <= MeetingScheduler.setHours day endHour endMinute
                 /\ MeetingScheduler.startOfDay (slot_end s) = day
                 /\ MeetingScheduler.startOfDay (range_start searchRange) <= day
                 /\ slot_end s <= MeetingScheduler.endOfDay (range_end searchRange)
                 /\ (excludeWeekends preferences = true ->
                     MeetingScheduler.isWeekend (slot_start s) = false)
                 /\ Forall (fun date => MeetingScheduler.startOfDay date <> day)
                           (excludedDates preferences))
              slots.
Proof.
  intros Hv Hslots.
  destruct (validateMeetingPreferences_accepted _ Hv)
    as (Hd & Hb & sh & sm & eh & em & Hps & Hpe & (Hsh & Hsm) & (Heh & Hem) & Hlt).
  exists sh, sm, eh, em. split; [exact Hps|]. split; [exact Hpe|].
  destruct (findCandidateTimeSlots_days searchRange preferences busyPeriods)
    as (slots' & Heq & Hall).
  rewrite Hslots in Heq. inversion Heq; subst slots'; clear Heq.
  eapply Forall_impl; [|exact Hall].
  intros s (day & daySlots & Hsd & Hgen & Hin).
  pose proof (searchedDay_aligned _ _ _ Hsd) as Haligned.
  destruct Hsd as ((k & Hk & Hday) & Hlast & Hweek & Hex).
  unfold MeetingScheduler.generateDaySlots in Hgen. rewrite Hps, Hpe in Hgen.
  destruct (daySlotsLoop_slots _ _ _ _ _ _ _ Hgen) as (Hiff & _ & _ & Hshape).
  rewrite Forall_forall in Hshape. pose proof (Hshape _ Hin) as Hs.
  assert (Hstart : In (slot_start s) (map slot_start daySlots)) by (apply in_map; exact Hin).
  apply Hiff in Hstart. destruct Hstart as (j & Hj & Ht & Hfit).
  assert (Hend : slot_end s
                 = MeetingScheduler.addMinutes (slot_start s) (duration preferences)).
  { rewrite Hs at 1. reflexivity. }
  assert (Hsod : MeetingScheduler.startOfDay day = day).
  { unfold MeetingScheduler.startOfDay. rewrite Haligned. lia. }
  unfold MeetingScheduler.setHours in Ht, Hfit. rewrite Hsod in Ht, Hfit.
  unfold MeetingScheduler.addMinutes in Hfit, Hend.
  assert (Hin_day : day <= slot_start s /\ slot_end s < day + MS_PER_DAY).
  { unfold MS_PER_DAY, MS_PER_HOUR, MS_PER_MINUTE in *. lia. }
  assert (Hday_start : MeetingScheduler.startOfDay (slot_start s) = day).
  { apply startOfDay_within; [exact Haligned|].
    unfold MS_PER_DAY, MS_PER_HOUR, MS_PER_MINUTE in *. lia. }
  assert (Hday_end : MeetingScheduler.startOfDay (slot_end s) = day).
  { apply startOfDay_within; [exact Haligned|].
    unfold MS_PER_DAY, MS_PER_HOUR, MS_PER_MINUTE in *. lia. }
  cbv zeta. rewrite Hday_start, Hday_end.
  unfold MeetingScheduler.setHours, MeetingScheduler.addMinutes. rewrite Hsod.
  split; [unfold MS_PER_DAY, MS_PER_HOUR, MS_PER_MINUTE in *; lia|].
  split; [unfold MS_PER_DAY, MS_PER_HOUR, MS_PER_MINUTE in *; lia|].
  split; [unfold MS_PER_DAY, MS_PER_HOUR, MS_PER_MINUTE in *; lia|].
  split; [reflexivity|].
  split; [unfold MS_PER_DAY, MS_PER_HOUR, MS_PER_MINUTE in *; lia|].
  split.
  { pose proof (startOfDay_aligned (range_end searchRange)) as Hre.
    unfold MeetingScheduler.endOfDay in *.
    pose proof (Z.div_mod day MS_PER_DAY) as Hd1.
    pose proof (Z.div_mod (MeetingScheduler.startOfDay (range_end searchRange))
                  MS_PER_DAY) as Hd2.
    unfold MS_PER_DAY, MS_PER_HOUR, MS_PER_MINUTE in *. lia. }
  split.
  { intros Hw. specialize (Hweek Hw). unfold MeetingScheduler.isWeekend in *.
    rewrite <- Hday_start in Hweek. rewrite getDay_startOfDay in Hweek. exact Hweek. }
  eapply Forall_impl; [|exact Hex]. intros date Hne. cbv beta in Hne.
  rewrite Hsod in Hne. exact Hne.
Qed.

(** The default preferences over the Monday morning and afternoon. *)
Lemma findCandidateTimeSlots_within_business_hours_witness :
  exists slots startHour startMinute endHour endMinute,
    MeetingScheduler.findCandidateTimeSlots (mkRange monday (monday + 17 * MS_PER_HOUR))
      defaultPreferences []
    = Returns slots
    /\ slots <> []
    /\ MeetingScheduler.parseHourMinute (timeRangeStart defaultPreferences)
       = Some (startHour, startMinute)
    /\ MeetingScheduler.parseHourMinute (timeRangeEnd defaultPreferences)
       = Some (endHour, endMinute)
    /\ Forall (fun s =>
                 MeetingScheduler.setHours (MeetingScheduler.startOfDay (slot_start s))
                   startHour startMinute <= slot_start s
                 /\ MeetingScheduler.addMinutes (slot_end s)
                      (bufferTime defaultPreferences)
                    <= MeetingScheduler.setHours
                         (MeetingScheduler.startOfDay (slot_start s)) endHour endMinute)
              slots.
Proof.
  assert (Hres : exists slots,
             MeetingScheduler.findCandidateTimeSlots
               (mkRange monday (monday + 17 * MS_PER_HOUR)) defaultPreferences []
             = Returns slots /\ slots <> []).
  { eexists. split; [vm_compute; reflexivity | discriminate]. }
  destruct Hres as (slots & Hslots & Hne).
  destruct (findCandidateTimeSlots_within_business_hours
              (mkRange monday (monday + 17 * MS_PER_HOUR)) defaultPreferences [] slots
              eq_refl Hslots)
    as (sh & sm & eh & em & Hps & Hpe & Hall).
  exists slots, sh, sm, eh, em.
  split; [exact Hslots|]. split; [exact Hne|]. split; [exact Hps|]. split; [exact Hpe|].
  eapply Forall_impl; [|exact Hall]. intros s H. cbv zeta in H.
  destruct H as (H1 & _ & H3 & _). split; [exact H1 | exact H3].
Defined.
(** ** CalendarProcessor: free time between busy periods *)

Section FreeTimeFacts.

Import CalendarProcessor CalendarProcessorExt.

Lemma StronglySorted_app {A : Type} (R : A -> A -> Prop) (l1 l2 : list A) :
  StronglySorted R l1 -> StronglySorted R l2 ->
  (forall x y, In x l1 -> In y l2 -> R x y) ->
  StronglySorted R (l1 ++ l2).
Proof.
  induction 1 as [|x l1 Hs IH Hall]; intros H2 Hcross; simpl; [exact H2|].
  constructor.
  - apply IH; [exact H2|]. intros a b Ha Hb. apply Hcross; [right; exact Ha | exact Hb].
  - apply Forall_app. split; [exact Hall|].
    apply Forall_forall. intros y Hy. apply Hcross; [left; reflexivity | exact Hy].
Qed.

Variables (durationMs : Z) (dateRange : DateRange) (endTime : Date).

(** The loop before a busy period ends, at a time from which the meeting
    no longer fits before the period; what it pushes lies in the search
    range, fits before the period and comes in increasing order. *)
Lemma gapLoop_spec (limit : Z) (fuel : nat) : forall currentTime,
  (limit - (currentTime + durationMs)) / (15 * 60 * 1000) + 1 <= Z.of_nat fuel ->
  exists slots final,
    gapLoop fuel currentTime durationMs limit dateRange endTime
    = Returns (slots, final)
    /\ currentTime <= final
    /\ Forall (fun t => currentTime <= t < final
                        /\ t + durationMs <= limit
                        /\ range_start dateRange <= t
                        /\ t + durationMs <= endTime) slots
    /\ StronglySorted Z.lt slots.
Proof.
  induction fuel as [|fuel IH]; intros cur Hfuel; cbn [gapLoop].
  - destruct (cur + durationMs <=? limit) eqn:Hc.
    + apply Z.leb_le in Hc. exfalso.
      assert (0 <= (limit - (cur + durationMs)) / (15 * 60 * 1000))
        by (apply Z.div_pos; lia).
      lia.
    + exists [], cur. repeat split; try constructor; lia.
  - destruct (cur + durationMs <=? limit) eqn:Hc.
    + apply Z.leb_le in Hc.
      destruct (IH (cur + 15 * 60 * 1000)) as (rest & final & Hrest & Hle & Hall & Hsorted).
      { replace (limit - (cur + 15 * 60 * 1000 + durationMs))
          with (limit - (cur + durationMs) + (-1) * (15 * 60 * 1000)) by lia.
        rewrite Z.div_add by lia. lia. }
      rewrite Hrest. cbn [bind fst snd].
      assert (Hall' : Forall (fun t => cur <= t < final
                                       /\ t + durationMs <= limit
                                       /\ range_start dateRange <= t
                                       /\ t + durationMs <= endTime) rest).
      { eapply Forall_impl; [|exact Hall]. intros t Ht. cbv beta in Ht. lia. }
      destruct ((range_start dateRange <=? cur) && (cur + durationMs <=? endTime)) eqn:Hin.
      * apply andb_true_iff in Hin. destruct Hin as [H1 H2].
        apply Z.leb_le in H1. apply Z.leb_le in H2.
        exists (cur :: rest), final. split; [reflexivity|]. split; [lia|]. split.
        -- constructor; [lia | exact Hall'].
        -- constructor; [exact Hsorted|].
           eapply Forall_impl; [|exact Hall]. intros t Ht. cbv beta in Ht. lia.
      * exists rest, final. split; [reflexivity|]. split; [lia|]. split; assumption.
    + exists [], cur. repeat split; try constructor; lia.
Qed.

Lemma tailLoop_spec (fuel : nat) : forall currentTime,
  (endTime - (currentTime + durationMs)) / (15 * 60 * 1000) + 1 <= Z.of_nat fuel ->
  exists slots,
    tailLoop fuel currentTime durationMs endTime = Returns slots
    /\ Forall (fun t => currentTime <= t /\ t + durationMs <= endTime) slots
    /\ StronglySorted Z.lt slots.
Proof.
  induction fuel as [|fuel IH]; intros cur Hfuel; cbn [tailLoop].
  - destruct (cur + durationMs <=? endTime) eqn:Hc.
    + apply Z.leb_le in Hc. exfalso.
      assert (0 <= (endTime - (cur + durationMs)) / (15 * 60 * 1000))
        by (apply Z.div_pos; lia).
      lia.
    + exists []. repeat split; constructor.
  - destruct (cur + durationMs <=? endTime) eqn:Hc.
    + apply Z.leb_le in Hc.
      destruct (IH (cur + 15 * 60 * 1000)) as (rest & Hrest & Hall & Hsorted).
      { replace (endTime - (cur + 15 * 60 * 1000 + durationMs))
          with (endTime - (cur + durationMs) + (-1) * (15 * 60 * 1000)) by lia.
        rewrite Z.div_add by lia. lia. }
      rewrite Hrest. cbn [bind]. exists (cur :: rest). split; [reflexivity|]. split.
      * constructor; [lia|].
        eapply Forall_impl; [|exact Hall]. intros t Ht. cbv beta in Ht. lia.
      * constructor; [exact Hsorted|].
        eapply Forall_impl; [|exact Hall]. intros t Ht. cbv beta in Ht. lia.
    + exists []. repeat split; constructor.
Qed.

Lemma loopFuel_enough (currentTime limit : Z) :
  (limit - (currentTime + durationMs)) / (15 * 60 * 1000) + 1
  <= Z.of_nat (loopFuel currentTime durationMs limit).
Proof.
  unfold loopFuel.
  destruct ((limit - (currentTime + durationMs)) / (15 * 60 * 1000) + 1); simpl; lia.
Qed.

(** The loop over busy periods sorted by start: every slot it pushes lies
    in the search range and clear of every period, and it ends at a time
    by which every period has ended. *)
Lemma periodsLoop_spec (periods : list BusyPeriod) : forall currentTime,
  StronglySorted (fun p q => bp_start p <= bp_start q) periods ->
  exists slots final,
    periodsLoop periods currentTime durationMs dateRange endTime
    = Returns (slots, final)
    /\ currentTime <= final
    /\ Forall (fun p => bp_end p <= final) periods
    /\ Forall (fun t => currentTime <= t < final
                        /\ range_start dateRange <= t
                        /\ t + durationMs <= endTime
                        /\ Forall (fun p => t + durationMs <= bp_start p \/ bp_end p <= t)
                                  periods) slots
    /\ StronglySorted Z.lt slots.
Proof.
  induction periods as [|p rest IH]; intros cur Hsorted; cbn [periodsLoop].
  - exists [], cur. repeat split; try constructor; lia.
  - inversion Hsorted as [|? ? Hs Hall]; subst.
    destruct (gapLoop_spec (bp_start p) _ cur (loopFuel_enough cur (bp_start p)))
      as (slots1 & cur1 & Hgap & Hle1 & Hall1 & Hsorted1).
    rewrite Hgap. cbn [bind fst snd].
    destruct (IH (Z.max cur1 (bp_end p)) Hs)
      as (slots2 & final & Hmore & Hle2 & Hends & Hall2 & Hsorted2).
    rewrite Hmore. cbn [bind fst snd].
    exists (slots1 ++ slots2)%list, final. split; [reflexivity|].
    split; [lia|]. split.
    { constructor; [lia | exact Hends]. }
    split.
    + apply Forall_app. split.
      * eapply Forall_impl; [|exact Hall1]. intros t Ht. cbv beta in Ht.
        split; [lia|]. split; [lia|]. split; [lia|].
        constructor; [left; lia|].
        eapply Forall_impl; [|exact Hall]. intros q Hq. cbv beta in Hq. left. lia.
      * eapply Forall_impl; [|exact Hall2]. intros t Ht. cbv beta in Ht.
        destruct Ht as (Ht1 & Ht2 & Ht3 & Ht4).
        split; [lia|]. split; [lia|]. split; [lia|].
        constructor; [right; lia | exact Ht4].
    + apply StronglySorted_app; [exact Hsorted1 | exact Hsorted2 |].
      intros x y Hx Hy. rewrite Forall_forall in Hall1, Hall2.
      pose proof (Hall1 x Hx) as H1. pose proof (Hall2 y Hy) as H2.
      cbv beta in H1, H2. lia.
Qed.

End FreeTimeFacts.

Lemma byPeriodStart_sorted (l : list BusyPeriod) :
  StronglySorted (fun p q => bp_start p <= bp_start q)
                 (JS.sort_by CalendarProcessorExt.byPeriodStart l).
Proof.
  apply Sorted_StronglySorted.
  - intros a b c. lia.
  - assert (Htotal : forall a b, CalendarProcessorExt.byPeriodStart a b = false ->
                                 CalendarProcessorExt.byPeriodStart b a = true).
    { intros a b. unfold CalendarProcessorExt.byPeriodStart.
      rewrite Z.leb_gt, Z.leb_le. lia. }
    pose proof (sort_by_sorted CalendarProcessorExt.byPeriodStart Htotal l) as H.
    induction H as [|x t Hs IH Hhd]; constructor; [exact IH|].
    destruct Hhd as [|y t' Hxy]; constructor.
    unfold CalendarProcessorExt.byPeriodStart in Hxy. apply Z.leb_le in Hxy. exact Hxy.
Qed.

Lemma findFreeTimeSlots_clear (clock : Clock) (tick : nat)
    (calendars : list ParticipantCalendar) (dateRange : DateRange)
    (durationMinutes : Z) :
  exists slots,
    CalendarProcessorExt.findFreeTimeSlots clock tick calendars dateRange
      durationMinutes
    = Returns slots
    /\ StronglySorted Z.lt slots
    /\ Forall (fun t =>
                 range_start dateRange <= t
                 /\ t + durationMinutes * 60 * 1000 <= range_end dateRange
                 /\ Forall (fun p => t + durationMinutes * 60 * 1000 <= bp_start p
                                     \/ bp_end p <= t)
                           (dr_busyPeriods
                              (fst (CalendarProcessorExt.detectConflicts clock tick
                                      calendars (Some dateRange)))))
              slots.
Proof.
  unfold CalendarProcessorExt.findFreeTimeSlots.
  set (busy := dr_busyPeriods
                 (fst (CalendarProcessorExt.detectConflicts clock tick calendars
                         (Some dateRange)))).
  set (durationMs := durationMinutes * 60 * 1000).
  destruct (periodsLoop_spec durationMs dateRange (range_end dateRange)
              (JS.sort_by CalendarProcessorExt.byPeriodStart busy)
              (range_start dateRange) (byPeriodStart_sorted busy))
    as (slots1 & cur1 & Hfound & Hle1 & _ & Hall1 & Hsorted1).
  rewrite Hfound. cbn [bind fst snd].
  destruct (tailLoop_spec durationMs (range_end dateRange) _ cur1
              (loopFuel_enough durationMs cur1 (range_end dateRange)))
    as (slots2 & Htail & Hall2 & Hsorted2).
  rewrite Htail. cbn [bind].
  destruct (periodsLoop_spec durationMs dateRange (range_end dateRange)
              (JS.sort_by CalendarProcessorExt.byPeriodStart busy)
              (range_start dateRange) (byPeriodStart_sorted busy))
    as (slots1' & cur1' & Hfound' & _ & Hends & _).
  rewrite Hfound in Hfound'. inversion Hfound'; subst slots1' cur1'; clear Hfound'.
  exists (slots1 ++ slots2)%list. split; [reflexivity|]. split.
  - apply StronglySorted_app; [exact Hsorted1 | exact Hsorted2 |].
    intros x y Hx Hy. rewrite Forall_forall in Hall1, Hall2.
    pose proof (Hall1 x Hx) as H1. pose proof (Hall2 y Hy) as H2.
    cbv beta in H1, H2. lia.
  - apply Forall_app. split.
    + eapply Forall_impl; [|exact Hall1]. intros t Ht. cbv beta in Ht.
      destruct Ht as (_ & Ht2 & Ht3 & Ht4).
      split; [exact Ht2|]. split; [exact Ht3|].
      apply Forall_forall. intros p Hp. rewrite Forall_forall in Ht4.
      apply Ht4. apply sort_by_in. exact Hp.
    + eapply Forall_impl; [|exact Hall2]. intros t Ht. cbv beta in Ht.
      split; [lia|]. split; [lia|].
      apply Forall_forall. intros p Hp. right.
      rewrite Forall_forall in Hends.
      assert (Hin : In p (JS.sort_by CalendarProcessorExt.byPeriodStart busy))
        by (apply sort_by_in; exact Hp).
      specialize (Hends p Hin). cbv beta in Hends. lia.
Qed.

(** X11. [findFreeTimeSlots] returns for every input.  The start times it
    returns are strictly increasing; a meeting of the given length started
    at any of them lies within the date range and clear of every busy
    period that [detectConflicts] reports for the calendars and that
    range. *)
Theorem findFreeTimeSlots_clear_of_busy_periods (clock : Clock) (tick : nat)
    (calendars : list ParticipantCalendar) (dateRange : DateRange)
    (durationMinutes : Z) :
  exists slots,
    CalendarProcessorExt.findFreeTimeSlots clock tick calendars dateRange
      durationMinutes
    = Returns slots
    /\ StronglySorted Z.lt slots
    /\ Forall (fun t =>
                 range_start dateRange <= t
                 /\ t + durationMinutes * 60 * 1000 <= range_end dateRange
                 /\ Forall (fun p => t + durationMinutes * 60 * 1000 <= bp_start p
                                     \/ bp_end p <= t)
                           (dr_busyPeriods
                              (fst (CalendarProcessorExt.detectConflicts clock tick
                                      calendars (Some dateRange)))))
              slots.
Proof. apply findFreeTimeSlots_clear. Qed.

(** ** CalendarProcessor: what the busy periods contain *)

Section ContainFacts.

Import CalendarProcessor CalendarProcessorExt.

Variable pid : string.

(** The first period of the result starts where [cur] starts and does not
    end before it, and every event lies within one of the periods. *)
Lemma mergeFrom_contains (evs : list CalendarEvent) : forall cur,
  StronglySorted startsInOrder evs ->
  Forall (fun e => bp_start cur <= ev_start e) evs ->
  (exists p rest, mergeFrom pid cur evs = p :: rest
                  /\ bp_start p = bp_start cur /\ bp_end cur <= bp_end p)
  /\ Forall (fun e => exists p, In p (mergeFrom pid cur evs)
                                /\ bp_start p <= ev_start e /\ ev_end e <= bp_end p)
            evs.
Proof.
  induction evs as [|e rest IH]; intros cur Hs Hge; cbn [mergeFrom].
  - split; [|constructor]. exists cur, []. repeat split; lia.
  - inversion Hs as [|? ? Hs' Hall]; subst.
    inversion Hge as [|? ? He Hge']; subst.
    destruct (ev_start e <=? bp_end cur) eqn:Hm.
    + destruct (IH (mkBusy (bp_participantId cur) (bp_start cur)
                           (Z.max (bp_end cur) (ev_end e))
                           (bp_eventIds cur ++ [ev_id e])) Hs' Hge')
        as [(p & tl & Heq & Hps & Hpe) Hrest].
      cbn [bp_start bp_end] in Hps, Hpe.
      split.
      * exists p, tl. repeat split; [exact Heq | exact Hps | lia].
      * constructor; [|exact Hrest].
        exists p. split; [rewrite Heq; left; reflexivity|]. lia.
    + destruct (IH (mkBusy pid (ev_start e) (ev_end e) [ev_id e]) Hs' Hall)
        as [(p & tl & Heq & Hps & Hpe) Hrest].
      cbn [bp_start bp_end] in Hps, Hpe.
      split.
      * exists cur, (mergeFrom pid (mkBusy pid (ev_start e) (ev_end e) [ev_id e]) rest).
        repeat split; lia.
      * constructor.
        -- exists p. split; [right; rewrite Heq; left; reflexivity|]. lia.
        -- eapply Forall_impl; [|exact Hrest]. intros x (q & Hq & Hb). cbv beta.
           exists q. split; [right; exact Hq | exact Hb].
Qed.

End ContainFacts.

(** Every event that is not cancelled lies within one of the busy periods
    of its calendar. *)
Lemma generateBusyPeriods_contains (calendar : ParticipantCalendar) (e : CalendarEvent) :
  In e (events calendar) -> ev_status e <> cancelled ->
  exists p, In p (CalendarProcessor.generateBusyPeriods calendar)
            /\ bp_start p <= ev_start e /\ ev_end e <= bp_end p.
Proof.
  intros Hin Hst. unfold CalendarProcessor.generateBusyPeriods.
  pose proof (sortByStart_sorted
                (filter CalendarProcessor.notCancelled (events calendar))) as Hsorted.
  assert (He : In e (CalendarProcessor.sortByStart
                       (filter CalendarProcessor.notCancelled (events calendar)))).
  { unfold CalendarProcessor.sortByStart. apply sort_by_in. apply filter_In.
    split; [exact Hin | apply notCancelled_iff; exact Hst]. }
  destruct (CalendarProcessor.sortByStart
              (filter CalendarProcessor.notCancelled (events calendar)))
    as [|e0 rest]; [destruct He|].
  inversion Hsorted as [|? ? Hs' Hall]; subst.
  destruct (mergeFrom_contains (participantId calendar) rest
              (mkBusy (participantId calendar) (ev_start e0) (ev_end e0) [ev_id e0])
              Hs' Hall)
    as [(p & tl & Heq & Hps & Hpe) Hrest].
  cbn [bp_start bp_end] in Hps, Hpe.
  destruct He as [<- | He].
  - exists p. split; [rewrite Heq; left; reflexivity|]. lia.
  - rewrite Forall_forall in Hrest. exact (Hrest e He).
Qed.

Lemma expandEvents_with_range (clock : Clock) (dateRange : DateRange)
    (evs : list CalendarEvent) : forall tick,
  CalendarProcessorExt.expandEvents clock tick evs (Some dateRange)
  = (flat_map (expandedWithin dateRange) evs, tick).
Proof.
  induction evs as [|e rest IH]; intros tick; cbn [CalendarProcessorExt.expandEvents flat_map];
    [reflexivity|].
  unfold expandedWithin at 1.
  destruct (ev_recurrence e); rewrite IH; reflexivity.
Qed.

Lemma expandAll_with_range (clock : Clock) (dateRange : DateRange)
    (calendars : list ParticipantCalendar) : forall tick,
  CalendarProcessorExt.expandAll clock tick calendars (Some dateRange)
  = (map (fun calendar =>
            mkCalendar (participantId calendar) (name calendar) (timezone calendar)
                       (flat_map (expandedWithin dateRange) (events calendar))
                       (source calendar))
         calendars,
     tick).
Proof.
  induction calendars as [|c rest IH]; intros tick;
    cbn [CalendarProcessorExt.expandAll map]; [reflexivity|].
  unfold CalendarProcessorExt.expandRecurringEvents.
  rewrite expandEvents_with_range, IH. reflexivity.
Qed.

Lemma detectLoop_lists (expandedCalendars : list ParticipantCalendar) :
  CalendarProcessorExt.detectLoop expandedCalendars
  = (flat_map CalendarProcessor.detectParticipantConflicts expandedCalendars,
     flat_map (fun calendar =>
                 CalendarProcessor.generateBusyPeriods
                   (CalendarProcessorExt.sortedInPlace calendar))
              expandedCalendars).
Proof.
  induction expandedCalendars as [|c rest IH];
    cbn [CalendarProcessorExt.detectLoop flat_map]; [reflexivity|].
  rewrite IH. reflexivity.
Qed.

(** X12. A meeting started at a time that [findFreeTimeSlots] returns
    does not overlap any event, not cancelled, of the calendars as
    [detectConflicts] expands them for the date range: an event without a
    recurrence rule, whatever its dates, and, of a recurring event, the
    occurrences that [expandSingleEvent] yields for the range.  (These
    start at a date of the rule from the start of the range on and are at
    most 1000; an occurrence that began before the range starts, or one
    beyond that number, is not among them and can be overlapped, as
    [findFreeTimeSlots_overlaps_earlier_occurrence] shows.) *)
Theorem findFreeTimeSlots_clear_of_events (clock : Clock) (tick : nat)
    (calendars : list ParticipantCalendar) (dateRange : DateRange)
    (durationMinutes : Z) (slots : list Date)
    (t : Date) (calendar : ParticipantCalendar) (event occurrence : CalendarEvent) :
  CalendarProcessorExt.findFreeTimeSlots clock tick calendars dateRange durationMinutes
  = Returns slots ->
  In t slots ->
  In calendar calendars ->
  In event (events calendar) ->
  In occurrence (expandedWithin dateRange event) ->
  ev_status occurrence <> cancelled ->
  t + durationMinutes * 60 * 1000 <= ev_start occurrence \/ ev_end occurrence <= t.
Proof.
  intros Hslots Ht Hc He Ho Hst.
  destruct (findFreeTimeSlots_clear clock tick calendars dateRange durationMinutes)
    as (slots' & Heq & _ & Hall).
  rewrite Hslots in Heq. inversion Heq; subst slots'; clear Heq.
  rewrite Forall_forall in Hall. destruct (Hall t Ht) as (_ & _ & Hbusy).
  unfold CalendarProcessorExt.detectConflicts in Hbusy.
  rewrite expandAll_with_range, detectLoop_lists in Hbusy. cbn [fst dr_busyPeriods] in Hbusy.
  set (expanded := mkCalendar (participantId calendar) (name calendar) (timezone calendar)
                     (flat_map (expandedWithin dateRange) (events calendar))
                     (source calendar)).
  assert (Hin : In occurrence (events (CalendarProcessorExt.sortedInPlace expanded))).
  { cbn [CalendarProcessorExt.sortedInPlace events expanded].
    unfold CalendarProcessor.sortByStart. apply sort_by_in.
    apply in_flat_map. exists event. split; assumption. }
  destruct (generateBusyPeriods_contains _ _ Hin Hst) as (p & Hp & Hps & Hpe).
  rewrite Forall_forall in Hbusy.
  assert (Hpin : In p (flat_map
                         (fun calendar =>
                            CalendarProcessor.generateBusyPeriods
                              (CalendarProcessorExt.sortedInPlace calendar))
                         (map (fun calendar =>
                                 mkCalendar (participantId calendar) (name calendar)
                                   (timezone calendar)
                                   (flat_map (expandedWithin dateRange) (events calendar))
                                   (source calendar))
                              calendars))).
  { apply in_flat_map. exists expanded. split; [|exact Hp].
    apply in_map_iff. exists calendar. split; [reflexivity | exact Hc]. }
  specialize (Hbusy p Hpin). cbv beta in Hbusy. lia.
Qed.

(** The daily standup from midnight to 01:00, searched over the first
    three hours of its first day: a meeting of an hour from 01:00 is clear
    of the first occurrence. *)
Lemma findFreeTimeSlots_clear_of_events_witness :
  MS_PER_HOUR + 60 * 60 * 1000 <= ev_start firstStandup
  \/ ev_end firstStandup <= MS_PER_HOUR.
Proof.
  assert (H : exists slots,
             CalendarProcessorExt.findFreeTimeSlots mondayClock 0 [standupCalendar]
               firstHours 60
             = Returns slots
             /\ In MS_PER_HOUR slots).
  { eexists. split; [vm_compute; reflexivity | left; reflexivity]. }
  destruct H as (slots & Hslots & Hin).
  apply (findFreeTimeSlots_clear_of_events mondayClock 0 [standupCalendar]
           firstHours 60 slots MS_PER_HOUR standupCalendar dailyStandup firstStandup
           Hslots Hin).
  - left. reflexivity.
  - left. reflexivity.
  - vm_compute. left. reflexivity.
  - discriminate.
Defined.

(** What the expansion leaves out is not avoided: searched from 00:30, the
    occurrence that began at midnight is not expanded, and the first time
    returned, 00:30, lies inside it. *)
Example findFreeTimeSlots_overlaps_earlier_occurrence :
  expandedWithin firstHoursLate dailyStandup = []
  /\ exists slots,
       CalendarProcessorExt.findFreeTimeSlots mondayClock 0 [standupCalendar]
         firstHoursLate 60
       = Returns slots
       /\ In (30 * MS_PER_MINUTE) slots
       /\ ev_start firstStandup < 30 * MS_PER_MINUTE + 60 * 60 * 1000
       /\ 30 * MS_PER_MINUTE < ev_end firstStandup.
Proof.
  split; [reflexivity|]. eexists.
  split; [vm_compute; reflexivity|]. split; [left; reflexivity|].
  split; vm_compute; reflexivity.
Qed.

(** ** CalendarProcessor: when [detectConflicts] reports nothing *)

Lemma ForallOrdPairs_perm {A : Type} (R : A -> A -> Prop) (l l' : list A) :
  (forall a b, R a b -> R b a) ->
  Permutation l l' -> ForallOrdPairs R l -> ForallOrdPairs R l'.
Proof.
  intros Hsym Hperm. induction Hperm as [|x l l' Hp IH|x y l|l l' l'' _ IH1 _ IH2];
    intros H.
  - exact H.
  - inversion H as [|? ? Hx Hl]; subst. constructor.
    + eapply Permutation_Forall; [exact Hp | exact Hx].
    + apply IH, Hl.
  - inversion H as [|? ? Hy Hrest]; subst.
    inversion Hy as [|? ? Hyx Hyl]; subst.
    inversion Hrest as [|? ? Hxl Hl]; subst.
    constructor; [constructor; [apply Hsym; exact Hyx | exact Hxl]|].
    constructor; assumption.
  - apply IH2, IH1, H.
Qed.

Lemma ForallOrdPairs_orderedPairs {A : Type} (R : A -> A -> Prop) (l : list A) :
  ForallOrdPairs R l <-> (forall a b, In (a, b) (orderedPairs l) -> R a b).
Proof.
  induction l as [|x t IH]; cbn [orderedPairs].
  - split; [intros _ a b [] | intros _; constructor].
  - split.
    + intros H a b Hin. inversion H as [|? ? Hx Ht]; subst.
      apply in_app_iff in Hin. destruct Hin as [Hin | Hin].
      * apply in_map_iff in Hin. destruct Hin as (y & Heq & Hy).
        inversion Heq; subst. rewrite Forall_forall in Hx. apply Hx, Hy.
      * apply IH; assumption.
    + intros H. constructor.
      * apply Forall_forall. intros y Hy. apply H. apply in_app_iff. left.
        apply in_map. exact Hy.
      * apply IH. intros a b Hin. apply H. apply in_app_iff. right. exact Hin.
Qed.

(** One calendar: no conflict is found exactly when no two of its events
    overlap, provided each event ends after it starts. *)
Lemma detectParticipantConflicts_none (calendar : ParticipantCalendar) :
  Forall (fun e => ev_start e < ev_end e) (events calendar) ->
  (CalendarProcessor.detectParticipantConflicts calendar = []
   <-> ForallOrdPairs disjointEvents (events calendar)).
Proof.
  intros Hpos. unfold CalendarProcessor.detectParticipantConflicts.
  pose proof (sortByStart_sorted (events calendar)) as Hsorted.
  rewrite (conflictSweep_spec _ _ Hsorted).
  assert (Hperm : Permutation (CalendarProcessor.sortByStart (events calendar))
                              (events calendar))
    by apply sort_by_perm.
  assert (Hsym : forall a b, disjointEvents a b -> disjointEvents b a)
    by (unfold disjointEvents; intros a b; tauto).
  assert (Hpos' : Forall (fun e => ev_start e < ev_end e)
                         (CalendarProcessor.sortByStart (events calendar))).
  { eapply Permutation_Forall; [apply Permutation_sym; exact Hperm | exact Hpos]. }
  assert (Hiff : ForallOrdPairs disjointEvents
                   (CalendarProcessor.sortByStart (events calendar))
                 <-> ForallOrdPairs disjointEvents (events calendar)).
  { split; apply ForallOrdPairs_perm; auto. apply Permutation_sym. exact Hperm. }
  rewrite <- Hiff, ForallOrdPairs_orderedPairs.
  set (sorted := CalendarProcessor.sortByStart (events calendar)) in *.
  assert (Hpair : forall a b, In (a, b) (orderedPairs sorted) ->
                              (reported (a, b) = false <-> disjointEvents a b)).
  { intros a b Hin. destruct (orderedPairs_in _ _ _ Hsorted Hin) as (Ha & Hb & Hab).
    rewrite Forall_forall in Hpos'. pose proof (Hpos' a Ha). pose proof (Hpos' b Hb).
    unfold reported, disjointEvents, startsInOrder in *. cbn [fst snd].
    rewrite andb_false_iff, !Z.ltb_ge. lia. }
  split.
  - intros Hnil a b Hin. apply Hpair; [exact Hin|].
    destruct (reported (a, b)) eqn:Hr; [|reflexivity].
    assert (Hf : In (a, b) (filter reported (orderedPairs sorted)))
      by (apply filter_In; split; assumption).
    destruct (filter reported (orderedPairs sorted)); [destruct Hf | discriminate].
  - intros Hall.
    assert (Hf : filter reported (orderedPairs sorted) = []).
    { destruct (filter reported (orderedPairs sorted)) as [|[a b] tl] eqn:Hflt;
        [reflexivity|].
      assert (Hin : In (a, b) (filter reported (orderedPairs sorted)))
        by (rewrite Hflt; left; reflexivity).
      apply filter_In in Hin. destruct Hin as [Hin Hr].
      pose proof (proj2 (Hpair a b Hin) (Hall a b Hin)). congruence. }
    rewrite Hf. reflexivity.
Qed.

Lemma expandSingleEvent_positive (event : CalendarEvent) (dateRange : DateRange)
    (maxOccurrences : nat) :
  ev_start event < ev_end event ->
  Forall (fun e => ev_start e < ev_end e)
         (RecurrenceExpander.expandSingleEvent event dateRange maxOccurrences).
Proof.
  intros Hpos. unfold RecurrenceExpander.expandSingleEvent.
  destruct (ev_recurrence event) as [rrule|].
  - unfold RecurrenceExpander.between.
    apply Forall_forall. intros e He. apply filter_In in He. destruct He as [He _].
    apply in_map_iff in He. destruct He as (d & <- & _).
    unfold RecurrenceExpander.occurrenceOf, RecurrenceExpander.differenceInMilliseconds.
    cbn [ev_start ev_end]. lia.
  - destruct (RecurrenceExpander.eventIntersectsRange event dateRange);
      repeat constructor; exact Hpos.
Qed.

Lemma expandEvents_positive (clock : Clock) (dateRange : option DateRange)
    (evs : list CalendarEvent) : forall tick,
  Forall (fun e => ev_start e < ev_end e) evs ->
  Forall (fun e => ev_start e < ev_end e)
         (fst (CalendarProcessorExt.expandEvents clock tick evs dateRange)).
Proof.
  induction evs as [|e rest IH]; intros tick Hpos;
    cbn [CalendarProcessorExt.expandEvents]; [constructor|].
  inversion Hpos as [|? ? He Hrest]; subst.
  destruct (ev_recurrence e) as [rrule|] eqn:Hrec.
  - destruct dateRange as [r|].
    + specialize (IH tick Hrest).
      destruct (CalendarProcessorExt.expandEvents clock tick rest (Some r))
        as [more tick2].
      cbn [fst] in *. apply Forall_app. split; [|exact IH].
      apply expandSingleEvent_positive, He.
    + specialize (IH (S (S tick)) Hrest).
      destruct (CalendarProcessorExt.expandEvents clock (S (S tick)) rest None)
        as [more tick2].
      cbn [fst] in *. apply Forall_app. split; [|exact IH].
      apply expandSingleEvent_positive, He.
  - specialize (IH tick Hrest).
    destruct (CalendarProcessorExt.expandEvents clock tick rest dateRange)
      as [more tick2].
    cbn [fst] in *. constructor; assumption.
Qed.

Lemma expandAll_positive (clock : Clock) (dateRange : option DateRange)
    (calendars : list ParticipantCalendar) : forall tick,
  Forall (fun c => Forall (fun e => ev_start e < ev_end e) (events c)) calendars ->
  Forall (fun c => Forall (fun e => ev_start e < ev_end e) (events c))
         (fst (CalendarProcessorExt.expandAll clock tick calendars dateRange)).
Proof.
  induction calendars as [|c rest IH]; intros tick Hpos;
    cbn [CalendarProcessorExt.expandAll]; [constructor|].
  inversion Hpos as [|? ? Hc Hrest]; subst.
  unfold CalendarProcessorExt.expandRecurringEvents.
  pose proof (expandEvents_positive clock dateRange (events c) tick Hc) as He.
  destruct (CalendarProcessorExt.expandEvents clock tick (events c) dateRange)
    as [expandedEvents tick1].
  specialize (IH tick1 Hrest).
  destruct (CalendarProcessorExt.expandAll clock tick1 rest dateRange) as [more tick2].
  cbn [fst] in *. constructor; [exact He | exact IH].
Qed.

(** X13. When every event of the calendars ends after it starts,
    [detectConflicts] reports no conflict exactly when, in each calendar
    after the expansion of its recurring events, no two events overlap. *)
Theorem detectConflicts_none_iff_disjoint (clock : Clock) (tick : nat)
    (calendars : list ParticipantCalendar) (dateRange : option DateRange) :
  Forall (fun c => Forall (fun e => ev_start e < ev_end e) (events c)) calendars ->
  (hasConflicts (fst (CalendarProcessorExt.detectConflicts clock tick calendars
                        dateRange)) = false
   <-> Forall (fun c => ForallOrdPairs disjointEvents (events c))
              (fst (CalendarProcessorExt.expandAll clock tick calendars dateRange))).
Proof.
  intros Hpos. pose proof (expandAll_positive clock dateRange calendars tick Hpos) as Hexp.
  unfold CalendarProcessorExt.detectConflicts.
  destruct (CalendarProcessorExt.expandAll clock tick calendars dateRange)
    as [expanded tick1].
  cbn [fst] in *. rewrite detectLoop_lists. cbn [fst hasConflicts].
  clear Hpos. induction expanded as [|c rest IH]; cbn [flat_map].
  - split; [constructor | reflexivity].
  - inversion Hexp as [|? ? Hc Hrest]; subst. specialize (IH Hrest).
    rewrite length_app.
    pose proof (detectParticipantConflicts_none c Hc) as Hone.
    split.
    + intros H. apply Nat.ltb_ge in H.
      constructor.
      * apply Hone. destruct (CalendarProcessor.detectParticipantConflicts c);
          [reflexivity | simpl in H; lia].
      * apply IH. apply Nat.ltb_ge. lia.
    + intros H. inversion H as [|? ? H1 H2]; subst.
      apply Hone in H1. rewrite H1. apply IH, H2.
Qed.

(** The calendar with two overlapping events. *)
Lemma detectConflicts_none_iff_disjoint_witness :
  hasConflicts (fst (CalendarProcessorExt.detectConflicts mondayClock 0
                       [calendarWithOverlap] None)) = false
  <-> Forall (fun c => ForallOrdPairs disjointEvents (events c))
             (fst (CalendarProcessorExt.expandAll mondayClock 0 [calendarWithOverlap]
                     None)).
Proof.
  apply (detectConflicts_none_iff_disjoint mondayClock 0 [calendarWithOverlap] None).
  constructor; [|constructor].
  constructor; [vm_compute; reflexivity|].
  constructor; [vm_compute; reflexivity | constructor].
Defined.

(** ** RecurrenceExpander: the expansion of a list of events *)

Section ExpansionFacts.

Import RecurrenceExpander RecurrenceExpanderExt.

Lemma between_iter_in (after before : Date) (iterator : Date -> nat -> bool)
    (dates : list Date) : forall acc d,
  In d (between_iter dates after before iterator acc) ->
  In d acc \/ (In d dates /\ after <= d <= before).
Proof.
  induction dates as [|x rest IH]; intros acc d; cbn [between_iter]; [tauto|].
  destruct (x <? after) eqn:Ha.
  { intros H. destruct (IH _ _ H) as [H1 | [H1 H2]]; [tauto | right; split; [right|]; tauto]. }
  destruct (before <? x) eqn:Hb; [tauto|].
  destruct (iterator x (List.length acc)); [|tauto].
  intros H. destruct (IH _ _ H) as [H1 | [H1 H2]].
  - apply in_app_iff in H1. destruct H1 as [H1 | [<- | []]]; [tauto|].
    right. apply Z.ltb_ge in Ha. apply Z.ltb_ge in Hb. split; [left; reflexivity | lia].
  - right. split; [right|]; tauto.
Qed.

Lemma filter_all {A : Type} (f : A -> bool) (l : list A) :
  Forall (fun x => f x = true) l -> filter f l = l.
Proof.
  induction 1 as [|x t Hx Ht IH]; cbn [filter]; [reflexivity|].
  rewrite Hx, IH. reflexivity.
Qed.

Lemma filter_filter_weaker {A : Type} (f g : A -> bool) (l : list A) :
  (forall x, f x = true -> g x = true) ->
  filter f (filter g l) = filter f l.
Proof.
  intros Himp. induction l as [|x t IH]; cbn [filter]; [reflexivity|].
  destruct (g x) eqn:Hg; cbn [filter].
  - rewrite IH. reflexivity.
  - destruct (f x) eqn:Hf; [|exact IH].
    rewrite (Himp x Hf) in Hg. discriminate.
Qed.

(** What [expandSingleEvent] returns for an event: the event itself when
    it does not recur, and otherwise occurrences of the same length as the
    event that start at dates of its rule from the start of the range on;
    in each case only what intersects the range. *)
Lemma expandSingleEvent_occurrences (event : CalendarEvent) (dateRange : DateRange)
    (maxOccurrences : nat) :
  Forall (fun o =>
            eventIntersectsRange o dateRange = true
            /\ ev_end o - ev_start o = ev_end event - ev_start event
            /\ match ev_recurrence event with
               | None => o = event
               | Some rrule =>
                   In (ev_start o) (rr_dates rrule)
                   /\ range_start dateRange <= ev_start o <= range_end dateRange
               end)
         (expandSingleEvent event dateRange maxOccurrences).
Proof.
  unfold expandSingleEvent. destruct (ev_recurrence event) as [rrule|].
  - unfold between. apply Forall_forall. intros o Ho.
    apply filter_In in Ho. destruct Ho as [Ho Hint].
    apply in_map_iff in Ho. destruct Ho as (d & <- & Hd).
    apply between_iter_in in Hd. destruct Hd as [[] | [Hd Hwin]].
    split; [exact Hint|].
    unfold occurrenceOf, differenceInMilliseconds in *. cbn [ev_start ev_end] in *.
    split; [lia|]. split; [exact Hd|].
    unfold eventIntersectsRange, isAfter, isBefore in Hint. cbn [ev_start ev_end] in Hint.
    apply negb_true_iff, orb_false_iff in Hint. destruct Hint as [H1 _].
    apply Z.ltb_ge in H1. lia.
  - destruct (eventIntersectsRange event dateRange) eqn:Hint; [|constructor].
    constructor; [|constructor]. split; [exact Hint|]. split; reflexivity.
Qed.

End ExpansionFacts.

(** X14. [RecurrenceExpander.expandRecurringEvents] returns events sorted
    by start, all of which intersect the date range, so that
    [filterRelevantEvents] for the same range leaves the result as it is.
    Each of them has the length of an event of the input: that event
    itself when it has no rule, and otherwise an occurrence that starts at
    a date of its rule between the start and the end of the range.  An
    event without a rule that intersects the range is always kept. *)
Theorem expandRecurringEvents_sorted_within_range (evs : list CalendarEvent)
    (dateRange : DateRange) (maxOccurrences : nat) :
  let expanded := RecurrenceExpanderExt.expandRecurringEvents evs dateRange
                    maxOccurrences in
  StronglySorted startsInOrder expanded
  /\ Forall (fun o =>
               RecurrenceExpander.eventIntersectsRange o dateRange = true
               /\ exists event,
                    In event evs
                    /\ ev_end o - ev_start o = ev_end event - ev_start event
                    /\ match ev_recurrence event with
                       | None => o = event
                       | Some rrule =>
                           In (ev_start o) (rr_dates rrule)
                           /\ range_start dateRange <= ev_start o <= range_end dateRange
                       end)
            expanded
  /\ RecurrenceExpanderExt.filterRelevantEvents expanded dateRange = expanded
  /\ (forall event,
        In event evs -> ev_recurrence event = None ->
        RecurrenceExpander.eventIntersectsRange event dateRange = true ->
        In event expanded).
Proof.
  cbv zeta. unfold RecurrenceExpanderExt.expandRecurringEvents.
  set (body := fun event =>
                 match ev_recurrence event with
                 | Some _ => RecurrenceExpander.expandSingleEvent event dateRange maxOccurrences
                 | None =>
                     if RecurrenceExpander.eventIntersectsRange event dateRange
                     then [event] else []
                 end).
  assert (Hbody : forall event,
             body event
             = RecurrenceExpander.expandSingleEvent event dateRange maxOccurrences).
  { intros event. unfold body, RecurrenceExpander.expandSingleEvent.
    destruct (ev_recurrence event); reflexivity. }
  assert (Hall : Forall (fun o =>
               RecurrenceExpander.eventIntersectsRange o dateRange = true
               /\ exists event,
                    In event evs
                    /\ ev_end o - ev_start o = ev_end event - ev_start event
                    /\ match ev_recurrence event with
                       | None => o = event
                       | Some rrule =>
                           In (ev_start o) (rr_dates rrule)
                           /\ range_start dateRange <= ev_start o <= range_end dateRange
                       end)
            (JS.sort_by CalendarProcessor.byStart (flat_map body evs))).
  { apply Forall_forall. intros o Ho. apply sort_by_in in Ho.
    apply in_flat_map in Ho. destruct Ho as (event & Hev & Ho).
    rewrite Hbody in Ho.
    pose proof (expandSingleEvent_occurrences event dateRange maxOccurrences) as H.
    rewrite Forall_forall in H. destruct (H o Ho) as (H1 & H2 & H3).
    split; [exact H1|]. exists event. auto. }
  split; [apply sortByStart_sorted|]. split; [exact Hall|]. split.
  - unfold RecurrenceExpanderExt.filterRelevantEvents. apply filter_all.
    eapply Forall_impl; [|exact Hall]. intros o Ho. cbv beta in Ho. tauto.
  - intros event Hin Hrec Hint. apply sort_by_in. apply in_flat_map.
    exists event. split; [exact Hin|]. unfold body. rewrite Hrec, Hint. left. reflexivity.
Qed.

(** X15. With a buffer that is not negative, the expansion range contains
    the scheduling range: an event that intersects the scheduling range
    intersects the expansion range, and filtering for the expansion range
    first loses nothing of what [filterRelevantEvents] keeps for the
    scheduling range. *)
Theorem filterRelevantEvents_through_expansion_range (evs : list CalendarEvent)
    (schedulingRange : DateRange) (bufferDays : Z) :
  0 <= bufferDays ->
  (forall event,
     RecurrenceExpander.eventIntersectsRange event schedulingRange = true ->
     RecurrenceExpander.eventIntersectsRange event
       (RecurrenceExpanderExt.createExpansionRange schedulingRange bufferDays) = true)
  /\ RecurrenceExpanderExt.filterRelevantEvents
       (RecurrenceExpanderExt.filterRelevantEvents evs
          (RecurrenceExpanderExt.createExpansionRange schedulingRange bufferDays))
       schedulingRange
     = RecurrenceExpanderExt.filterRelevantEvents evs schedulingRange.
Proof.
  intros Hb.
  assert (Himp : forall event,
     RecurrenceExpander.eventIntersectsRange event schedulingRange = true ->
     RecurrenceExpander.eventIntersectsRange event
       (RecurrenceExpanderExt.createExpansionRange schedulingRange bufferDays) = true).
  { intros event. unfold RecurrenceExpander.eventIntersectsRange,
      RecurrenceExpanderExt.createExpansionRange, RecurrenceExpander.isAfter,
      RecurrenceExpander.isBefore, RecurrenceExpander.addDays.
    cbn [range_start range_end].
    rewrite !negb_true_iff, !orb_false_iff, !Z.ltb_ge.
    unfold MS_PER_DAY, MS_PER_HOUR, MS_PER_MINUTE. lia. }
  split; [exact Himp|].
  unfold RecurrenceExpanderExt.filterRelevantEvents.
  apply filter_filter_weaker. exact Himp.
Qed.

(** A buffer of 30 days around the Monday morning. *)
Lemma filterRelevantEvents_through_expansion_range_witness :
  RecurrenceExpanderExt.filterRelevantEvents
    (RecurrenceExpanderExt.filterRelevantEvents (events busyUser1)
       (RecurrenceExpanderExt.createExpansionRange mondayMorning 30))
    mondayMorning
  = RecurrenceExpanderExt.filterRelevantEvents (events busyUser1) mondayMorning.
Proof.
  apply (filterRelevantEvents_through_expansion_range (events busyUser1) mondayMorning 30).
  lia.
Defined.

(** ** ICalParser: validated content *)

Section ValidationParseFacts.

Import JS ICalParser ICalParserExt.

Context {D R : Type} (host : Host D R).

(** An event component without a validation error has a UID, and a
    DTSTART that is a single string which [parseDateTime] accepts. *)
Lemma validateEvent_clean (event : ICalComponent) (index : nat) :
  validateEvent host event index = [] ->
  truthy (getProp (properties event) "UID") = true
  /\ exists s date,
       getProp (properties event) "DTSTART" = Some (PStr s)
       /\ parseDateTime host (PStr s) = Returns date.
Proof.
  unfold validateEvent. intros H.
  apply app_eq_nil in H. destruct H as [Huid H].
  apply app_eq_nil in H. destruct H as [Hstart _].
  split.
  - destruct (truthy (getProp (properties event) "UID")); [reflexivity | discriminate].
  - destruct (truthy (getProp (properties event) "DTSTART")) eqn:Ht; [|discriminate].
    destruct (getProp (properties event) "DTSTART") as [[s|l]|] eqn:Hp.
    + destruct (parseDateTime host (PStr s)) as [date| |] eqn:Hd; try discriminate.
      exists s, date. split; [reflexivity | exact Hd].
    + cbn [parseDateTime] in Hstart. discriminate.
    + discriminate.
Qed.

Lemma eventErrors_clean (vevents : list ICalComponent) : forall index,
  eventErrors host index vevents = [] ->
  Forall (fun event =>
            truthy (getProp (properties event) "UID") = true
            /\ exists s date,
                 getProp (properties event) "DTSTART" = Some (PStr s)
                 /\ parseDateTime host (PStr s) = Returns date)
         vevents.
Proof.
  induction vevents as [|v rest IH]; intros index H; [constructor|].
  cbn [eventErrors] in H. apply app_eq_nil in H. destruct H as [Hv Hrest].
  constructor; [eapply validateEvent_clean; exact Hv | eapply IH; exact Hrest].
Qed.

Lemma firstEventTimezone_returns (vevents : list ICalComponent) :
  Forall (fun event => exists s, getProp (properties event) "DTSTART" = Some (PStr s))
         vevents ->
  exists tz, firstEventTimezone vevents = Returns tz.
Proof.
  induction 1 as [|v rest [s Hs] Hrest IH]; cbn [firstEventTimezone]; [eauto|].
  rewrite Hs. destruct (truthy (Some (PStr s))); [|exact IH].
  cbn [extractEventTimezone].
  destruct (endsWith s "Z").
  - cbn [bind]. destruct (negb (String.eqb "UTC" "") && negb (String.eqb "UTC" "UTC"))%bool;
      [eauto | exact IH].
  - cbn [bind]. destruct (matchTZID s) as [z|]; [|exact IH].
    destruct (negb (String.eqb z "") && negb (String.eqb z "UTC"))%bool; [eauto | exact IH].
Qed.

Lemma extractTimezone_returns (components : list ICalComponent) :
  Forall (fun event => exists s, getProp (properties event) "DTSTART" = Some (PStr s))
         (filter isVEVENT components) ->
  exists tz, extractTimezone components = Returns tz.
Proof.
  intros H. unfold extractTimezone.
  destruct (find (fun c => String.eqb (comp_type c) "VTIMEZONE") components) as [vtz|].
  - destruct (truthy (getProp (properties vtz) "TZID")); [eauto|].
    apply firstEventTimezone_returns, H.
  - apply firstEventTimezone_returns, H.
Qed.

Lemma validateICalContent_facts (content : string) :
  isValid (validateICalContent host content) = true ->
  includes content "BEGIN:VCALENDAR" = true
  /\ includes content "END:VCALENDAR" = true
  /\ includes content "BEGIN:VEVENT" = true
  /\ Forall (fun event =>
               truthy (getProp (properties event) "UID") = true
               /\ exists s date,
                    getProp (properties event) "DTSTART" = Some (PStr s)
                    /\ parseDateTime host (PStr s) = Returns date)
            (filter isVEVENT (parseComponents (preprocessICalContent content))).
Proof.
  unfold validateICalContent. cbn [isValid].
  match goal with
  | |- (match ?l with _ => _ end) = true -> _ => destruct l eqn:Herr; [|discriminate]
  end.
  intros _.
  apply app_eq_nil in Herr. destruct Herr as [H1 Herr].
  apply app_eq_nil in Herr. destruct Herr as [H2 Herr].
  apply app_eq_nil in Herr. destruct Herr as [H3 Herr].
  apply app_eq_nil in Herr. destruct Herr as [_ H5].
  split; [destruct (includes content "BEGIN:VCALENDAR"); [reflexivity | discriminate]|].
  split; [destruct (includes content "END:VCALENDAR"); [reflexivity | discriminate]|].
  split; [destruct (includes content "BEGIN:VEVENT"); [reflexivity | discriminate]|].
  eapply eventErrors_clean. exact H5.
Qed.

Lemma validated_content_parses (content : string) (participantName : option string)
    (random : string) :
  isValid (validateICalContent host content) = true ->
  exists calendar,
    parseICalContent host content participantName random = Returns calendar
    /\ pc_events calendar
       = extractEvents host (parseComponents (preprocessICalContent content)).
Proof.
  intros Hvalid. destruct (validateICalContent_facts content Hvalid) as (Hb & _ & _ & Hev).
  unfold parseICalContent. rewrite Hb. cbn [negb].
  destruct (extractTimezone_returns (parseComponents (preprocessICalContent content)))
    as [tz Htz].
  { eapply Forall_impl; [|exact Hev]. intros event (_ & s & date & Hs & _). eauto. }
  rewrite Htz. cbn [bind try_catch]. eexists. split; reflexivity.
Qed.

End ValidationParseFacts.

(** X16. Content that [validateICalContent] finds valid is parsed:
    [parseICalContent] returns a calendar for it.  In such content both
    container markers and an event are present, and every event component
    has a UID and a DTSTART that is a single value which [parseDateTime]
    accepts. *)
Theorem validateICalContent_valid_parses {D R : Type} (host : ICalParser.Host D R)
    (content : string) (participantName : option string) (random : string) :
  isValid (ICalParserExt.validateICalContent host content) = true ->
  (exists calendar,
     ICalParser.parseICalContent host content participantName random = Returns calendar)
  /\ JS.includes content "BEGIN:VCALENDAR" = true
  /\ JS.includes content "END:VCALENDAR" = true
  /\ JS.includes content "BEGIN:VEVENT" = true
  /\ Forall (fun event =>
               ICalParser.truthy (ICalParser.getProp (ICalParser.properties event) "UID")
               = true
               /\ exists s date,
                    ICalParser.getProp (ICalParser.properties event) "DTSTART"
                    = Some (ICalParser.PStr s)
                    /\ ICalParser.parseDateTime host (ICalParser.PStr s) = Returns date)
            (filter ICalParser.isVEVENT
               (ICalParser.parseComponents (ICalParser.preprocessICalContent content))).
Proof.
  intros Hvalid. split.
  - destruct (validated_content_parses host content participantName random Hvalid)
      as (calendar & Hc & _).
    exists calendar. exact Hc.
  - apply validateICalContent_facts. exact Hvalid.
Qed.

(** The calendar text with one event, on the host of the examples. *)
Lemma validateICalContent_valid_parses_witness :
  (exists calendar,
     ICalParser.parseICalContent acceptingHost calendarWithOneEvent None
       "x1"%string
     = Returns calendar)
  /\ JS.includes calendarWithOneEvent "BEGIN:VCALENDAR" = true.
Proof.
  destruct (validateICalContent_valid_parses acceptingHost calendarWithOneEvent None
              "x1"%string)
    as (H1 & H2 & _).
  - vm_compute. reflexivity.
  - split; [exact H1 | exact H2].
Defined.

(** ** CalendarProcessor: cleaned events *)

Section TrimFacts.

Import JS.
#[local] Open Scope string_scope.

Lemma append_empty_r (s : string) : s ++ "" = s.
Proof. induction s as [|c t IH]; simpl; [reflexivity | now rewrite IH]. Qed.

Lemma append_assoc' (a b c : string) : (a ++ b) ++ c = a ++ (b ++ c).
Proof. induction a as [|x t IH]; simpl; [reflexivity | now rewrite IH]. Qed.

Lemma rev_string_app (a b : string) :
  rev_string (a ++ b) = rev_string b ++ rev_string a.
Proof.
  induction a as [|x t IH]; simpl.
  - now rewrite append_empty_r.
  - rewrite IH, append_assoc'. reflexivity.
Qed.

Lemma rev_string_involutive (s : string) : rev_string (rev_string s) = s.
Proof.
  induction s as [|c t IH]; simpl; [reflexivity|].
  rewrite rev_string_app, IH. reflexivity.
Qed.

Lemma trimStart_noLeadingSpace (s : string) : noLeadingSpace (trimStart s).
Proof.
  induction s as [|c t IH]; simpl; [exact I|].
  destruct (isSpace c) eqn:Hc; [exact IH | exact Hc].
Qed.

Lemma trimStart_fixed (s : string) : noLeadingSpace s -> trimStart s = s.
Proof. destruct s as [|c t]; simpl; [reflexivity|]. intros ->. reflexivity. Qed.

(** [trimStart] takes a run of white space off the front. *)
Lemma trimStart_split (s : string) : exists w, s = w ++ trimStart s.
Proof.
  induction s as [|c t IH]; simpl.
  - exists "". reflexivity.
  - destruct (isSpace c).
    + destruct IH as (w & Hw). exists (String c w). simpl. rewrite <- Hw. reflexivity.
    + exists "". reflexivity.
Qed.

(** Taking white space off the end leaves the front as it is. *)
Lemma trimEnd_noLeadingSpace (a : string) :
  noLeadingSpace a -> noLeadingSpace (rev_string (trimStart (rev_string a))).
Proof.
  intros Ha. destruct (trimStart_split (rev_string a)) as (w & Hw).
  set (b := trimStart (rev_string a)) in *.
  assert (Heq : a = rev_string b ++ rev_string w).
  { rewrite <- rev_string_app, <- Hw, rev_string_involutive. reflexivity. }
  destruct (rev_string b) as [|c t] eqn:Hb; [exact I|].
  rewrite Heq in Ha. simpl in Ha. exact Ha.
Qed.

Lemma trim_idempotent (s : string) : trim (trim s) = trim s.
Proof.
  unfold trim.
  rewrite (trimStart_fixed (rev_string (trimStart (rev_string (trimStart s)))))
    by (apply trimEnd_noLeadingSpace, trimStart_noLeadingSpace).
  rewrite rev_string_involutive.
  rewrite (trimStart_fixed (trimStart (rev_string (trimStart s))))
    by apply trimStart_noLeadingSpace.
  reflexivity.
Qed.

End TrimFacts.

Section CleaningFacts.

Import CalendarProcessorExt.
#[local] Open Scope string_scope.

Lemma orString_nonempty (s d : string) : d <> "" -> orString s d <> "".
Proof. destruct s; simpl; [auto | discriminate]. Qed.

Lemma cleanEvent_idempotent (event : UncheckedEvent) :
  cleanEvent (cleanEvent event) = cleanEvent event.
Proof.
  unfold cleanEvent. cbn [un_id un_summary un_start un_end un_timezone un_recurrence
                            un_status].
  f_equal.
  - destruct (JS.trim (un_summary event)) as [|c t] eqn:Ht; cbn [orString].
    + reflexivity.
    + rewrite <- Ht, trim_idempotent, Ht. reflexivity.
  - destruct (un_timezone event); reflexivity.
Qed.

Lemma date_ge_false (a b : JSDate) :
  date_ge a b = false <-> (forall x y, a = Some x -> b = Some y -> x < y).
Proof.
  unfold date_ge. destruct a as [x|], b as [y|]; split; try discriminate; try reflexivity.
  - intros H x' y' Hx Hy. inversion Hx; inversion Hy; subst. apply Z.leb_gt. exact H.
  - intros H. apply Z.leb_gt. apply H; reflexivity.
Qed.

Lemma validateAndCleanEvents_cleaned (participantId : string)
    (evs : list UncheckedEvent) :
  Forall (fun e => un_status e <> cancelled /\ un_id e <> ""
                   /\ date_ge (un_start e) (un_end e) = false
                   /\ un_summary e <> "" /\ un_timezone e <> ""
                   /\ cleanEvent e = e)
         (cleanedEvents (validateAndCleanEvents evs participantId))
  /\ (List.length (cleanedEvents (validateAndCleanEvents evs participantId))
      + List.length (validationErrors (validateAndCleanEvents evs participantId))
      + cancelledCount evs = List.length evs)%nat.
Proof.
  unfold cancelledCount.
  induction evs as [|e rest [IH1 IH2]]; cbn [validateAndCleanEvents filter].
  - split; [constructor | reflexivity].
  - destruct (status_eqb (un_status e) cancelled) eqn:Hst;
      cbn [cleanedEvents validationErrors List.length].
    { split; [exact IH1 | lia]. }
    destruct (String.eqb (un_id e) "") eqn:Hid;
      cbn [cleanedEvents validationErrors List.length].
    { split; [exact IH1 | lia]. }
    destruct (date_ge (un_start e) (un_end e)) eqn:Hord;
      cbn [cleanedEvents validationErrors List.length].
    { split; [exact IH1 | lia]. }
    split; [|lia].
    constructor; [|exact IH1].
    apply String.eqb_neq in Hid.
    unfold cleanEvent at 1 2 3 4 5 6.
    cbn [un_id un_summary un_start un_end un_timezone un_status].
    split; [destruct (un_status e); simpl in Hst; congruence|].
    split; [exact Hid|]. split; [exact Hord|].
    split; [apply orString_nonempty; discriminate|].
    split; [apply orString_nonempty; discriminate|].
    apply cleanEvent_idempotent.
Qed.

(** Events that are already clean pass unchanged and without an error. *)
Lemma validateAndCleanEvents_fixed (participantId : string) (evs : list UncheckedEvent) :
  Forall (fun e => un_status e <> cancelled /\ un_id e <> ""
                   /\ date_ge (un_start e) (un_end e) = false /\ cleanEvent e = e) evs ->
  cleanedEvents (validateAndCleanEvents evs participantId) = evs
  /\ validationErrors (validateAndCleanEvents evs participantId) = [].
Proof.
  induction 1 as [|e rest (Hst & Hid & Hord & Hclean) Hrest [IH1 IH2]];
    cbn [validateAndCleanEvents]; [split; reflexivity|].
  assert (H1 : status_eqb (un_status e) cancelled = false)
    by (destruct (un_status e); simpl; congruence).
  apply String.eqb_neq in Hid.
  rewrite H1, Hid, Hord. cbn [cleanedEvents validationErrors].
  rewrite Hclean, IH1, IH2. split; reflexivity.
Qed.

(** An event with an invalid date that is not cancelled and has an id is
    not rejected. *)
Lemma validateAndCleanEvents_keeps_invalid_dates (participantId : string)
    (evs : list UncheckedEvent) (e : UncheckedEvent) :
  In e evs -> un_status e <> cancelled -> un_id e <> "" ->
  un_start e = None \/ un_end e = None ->
  In (cleanEvent e) (cleanedEvents (validateAndCleanEvents evs participantId)).
Proof.
  intros Hin Hst Hid Hdate.
  induction evs as [|x rest IH]; [destruct Hin|].
  cbn [validateAndCleanEvents].
  assert (Hrest : In e rest ->
                  In (cleanEvent e)
                     (cleanedEvents (validateAndCleanEvents rest participantId)))
    by exact IH.
  destruct Hin as [-> | Hin].
  - assert (H1 : status_eqb (un_status e) cancelled = false)
      by (destruct (un_status e); simpl; congruence).
    apply String.eqb_neq in Hid.
    assert (H3 : date_ge (un_start e) (un_end e) = false).
    { unfold date_ge. destruct Hdate as [-> | ->]; [reflexivity|].
      destruct (un_start e); reflexivity. }
    rewrite H1, Hid, H3. left. reflexivity.
  - destruct (status_eqb (un_status x) cancelled); [apply Hrest, Hin|].
    destruct (String.eqb (un_id x) ""); [apply Hrest, Hin|].
    destruct (date_ge (un_start x) (un_end x)); [apply Hrest, Hin|].
    right. apply Hrest, Hin.
Qed.

End CleaningFacts.

(** X17. Every event that [validateAndCleanEvents] keeps is not cancelled,
    has an id, a summary and a time zone that are not empty, and, when both
    its dates are valid, ends after it starts; each event of the input is
    kept, reported as an error, or cancelled.  An event one of whose dates
    is an Invalid Date is not rejected for it: if it is not cancelled and
    has an id, it is kept.  Cleaning what has been cleaned changes nothing:
    the same events are kept, for whichever participant, and no error is
    reported. *)
Theorem validateAndCleanEvents_clean_and_stable (evs : list UncheckedEvent)
    (participantId participantId' : string) :
  let result := CalendarProcessorExt.validateAndCleanEvents evs participantId in
  Forall (fun e => un_status e <> cancelled /\ un_id e <> ""%string
                   /\ (forall s t, un_start e = Some s -> un_end e = Some t -> s < t)
                   /\ un_summary e <> ""%string /\ un_timezone e <> ""%string)
         (cleanedEvents result)
  /\ (List.length (cleanedEvents result) + List.length (validationErrors result)
      + cancelledCount evs = List.length evs)%nat
  /\ (forall e,
        In e evs -> un_status e <> cancelled -> un_id e <> ""%string ->
        un_start e = None \/ un_end e = None ->
        In (CalendarProcessorExt.cleanEvent e) (cleanedEvents result))
  /\ cleanedEvents
       (CalendarProcessorExt.validateAndCleanEvents (cleanedEvents result) participantId')
     = cleanedEvents result
  /\ validationErrors
       (CalendarProcessorExt.validateAndCleanEvents (cleanedEvents result) participantId')
     = [].
Proof.
  cbv zeta.
  destruct (validateAndCleanEvents_cleaned participantId evs) as [Hall Hcount].
  split.
  { eapply Forall_impl; [|exact Hall]. intros e He. cbv beta in He.
    destruct He as (H1 & H2 & H3 & H4 & H5 & _).
    repeat split; try assumption. apply date_ge_false. exact H3. }
  split; [exact Hcount|].
  split; [intros e; apply validateAndCleanEvents_keeps_invalid_dates|].
  apply validateAndCleanEvents_fixed.
  eapply Forall_impl; [|exact Hall]. intros e He. cbv beta in He. tauto.
Qed.

(** An event whose start is an Invalid Date, as [parseDateTime] returns it
    for fifteen characters with a [T] that are no date, is kept. *)
Example validateAndCleanEvents_keeps_invalid_start :
  cleanedEvents
    (CalendarProcessorExt.validateAndCleanEvents
       [mkUnchecked "e1" "Meeting" None (Some 0) "UTC" None confirmed] "p1")
  = [mkUnchecked "e1" "Meeting" None (Some 0) "UTC" None confirmed].
Proof. reflexivity. Qed.

(** ** TimezoneUtils: normalized names *)

Section TimezoneFacts.

Import TimezoneUtils.
#[local] Open Scope string_scope.

(** No name that the table maps to is itself a key of the table. *)
Lemma TIMEZONE_MAPPINGS_values (timezone mapped : string) :
  JS.lookup TIMEZONE_MAPPINGS timezone = Some mapped ->
  JS.lookup TIMEZONE_MAPPINGS mapped = None.
Proof.
  unfold TIMEZONE_MAPPINGS. cbn [JS.lookup].
  repeat match goal with
         | |- context [String.eqb ?k timezone] => destruct (String.eqb k timezone)
         end;
    intros H; inversion H; reflexivity.
Qed.

End TimezoneFacts.

(** X18. On a host that accepts the zone UTC, [normalizeTimezone] always
    returns a zone that the host accepts, and returns such a name
    unchanged when it is normalized again. *)
Theorem normalizeTimezone_valid_and_stable (isValidTimezone : string -> bool)
    (timezone : string) :
  isValidTimezone "UTC"%string = true ->
  isValidTimezone (TimezoneUtils.normalizeTimezone isValidTimezone timezone) = true
  /\ TimezoneUtils.normalizeTimezone isValidTimezone
       (TimezoneUtils.normalizeTimezone isValidTimezone timezone)
     = TimezoneUtils.normalizeTimezone isValidTimezone timezone.
Proof.
  intros Hutc. unfold TimezoneUtils.normalizeTimezone at 1 3 4.
  destruct (JS.lookup TimezoneUtils.TIMEZONE_MAPPINGS timezone) as [mapped|] eqn:Hl.
  - destruct (isValidTimezone mapped) eqn:Hm.
    + split; [exact Hm|]. unfold TimezoneUtils.normalizeTimezone.
      rewrite (TIMEZONE_MAPPINGS_values _ _ Hl), Hm. reflexivity.
    + destruct (isValidTimezone timezone) eqn:Hz.
      * split; [exact Hz|]. unfold TimezoneUtils.normalizeTimezone.
        rewrite Hl, Hm, Hz. reflexivity.
      * split; [exact Hutc|]. unfold TimezoneUtils.normalizeTimezone.
        cbn [JS.lookup TimezoneUtils.TIMEZONE_MAPPINGS]. rewrite Hutc. reflexivity.
  - destruct (isValidTimezone timezone) eqn:Hz.
    + split; [exact Hz|]. unfold TimezoneUtils.normalizeTimezone.
      rewrite Hl, Hz. reflexivity.
    + split; [exact Hutc|]. unfold TimezoneUtils.normalizeTimezone.
      cbn [JS.lookup TimezoneUtils.TIMEZONE_MAPPINGS]. rewrite Hutc. reflexivity.
Qed.

(** The Windows name of the zone of New York on a host that knows it. *)
Lemma normalizeTimezone_valid_and_stable_witness :
  twoZones (TimezoneUtils.normalizeTimezone twoZones "Eastern Standard Time"%string)
  = true
  /\ TimezoneUtils.normalizeTimezone twoZones
       (TimezoneUtils.normalizeTimezone twoZones "Eastern Standard Time"%string)
     = TimezoneUtils.normalizeTimezone twoZones "Eastern Standard Time"%string.
Proof.
  apply (normalizeTimezone_valid_and_stable twoZones "Eastern Standard Time"%string).
  reflexivity.
Defined.

(** X19. The route builds its scheduler with [new MeetingScheduler()],
    whose processor is an instance of the class [CalendarProcessor] and has
    no method [getBusyPeriods]: for every request that the route validates
    and finds a search range for, [scheduleOptimalMeeting] throws a
    [SchedulingError] with the code [SCHEDULING_FAILED]. *)
Theorem analyze_route_request_fails_without_getBusyPeriods (fmt : Formatter)
    (now : Date) (participants : list ParticipantCalendar)
    (preferences : MeetingPreferences) (searchRange : DateRange) :
  AnalyzeRoute.validateMeetingPreferences preferences = None ->
  AnalyzeRoute.calculateSearchRange now participants = Some searchRange ->
  exists message,
    MeetingScheduler.scheduleOptimalMeeting shippedProcessor fmt participants
      preferences searchRange
    = Throws (SchedulingError message "SCHEDULING_FAILED").
Proof.
  intros Hv Hr. apply scheduleOptimalMeeting_without_getBusyPeriods.
  eapply route_request_valid; eassumption.
Qed.

Lemma analyze_route_request_fails_without_getBusyPeriods_witness :
  exists message,
    MeetingScheduler.scheduleOptimalMeeting shippedProcessor plainFormatter
      [busyUser1; user2] defaultPreferences sampleSearchRange
    = Throws (SchedulingError message "SCHEDULING_FAILED").
Proof.
  apply (analyze_route_request_fails_without_getBusyPeriods plainFormatter
           (monday + 8 * MS_PER_HOUR)).
  - reflexivity.
  - vm_compute; reflexivity.
Defined.

(** ** ICalParser: participant ids *)

Section SlugFacts.

Import JS ICalParser.
#[local] Open Scope string_scope.

Lemma keepSlugChars_all (s : string) : allSlugChars (keepSlugChars s) = true.
Proof.
  induction s as [|c t IH]; simpl; [reflexivity|].
  destruct (isSlugChar c) eqn:Hc; simpl; [rewrite Hc|]; exact IH.
Qed.

Lemma isSlugChar_cases (c : ascii) :
  isSlugChar c = true ->
  ((97 <= nat_of_ascii c <= 122) \/ (48 <= nat_of_ascii c <= 57)
   \/ nat_of_ascii c = 45)%nat.
Proof.
  unfold isSlugChar, isDigit. intros H.
  apply orb_true_iff in H. destruct H as [H | H].
  - apply orb_true_iff in H. destruct H as [H | H];
      apply andb_true_iff in H; destruct H as [H1 H2];
      apply Nat.leb_le in H1; apply Nat.leb_le in H2; lia.
  - apply Ascii.eqb_eq in H. subst c. right. right. reflexivity.
Qed.

Lemma lowerChar_slug (c : ascii) : isSlugChar c = true -> lowerChar c = c.
Proof.
  intros H. apply isSlugChar_cases in H. unfold lowerChar.
  destruct ((65 <=? nat_of_ascii c) && (nat_of_ascii c <=? 90))%nat eqn:Hu;
    [|reflexivity].
  apply andb_true_iff in Hu. destruct Hu as [H1 H2].
  apply Nat.leb_le in H1. apply Nat.leb_le in H2. lia.
Qed.

Lemma isSpace_slug (c : ascii) : isSlugChar c = true -> isSpace c = false.
Proof.
  intros H. apply isSlugChar_cases in H. unfold isSpace.
  apply orb_false_iff. split.
  - apply andb_false_iff.
    destruct (9 <=? nat_of_ascii c)%nat eqn:H1; [right | left; reflexivity].
    apply Nat.leb_gt. lia.
  - apply Nat.eqb_neq. lia.
Qed.

Lemma slug_fixed (s : string) :
  allSlugChars s = true ->
  toLowerCase s = s
  /\ (forall inRun, dashSpaces inRun s = s)
  /\ keepSlugChars s = s.
Proof.
  induction s as [|c t IH]; simpl; [auto|].
  intros H. apply andb_true_iff in H. destruct H as [Hc Ht].
  destruct (IH Ht) as (IH1 & IH2 & IH3).
  unfold toLowerCase in *. cbn [mapChars].
  rewrite (lowerChar_slug c Hc), (isSpace_slug c Hc), Hc.
  split; [f_equal; exact IH1|]. split.
  - intros inRun. rewrite IH2. reflexivity.
  - rewrite IH3. reflexivity.
Qed.

End SlugFacts.

(** X20. The participant id that [generateParticipantId] derives from a
    name consists of lower-case letters, digits and hyphens only; and when
    it is not empty, the id derived from that id is the id itself. *)
Theorem generateParticipantId_slug (name : string) (random random' : string) :
  name <> EmptyString ->
  let id := ICalParser.generateParticipantId (Some name) random in
  allSlugChars id = true
  /\ (id <> EmptyString -> ICalParser.generateParticipantId (Some id) random' = id).
Proof.
  intros Hname. cbv zeta.
  destruct name as [|c t]; [congruence|].
  cbn [ICalParser.generateParticipantId].
  set (id := ICalParser.keepSlugChars
               (ICalParser.dashSpaces false (JS.toLowerCase (String c t)))).
  assert (Hall : allSlugChars id = true) by apply keepSlugChars_all.
  split; [exact Hall|].
  intros Hne. destruct id as [|d u] eqn:Hid; [congruence|].
  cbn [ICalParser.generateParticipantId].
  destruct (slug_fixed (String d u) Hall) as (H1 & H2 & H3).
  rewrite H1, H2, H3. reflexivity.
Qed.

Lemma generateParticipantId_slug_witness :
  allSlugChars (ICalParser.generateParticipantId (Some "John Doe"%string) EmptyString)
  = true
  /\ (ICalParser.generateParticipantId (Some "John Doe"%string) EmptyString <> EmptyString ->
      ICalParser.generateParticipantId
        (Some (ICalParser.generateParticipantId (Some "John Doe"%string) EmptyString))
        EmptyString
      = ICalParser.generateParticipantId (Some "John Doe"%string) EmptyString).
Proof.
  apply (generateParticipantId_slug "John Doe"%string EmptyString EmptyString).
  discriminate.
Defined.

(** ** MeetingScheduler: conflicts per participant *)

Section CountFacts.

Import MeetingScheduler.

Lemma lookup_mapSet {A : Type} (m : list (string * A)) (k k' : string) (v : A) :
  JS.lookup (mapSet m k v) k' = if String.eqb k k' then Some v else JS.lookup m k'.
Proof.
  induction m as [|[k0 v0] t IH]; cbn [mapSet JS.lookup].
  - destruct (String.eqb k k'); reflexivity.
  - destruct (String.eqb_spec k0 k) as [-> | Hne]; cbn [JS.lookup].
    + destruct (String.eqb k k'); reflexivity.
    + rewrite IH. destruct (String.eqb_spec k0 k') as [-> | Hne'].
      * destruct (String.eqb_spec k k') as [-> | _]; [congruence | reflexivity].
      * reflexivity.
Qed.

(** The table after the participants have been entered with a count of 0. *)
Lemma initial_counts (participants : list ParticipantCalendar) (pid : string) :
  forall m : list (string * JS.num),
    JS.lookup (fold_left (fun m p => mapSet m (participantId p) (Some 0))
                 participants m) pid
    = if existsb (String.eqb pid) (map participantId participants)
      then Some (Some 0) else JS.lookup m pid.
Proof.
  induction participants as [|p rest IH]; intros m; cbn [fold_left map existsb];
    [reflexivity|].
  rewrite IH, lookup_mapSet.
  destruct (existsb (String.eqb pid) (map participantId rest)).
  - rewrite orb_true_r. reflexivity.
  - rewrite orb_false_r. rewrite (String.eqb_sym pid). 
    destruct (String.eqb (participantId p) pid); reflexivity.
Qed.

(** The inner loop: one increment for each occurrence of the id. *)
Lemma counted_conflicts (ids : list string) (pid : string) :
  forall (m : list (string * JS.num)) z,
  JS.lookup m pid = Some (Some z) ->
  JS.lookup (fold_left (fun m id => mapSet m id (increment (JS.lookup m id))) ids m) pid
  = Some (Some (z + Z.of_nat (count_occ string_dec ids pid))).
Proof.
  induction ids as [|id rest IH]; intros m z Hm; cbn [fold_left count_occ].
  - rewrite Hm. f_equal. f_equal. lia.
  - destruct (string_dec id pid) as [-> | Hne].
    + rewrite (IH _ (z + 1)).
      * f_equal. f_equal. lia.
      * rewrite lookup_mapSet, String.eqb_refl, Hm. reflexivity.
    + rewrite (IH _ z); [reflexivity|].
      rewrite lookup_mapSet. apply String.eqb_neq in Hne. rewrite Hne. exact Hm.
Qed.

End CountFacts.

(** X21. For every participant of the request, the count that
    [analyzeConflicts] reports is the number of times the participant's id
    occurs in the conflicts of the slots.  (The id is not [__proto__],
    which an object used as a table does not store.) *)
Theorem analyzeConflicts_participant_counts (slots : list TimeSlot)
    (participants : list ParticipantCalendar) (pid : string) :
  In pid (map participantId participants) ->
  pid <> "__proto__"%string ->
  JS.lookup (participantConflicts (MeetingScheduler.analyzeConflicts slots participants))
            pid
  = Some (Some (conflictCountOf pid slots)).
Proof.
  intros Hin _. unfold MeetingScheduler.analyzeConflicts.
  match goal with
  | |- context [fold_left ?f slots (0, ?init, [])] =>
      set (step := f); set (initial := init)
  end.
  assert (Hinit : @JS.lookup JS.num initial pid = Some (Some 0)).
  { subst initial. rewrite initial_counts.
    assert (H : existsb (String.eqb pid) (map participantId participants) = true).
    { apply existsb_exists. exists pid. split; [exact Hin | apply String.eqb_refl]. }
    rewrite H. reflexivity. }
  assert (Hfold : forall l (acc : Z * list (string * JS.num)
                                    * list ((Date * Date) * list string)) z,
             JS.lookup (snd (fst acc)) pid = Some (Some z) ->
             JS.lookup (snd (fst (fold_left step l acc))) pid
             = Some (Some (z + conflictCountOf pid l))).
  { induction l as [|slot rest IH]; intros [[t pp] bs] z Hz;
      cbn [fold_left conflictCountOf fold_right].
    - cbn [fst snd] in *. rewrite Hz. f_equal. f_equal. lia.
    - rewrite (IH _ (z + Z.of_nat (count_occ string_dec (conflicts slot) pid))).
      + fold (conflictCountOf pid rest). f_equal. f_equal. lia.
      + unfold step. cbn [fst snd] in *. apply counted_conflicts. exact Hz. }
  specialize (Hfold slots (0, initial, []) 0 Hinit).
  destruct (fold_left step slots (0, initial, [])) as [[t pp] bs].
  cbn [fst snd participantConflicts] in *. rewrite Hfold. reflexivity.
Qed.

(** User 1 is in conflict in two of the three slots of the sample result. *)
Lemma analyzeConflicts_participant_counts_witness :
  JS.lookup
    (participantConflicts
       (MeetingScheduler.analyzeConflicts (availableSlots resultWithConflicts)
          [user1; user2]))
    "user1"%string
  = Some (Some (conflictCountOf "user1"%string (availableSlots resultWithConflicts))).
Proof.
  apply (analyzeConflicts_participant_counts (availableSlots resultWithConflicts)
           [user1; user2] "user1"%string).
  - left. reflexivity.
  - discriminate.
Defined.

(** ** ICalParser: the outcomes of a parse *)

Section OutcomeFacts.

Import JS ICalParser.
#[local] Open Scope string_scope.

Context {D R : Type} (host : Host D R).

Lemma processAll_length (vevents : list ICalComponent) :
  (List.length (processAll host vevents) <= List.length vevents)%nat.
Proof.
  induction vevents as [|v rest IH]; cbn [processAll List.length]; [lia|].
  destruct (processEvent host v); cbn [List.length]; lia.
Qed.

Lemma firstEventTimezone_outcome (vevents : list ICalComponent) :
  match firstEventTimezone vevents with
  | Returns None => True
  | Returns (Some tz) => truthy (Some tz) = true
  | Throws _ => Exists (fun v => exists l, getProp (properties v) "DTSTART" = Some (PArr l))
                       vevents
  | OutOfFuel => False
  end.
Proof.
  induction vevents as [|v rest IH]; cbn [firstEventTimezone]; [exact I|].
  assert (Hrest : match firstEventTimezone rest with
                  | Returns None => True
                  | Returns (Some tz) => truthy (Some tz) = true
                  | Throws _ =>
                      Exists (fun v => exists l,
                                getProp (properties v) "DTSTART" = Some (PArr l))
                             (v :: rest)
                  | OutOfFuel => False
                  end).
  { destruct (firstEventTimezone rest) as [[tz|]| |]; try exact IH.
    apply Exists_cons_tl. exact IH. }
  destruct (truthy (getProp (properties v) "DTSTART")); [|exact Hrest].
  destruct (getProp (properties v) "DTSTART") as [[s|l]|] eqn:Hp; [| |exact Hrest].
  - cbn [extractEventTimezone].
    destruct (endsWith s "Z"); cbn [bind].
    + exact Hrest.
    + destruct (matchTZID s) as [z|]; [|exact Hrest].
      destruct (String.eqb z "") eqn:Hz; cbn [negb andb]; [exact Hrest|].
      destruct (String.eqb z "UTC"); cbn [negb]; [exact Hrest|].
      destruct z; [discriminate | reflexivity].
  - cbn [extractEventTimezone bind]. apply Exists_cons_hd. exists l. exact Hp.
Qed.

End OutcomeFacts.

(** X22. [parseICalContent] either returns a calendar or throws an
    [ICalParseError], nothing else.  It throws only when the content lacks
    the text BEGIN:VCALENDAR or some event component carries DTSTART more
    than once.  A calendar it returns has the source "ical", a time zone
    that is not empty, and no more events than the content has event
    components. *)
Theorem parseICalContent_returns_or_ICalParseError {D R : Type}
    (host : ICalParser.Host D R) (content : string) (participantName : option string)
    (random : string) :
  (exists calendar,
     ICalParser.parseICalContent host content participantName random = Returns calendar
     /\ JS.includes content "BEGIN:VCALENDAR" = true
     /\ ICalParser.pc_source calendar = "ical"%string
     /\ ICalParser.truthy (Some (ICalParser.pc_timezone calendar)) = true
     /\ (List.length (ICalParser.pc_events calendar)
         <= List.length
              (filter ICalParser.isVEVENT
                 (ICalParser.parseComponents
                    (ICalParser.preprocessICalContent content))))%nat)
  \/ (exists message,
        ICalParser.parseICalContent host content participantName random
        = Throws (ICalParseError message)
        /\ (JS.includes content "BEGIN:VCALENDAR" = false
            \/ Exists (fun v => exists l,
                         ICalParser.getProp (ICalParser.properties v) "DTSTART"
                         = Some (ICalParser.PArr l))
                      (filter ICalParser.isVEVENT
                         (ICalParser.parseComponents
                            (ICalParser.preprocessICalContent content))))).
Proof.
  unfold ICalParser.parseICalContent.
  destruct (JS.includes content "BEGIN:VCALENDAR") eqn:Hb; cbn [negb].
  2:{ right. eexists. split; [reflexivity | left; reflexivity]. }
  set (components := ICalParser.parseComponents
                       (ICalParser.preprocessICalContent content)).
  assert (Htz : match ICalParser.extractTimezone components with
                | Returns None => True
                | Returns (Some tz) => ICalParser.truthy (Some tz) = true
                | Throws _ =>
                    Exists (fun v => exists l,
                              ICalParser.getProp (ICalParser.properties v)
                                "DTSTART"%string
                              = Some (ICalParser.PArr l))
                           (filter ICalParser.isVEVENT components)
                | OutOfFuel => False
                end).
  { unfold ICalParser.extractTimezone.
    destruct (find (fun c => String.eqb (ICalParser.comp_type c) "VTIMEZONE")
                   components) as [vtz|].
    - destruct (ICalParser.truthy
                  (ICalParser.getProp (ICalParser.properties vtz) "TZID")) eqn:Ht.
      + destruct (ICalParser.getProp (ICalParser.properties vtz) "TZID");
          [exact Ht | exact I].
      + apply firstEventTimezone_outcome.
    - apply firstEventTimezone_outcome. }
  destruct (ICalParser.extractTimezone components) as [tz|e|]; cbn [bind try_catch].
  - left. eexists. split; [reflexivity|]. split; [reflexivity|].
    split; [reflexivity|]. cbn [ICalParser.pc_timezone ICalParser.pc_events]. split.
    + destruct tz as [tz|]; [|reflexivity]. rewrite Htz. exact Htz.
    + unfold ICalParser.extractEvents. apply processAll_length.
  - right. destruct e; eexists; (split; [reflexivity | right; exact Htz]).
  - destruct Htz.
Qed.
